(** * Guardian Protocol API: the request-orchestration layer of [src/index.js]

    A shallow embedding of the three Express handlers ([/analyze], [/graph],
    [/jeeter]) together with the JavaScript primitives they rely on
    ([String], [Number], [trim], [toLowerCase], [Math.max], [Math.min],
    property reads, object literals with spread), followed by the properties
    of the handlers.

    Conventions of the model.
    - A JavaScript string is a [string] whose characters are UTF-16 code
      units below 256.
    - A JavaScript number is an IEEE-754 binary64 value, a [spec_float] of
      the standard library at precision 53 and maximal exponent 1024.
    - A raw query value is what the query parser may leave in [req.query]:
      a string, an array or a nested object; an absent key is [None].
    - The services imported by [index.js] are not part of the file; they are
      the field [services] of a [world].  A call settles: it returns a value
      or throws one.  Any value may be returned and any value thrown.
    - The body of a response is the value handed to [res.json], before it is
      serialised. *)

From Stdlib Require Import ZArith QArith Qminmax Lia List Ascii String
  DecimalString SpecFloat.
From stdpp Require Import gmap strings.

Local Open Scope string_scope.
Local Open Scope Z_scope.

#[local] Set Warnings "-register-all".

(** ** Strings *)

Module JsString.

Definition code (c : ascii) : N := N_of_ascii c.

(** [WhiteSpace] and [LineTerminator] code units below 256: TAB, LF, VT,
    FF, CR, SP and NBSP. *)
Definition is_space (c : ascii) : bool :=
  let n := code c in
  ((9 <=? n) && (n <=? 13) || (n =? 32) || (n =? 160))%N.

Fixpoint drop_space (l : list ascii) : list ascii :=
  match l with
  | c :: l' => if is_space c then drop_space l' else l
  | [] => []
  end.

(** [String.prototype.trim] *)
Definition trim (s : string) : string :=
  string_of_list_ascii
    (rev (drop_space (rev (drop_space (list_ascii_of_string s))))).

(** Lower-case mapping of one code unit: A-Z, and the Latin-1 capitals
    U+00C0..U+00DE without the multiplication sign U+00D7. *)
Definition lower (c : ascii) : ascii :=
  let n := code c in
  if ((65 <=? n) && (n <=? 90)
      || (192 <=? n) && (n <=? 222) && negb (n =? 215))%N
  then ascii_of_N (n + 32) else c.

(** [String.prototype.toLowerCase] *)
Fixpoint toLowerCase (s : string) : string :=
  match s with
  | EmptyString => EmptyString
  | String c s' => String (lower c) (toLowerCase s')
  end.

(** [Array.prototype.join] with separator [sep] *)
Fixpoint join (sep : string) (l : list string) : string :=
  match l with
  | [] => ""
  | [s] => s
  | s :: l' => s +:+ sep +:+ join sep l'
  end.

End JsString.

(** ** Numbers *)

Module JsNumber.

Definition number := spec_float.

Definition prec : Z := 53.
Definition emax : Z := 1024.

Definition NaN : number := S754_nan.

(** The double nearest to the integer [z] (ties to even). *)
Definition of_Z (z : Z) : number := binary_normalize prec emax z 0 false.

(** The double nearest to [(-1)^neg * n * 10^k], for [n >= 0].  For a
    negative [k] the quotient is taken on the grid of step [2^-1075], half
    of the smallest gap between two doubles, and a sticky bit records a
    non-zero remainder, so that rounding the quotient rounds the exact
    value. *)
Definition of_decimal (neg : bool) (n : Z) (k : Z) : number :=
  let sgn (m : Z) := if neg then - m else m in
  if 0 <=? k then binary_normalize prec emax (sgn (n * 10 ^ k)) 0 neg
  else
    let den := 10 ^ (- k) in
    let num := n * 2 ^ 1075 in
    let q := num / den in
    let sticky := if num mod den =? 0 then 0 else 1 in
    binary_normalize prec emax (sgn (2 * q + sticky)) (- 1076) neg.

(** [Number.isFinite] *)
Definition isFinite (n : number) : bool :=
  match n with
  | S754_zero _ | S754_finite _ _ _ => true
  | S754_infinity _ | S754_nan => false
  end.

(** The exact value of a finite double (0 for the others). *)
Definition to_Q (n : number) : Q :=
  match n with
  | S754_finite s m e =>
      ((if s then - 1 else 1) * inject_Z (Zpos m) * 2 ^ e)%Q
  | _ => 0%Q
  end.

(** [a < b] on doubles: false when either is NaN, the two zeros are
    equal. *)
Definition lt (a b : number) : bool :=
  match a, b with
  | S754_nan, _ | _, S754_nan => false
  | S754_infinity true, S754_infinity true => false
  | S754_infinity true, _ => true
  | _, S754_infinity true => false
  | S754_infinity false, _ => false
  | _, S754_infinity false => true
  | _, _ => negb (Qle_bool (to_Q b) (to_Q a))
  end.

Definition is_nan (n : number) : bool :=
  match n with S754_nan => true | _ => false end.

Definition is_pos_zero (n : number) : bool :=
  match n with S754_zero false => true | _ => false end.

Definition is_neg_zero (n : number) : bool :=
  match n with S754_zero true => true | _ => false end.

(** [Math.max]: the running maximum starts at -Infinity; +0 is larger
    than -0; any NaN argument makes the result NaN. *)
Fixpoint max_from (highest : number) (l : list number) : number :=
  match l with
  | [] => highest
  | n :: l' =>
      let highest :=
        if is_pos_zero n && is_neg_zero highest then n
        else if lt highest n then n else highest in
      max_from highest l'
  end.

Definition Math_max (l : list number) : number :=
  if existsb is_nan l then NaN else max_from (S754_infinity true) l.

(** [Math.min]: the running minimum starts at +Infinity; -0 is smaller
    than +0. *)
Fixpoint min_from (lowest : number) (l : list number) : number :=
  match l with
  | [] => lowest
  | n :: l' =>
      let lowest :=
        if is_neg_zero n && is_pos_zero lowest then n
        else if lt n lowest then n else lowest in
      min_from lowest l'
  end.

Definition Math_min (l : list number) : number :=
  if existsb is_nan l then NaN else min_from (S754_infinity false) l.

(** *** [StringToNumber] *)

Definition digit_of (base : N) (c : ascii) : option Z :=
  let n := JsString.code c in
  let d :=
    if ((48 <=? n) && (n <=? 57))%N then Some (n - 48)%N
    else if ((97 <=? n) && (n <=? 102))%N then Some (n - 87)%N
    else if ((65 <=? n) && (n <=? 70))%N then Some (n - 55)%N
    else None in
  match d with
  | Some v => if (v <? base)%N then Some (Z.of_N v) else None
  | None => None
  end.

(** The longest prefix of digits of [l] in [base], and what follows it. *)
Fixpoint span_digits (base : N) (l : list ascii) : list Z * list ascii :=
  match l with
  | c :: l' =>
      match digit_of base c with
      | Some d => let '(ds, r) := span_digits base l' in (d :: ds, r)
      | None => ([], l)
      end
  | [] => ([], [])
  end.

Definition digits_value (base : Z) (ds : list Z) : Z :=
  fold_left (fun acc d => acc * base + d) ds 0.

(** An optional sign: whether it is a minus, and what follows it. *)
Definition take_sign (l : list ascii) : bool * list ascii :=
  match l with
  | "+"%char :: l' => (false, l')
  | "-"%char :: l' => (true, l')
  | _ => (false, l)
  end.

(** [ExponentPart] (optional) up to the end of the literal. *)
Definition exponent_part (l : list ascii) : option Z :=
  match l with
  | [] => Some 0
  | c :: l' =>
      if (Ascii.eqb c "e" || Ascii.eqb c "E")%bool then
        let '(neg, l'') := take_sign l' in
        match span_digits 10 l'' with
        | ((_ :: _) as ds, []) =>
            let v := digits_value 10 ds in Some (if neg then - v else v)
        | _ => None
        end
      else None
  end.

(** [StrUnsignedDecimalLiteral] other than [Infinity]. *)
Definition unsigned_decimal (neg : bool) (l : list ascii) : number :=
  let '(ints, r1) := span_digits 10 l in
  let '(fracs, r2) :=
    match r1 with
    | "."%char :: r => span_digits 10 r
    | _ => ([], r1)
    end in
  match (ints ++ fracs)%list with
  | [] => NaN
  | ds =>
      match exponent_part r2 with
      | Some ex =>
          of_decimal neg (digits_value 10 ds) (ex - Z.of_nat (length fracs))
      | None => NaN
      end
  end.

(** [NonDecimalIntegerLiteral]: the digits after the [0x], [0o] or [0b]
    prefix. *)
Definition non_decimal (base : N) (l : list ascii) : number :=
  match span_digits base l with
  | ((_ :: _) as ds, []) => of_Z (digits_value (Z.of_N base) ds)
  | _ => NaN
  end.

Definition infinity_word : list ascii := list_ascii_of_string "Infinity".

Definition str_decimal (l : list ascii) : number :=
  let '(neg, l') := take_sign l in
  if decide (l' = infinity_word) then S754_infinity neg
  else unsigned_decimal neg l'.

(** [StringToNumber]: white space is trimmed, the empty string is 0, a
    literal is decimal (with sign, fraction, exponent or [Infinity]) or an
    unsigned [0x], [0o], [0b] integer, anything else is NaN.  A decimal
    literal is rounded exactly, whatever the number of its digits. *)
Definition StringToNumber (s : string) : number :=
  let l :=
    rev (JsString.drop_space
           (rev (JsString.drop_space (list_ascii_of_string s)))) in
  match l with
  | [] => S754_zero false
  | "0"%char :: p :: l' =>
      if (Ascii.eqb p "x" || Ascii.eqb p "X")%bool then non_decimal 16 l'
      else if (Ascii.eqb p "o" || Ascii.eqb p "O")%bool then non_decimal 8 l'
      else if (Ascii.eqb p "b" || Ascii.eqb p "B")%bool then non_decimal 2 l'
      else str_decimal l
  | _ => str_decimal l
  end.

End JsNumber.

(** ** Values *)

Module JsValue.
Import JsNumber.

(** The values that flow between the handlers and the services.  An
    object is the list of its own enumerable data properties in insertion
    order; [array] tells an array (whose index properties are listed like
    the others) from a plain object.  JavaScript enumerates integer keys
    before the others: the order of the list plays no role below. *)
Inductive value :=
| VUndef
| VNull
| VBool (b : bool)
| VNum (n : number)
| VStr (s : string)
| VObj (array : bool) (props : list (string * value)).

Definition props := list (string * value).

(** [ToBoolean] *)
Definition truthy (v : value) : bool :=
  match v with
  | VUndef | VNull => false
  | VBool b => b
  | VNum (S754_zero _) | VNum S754_nan => false
  | VNum _ => true
  | VStr s => negb (String.eqb s "")
  | VObj _ _ => true
  end.

(** [a || b] *)
Definition or (a b : value) : value := if truthy a then a else b.

(** [v === s] for a string literal [s] *)
Definition strict_eq_str (v : value) (s : string) : bool :=
  match v with
  | VStr t => String.eqb t s
  | _ => false
  end.

Fixpoint lookup_prop (k : string) (ps : props) : option value :=
  match ps with
  | [] => None
  | (k', v) :: ps' => if String.eqb k' k then Some v else lookup_prop k ps'
  end.

(** Defining property [k]: an existing property keeps its place and takes
    the new value, a new one goes last. *)
Fixpoint set_prop (k : string) (v : value) (ps : props) : props :=
  match ps with
  | [] => [(k, v)]
  | (k', v') :: ps' =>
      if String.eqb k' k then (k, v) :: ps' else (k', v') :: set_prop k v ps'
  end.

(** An object literal: the properties are defined from left to right. *)
Definition literal (l : props) : props :=
  fold_left (fun acc kv => set_prop (fst kv) (snd kv) acc) l [].

Definition object (l : props) : value := VObj false (literal l).

Definition empty_array : value := VObj true [].

(** A canonical array index: decimal digits without a leading zero. *)
Definition index_of (k : string) : option nat :=
  match span_digits 10 (list_ascii_of_string k) with
  | ([0], []) => Some 0%nat
  | (0 :: _, _) => None
  | ((_ :: _) as ds, []) => Some (Z.to_nat (digits_value 10 ds))
  | _ => None
  end.

Definition index_key (i : nat) : string :=
  NilZero.string_of_uint (Nat.to_uint i).

Fixpoint chars_from (i : nat) (s : string) : props :=
  match s with
  | EmptyString => []
  | String c s' => (index_key i, VStr (String c "")) :: chars_from (S i) s'
  end.

(** The own enumerable properties copied by a spread [...v]. *)
Definition own_props (v : value) : props :=
  match v with
  | VObj _ ps => ps
  | VStr s => chars_from 0 s
  | _ => []
  end.

(** Reading data property [k] of a value that is neither [undefined] nor
    [null].  The handlers read named data properties and index 0 only;
    inherited built-ins ([length], methods) are not values of the model. *)
Definition get_data (v : value) (k : string) : value :=
  match v with
  | VObj _ ps => default VUndef (lookup_prop k ps)
  | VStr s =>
      match index_of k with
      | Some i =>
          match String.get i s with
          | Some c => VStr (String c "")
          | None => VUndef
          end
      | None => VUndef
      end
  | _ => VUndef
  end.

Definition nullish (v : value) : bool :=
  match v with VUndef | VNull => true | _ => false end.

(** [v?.k] *)
Definition opt_get (v : value) (k : string) : value :=
  if nullish v then VUndef else get_data v k.

Definition type_name (v : value) : string :=
  match v with VNull => "null" | _ => "undefined" end.

(** An [Error] object carries its text in [message] (which JavaScript does
    not enumerate; no thrown value is ever spread). *)
Definition TypeError (msg : string) : value :=
  VObj false [("message", VStr msg)].

Definition spread (v : value) (acc : props) : props :=
  fold_left (fun acc kv => set_prop (fst kv) (snd kv) acc) (own_props v) acc.

End JsValue.

(** ** Raw query values *)

Module Query.
Import JsNumber.

(** What the query parser leaves in [req.query] under a key: a string, an
    array, or a nested object whose keys never shadow those of
    [Object.prototype].  An absent key reads as [undefined], here [None]. *)
Inductive qval :=
| QStr (s : string)
| QArr (l : list qval)
| QObj (props : list (string * qval)).

(** [String(q)] *)
Fixpoint ToString (q : qval) : string :=
  match q with
  | QStr s => s
  | QArr l => JsString.join "," (map ToString l)
  | QObj _ => "[object Object]"
  end.

(** [Number(q)]: an array or an object is first turned into its string. *)
Definition ToNumber (q : qval) : number := StringToNumber (ToString q).

(** [ToBoolean]: only the empty string is falsy. *)
Definition to_boolean (q : qval) : bool :=
  match q with
  | QStr s => negb (String.eqb s "")
  | _ => true
  end.

(** [String(v || d)] for a string literal [d] *)
Definition string_or (v : option qval) (d : string) : string :=
  match v with
  | Some q => if to_boolean q then ToString q else d
  | None => d
  end.

(** [Number(v)] *)
Definition Number (v : option qval) : number :=
  match v with
  | Some q => ToNumber q
  | None => NaN
  end.

End Query.

(** ** Effects: calls to the services, the console, exceptions *)

Module Eff.
Import JsValue.

(** The functions [index.js] imports from [./services/] and calls. *)
Inductive collaborator :=
| readErc20Meta
| approxTopHoldersPct
| getContractSource
| buildEvmGraph
| jeeterReport
| looksLikeSolAddress
| analyzeSolMint
| buildSolGraph
| getDexScreenerPairs.

#[global] Instance collaborator_eq_dec : EqDecision collaborator.
Proof. solve_decision. Defined.

Inductive completion (A : Type) :=
| Normal (a : A)
| Throw (e : value).
Arguments Normal {A} a.
Arguments Throw {A} e.

Inductive event :=
| Call (c : collaborator) (args : list value)
| console_error (args : list value).

(** One entry of the table returned by [getChains()].  [explorer] is only
    ever spliced into a template string. *)
Record ChainConfig := {
  kind : value;
  rpc : value;
  explorer : string;
  scanKey : value
}.

(** What surrounds the handlers.  [getChains w !! k] stands for the read
    [chains[k]] of the table that [getChains()] returns, [None] when the
    read gives [undefined]; [BIRDEYE] is the constant of line 24. *)
Record world := {
  getChains : gmap string ChainConfig;
  BIRDEYE : string;
  services : collaborator -> list value -> completion value
}.

(** A computation appends to the trace of events and completes normally
    or abruptly. *)
Definition M (A : Type) : Type := list event -> completion A * list event.

Definition ret {A} (a : A) : M A := fun t => (Normal a, t).

Definition throw {A} (e : value) : M A := fun t => (Throw e, t).

Definition bind {A B} (m : M A) (k : A -> M B) : M B :=
  fun t =>
    match m t with
    | (Normal a, t') => k a t'
    | (Throw e, t') => (Throw e, t')
    end.

(** [try { m } catch (e) { h e }] *)
Definition try_catch {A} (m : M A) (h : value -> M A) : M A :=
  fun t =>
    match m t with
    | (Normal a, t') => (Normal a, t')
    | (Throw e, t') => h e t'
    end.

Definition call (w : world) (c : collaborator) (args : list value) : M value :=
  fun t => (services w c args, (t ++ [Call c args])%list).

Definition log_error (args : list value) : M unit :=
  fun t => (Normal tt, (t ++ [console_error args])%list).

(** [v.k]: a [TypeError] when [v] is [undefined] or [null]. *)
Definition get (v : value) (k : string) : M value :=
  if nullish v then
    throw (TypeError ("Cannot read properties of " +:+ type_name v
                      +:+ " (reading '" +:+ k +:+ "')"))
  else ret (get_data v k).

(** [v.k = x] in strict mode: only an object takes the property. *)
Definition set (v : value) (k : string) (x : value) : M value :=
  match v with
  | VObj a ps => ret (VObj a (set_prop k x ps))
  | VUndef | VNull =>
      throw (TypeError ("Cannot set properties of " +:+ type_name v
                        +:+ " (setting '" +:+ k +:+ "')"))
  | _ => throw (TypeError ("Cannot create property '" +:+ k +:+ "'"))
  end.

End Eff.

(** ** The handlers of [index.js] *)

Module Handlers.
Import JsString JsNumber JsValue Query Eff.

Notation "'let*' x := m 'in' k" := (bind m (fun x => k))
  (at level 10, x name, m at level 100, k at level 200).
Notation "m ;;; k" := (bind m (fun _ => k))
  (at level 100, k at level 200, right associativity).

Record response := { status : Z; body : value }.

(** [res.status(code).json(b)] *)
Definition respond (code : Z) (b : value) : M response :=
  ret {| status := code; body := b |}.

(** [res.json(b)] *)
Definition json (b : value) : M response := respond 200 b.

(** [{ ok: false, error: msg }] *)
Definition failure (msg : value) : value :=
  object [("ok", VBool false); ("error", msg)].

(** [const num = (v, d) => { const n = Number(v);
                             return Number.isFinite(n) ? n : d; }] *)
Definition num (v : option qval) (d : number) : number :=
  let n := Number v in if isFinite n then n else d.

(** The parameters, derived alike by the three handlers. *)
Definition blocks_of (query : gmap string qval) : number :=
  num (query !! "window") (of_Z 200).

Definition span_of (query : gmap string qval) : number :=
  Math_max [of_Z 1; Math_min [num (query !! "span") (of_Z 5); of_Z 10]].

Definition delay_of (query : gmap string qval) : number :=
  Math_max [of_Z 0; num (query !! "delay") (of_Z 500)].

Definition chainKey_of (query : gmap string qval) : string :=
  toLowerCase (string_or (query !! "chain") "base").

Definition token_of (query : gmap string qval) : string :=
  trim (string_or (query !! "token") "").

Definition center_of (query : gmap string qval) : string :=
  toLowerCase (trim (string_or (query !! "center") "")).

Definition fast_of (query : gmap string qval) : bool :=
  String.eqb (string_or (query !! "fast") "") "1".

(** [console.error(label, e?.message || e)] *)
Definition log_failed (label : string) (e : value) : M unit :=
  log_error [VStr label; or (opt_get e "message") e].

(** The handler-wide [catch (e)]: [res.status(500)] comes first, then the
    argument of [json] reads [e.message], which throws for a thrown
    [undefined] or [null]. *)
Definition on_error (fallback : string) (e : value) : M response :=
  log_error [e] ;;;
  let* m := get e "message" in
  respond 500 (failure (or m (VStr fallback))).

Section WithWorld.
Variable w : world.

(** [if (src && !meta.k) meta.k = ...] of lines 65 and 66, for the
    property [k] of [p0.baseToken]. *)
Definition fill_from_pair (p0 : value) (k : string) (meta : value)
    : M value :=
  let* wanted :=
    (if truthy (opt_get (opt_get p0 "baseToken") k)
     then (let* cur := get meta k in ret (negb (truthy cur)))
     else ret false) in
  if wanted : bool then
    let* b := get p0 "baseToken" in
    let* x := get b k in
    set meta k x
  else ret meta.

(** Lines 60-68: name and symbol from the first DexScreener pair when
    the metadata lacks one.  The call stands for the dynamic import and
    the call together; destructuring [{ pairs }] throws on [undefined]
    and [null] like a property read (the text of that error is never
    seen).  The block yields the metadata as it leaves it.  An
    assignment to [meta] fails only when [meta] is no object, and then
    no earlier one has succeeded: the empty [catch] resumes with the
    metadata unchanged. *)
Definition fallback_name_symbol (token : string) (meta : value)
    : M value :=
  let* name := get meta "name" in
  let* missing :=
    (if truthy name
     then (let* symbol := get meta "symbol" in ret (negb (truthy symbol)))
     else ret true) in
  if missing : bool then
    try_catch
      (let* r := call w getDexScreenerPairs [VStr token] in
       let* pairs := get r "pairs" in
       let p0 := opt_get pairs "0" in
       let* meta := fill_from_pair p0 "name" meta in
       fill_from_pair p0 "symbol" meta)
      (fun _ => ret meta)
  else ret meta.

(** Lines 70-80: [top10Pct] stays [null] in fast mode and when the
    estimator throws. *)
Definition top_holders (fast : bool) (token : string) (meta : value)
    (blocks span delay : number) : M value :=
  if negb fast then
    try_catch
      (let* provider := get meta "provider" in
       let* iface := get meta "iface" in
       let* decimals := get meta "decimals" in
       call w approxTopHoldersPct
         [object [("provider", provider); ("iface", iface);
                  ("token", VStr token); ("decimals", decimals);
                  ("blocks", VNum blocks); ("span", VNum span);
                  ("delay", VNum delay)]])
      (fun e => log_failed "approxTopHoldersPct failed:" e ;;; ret VNull)
  else ret VNull.

(** Lines 82-86: [contractVerified] and [explorerOwner].  Once
    [src.verified] has been read, reading [src.owner] cannot throw, so
    the two variables are assigned together or not at all. *)
Definition contract_source (chainKey token : string) (chain : ChainConfig)
    : M (value * value) :=
  try_catch
    (let* src := call w getContractSource
                   [VStr chainKey; VStr token; scanKey chain] in
     let* verified := get src "verified" in
     let* owner := get src "owner" in
     ret (verified, owner))
    (fun _ => ret (VNull, VNull)).

(** Lines 88-101: the body of the successful EVM response *)
Definition analysis (chainKey token : string) (chain : ChainConfig)
    (fast : bool) (blocks span delay : number)
    (name symbol decimals totalSupply owner ownerRenounced : value)
    (top10Pct contractVerified explorerOwner : value) : value :=
  object
    [("ok", VBool true);
     ("facts", object
        [("chain", VStr chainKey); ("token", VStr token);
         ("name", name); ("symbol", symbol);
         ("decimals", decimals); ("totalSupply", totalSupply);
         ("owner", owner); ("ownerRenounced", ownerRenounced);
         ("lp", object [("locked", VNull); ("locker", VNull);
                        ("unlockDate", VNull)]);
         ("holders", object [("top10Pct", top10Pct)])]);
     ("contractVerified", contractVerified);
     ("explorerOwner", explorerOwner);
     ("explorer", VStr (explorer chain +:+ "/token/" +:+ token));
     ("mode", VStr (if fast then "fast" else "standard"));
     ("windowBlocks", VNum blocks);
     ("span", VNum span);
     ("delay", VNum delay)].

(** [app.get("/analyze", ...)] *)
Definition analyze (query : gmap string qval) : M response :=
  let chainKey := chainKey_of query in
  let token := token_of query in
  let fast := fast_of query in
  let blocks := blocks_of query in
  let span := span_of query in
  let delay := delay_of query in
  try_catch
    (match getChains w !! chainKey with
     | None => respond 400 (failure (VStr "Unknown chain"))
     | Some chain =>
         if String.eqb token "" then
           respond 400 (failure (VStr "Missing token/mint"))
         else if strict_eq_str (kind chain) "evm" then
           let* meta := call w readErc20Meta
                          [object [("rpc", rpc chain);
                                   ("token", VStr token)]] in
           let* meta := fallback_name_symbol token meta in
           let* top10Pct :=
             top_holders fast token meta blocks span delay in
           let* cs := contract_source chainKey token chain in
           let* name := get meta "name" in
           let* symbol := get meta "symbol" in
           let* decimals := get meta "decimals" in
           let* totalSupply := get meta "totalSupply" in
           let* owner := get meta "owner" in
           let* ownerRenounced := get meta "ownerRenounced" in
           json (analysis chainKey token chain fast blocks span delay
                   name symbol decimals totalSupply owner ownerRenounced
                   top10Pct (fst cs) (snd cs))
         else if strict_eq_str (kind chain) "solana" then
           let* out := call w analyzeSolMint
                         [object [("rpc", rpc chain); ("mint", VStr token);
                                  ("explorer", VStr (explorer chain));
                                  ("birdeyeApiKey", VStr (BIRDEYE w))]] in
           json out
         else respond 400 (failure (VStr "Unsupported chain kind"))
     end)
    (on_error "Analyze failed").

Definition empty_graph : value :=
  object [("fromBlock", VNull); ("toBlock", VNull);
          ("nodes", empty_array); ("links", empty_array)].

(** [{ ok: true, ...r, windowBlocks: blocks, span, delay }] *)
Definition with_window (r : value) (blocks span delay : number) : value :=
  VObj false
    (set_prop "delay" (VNum delay)
       (set_prop "span" (VNum span)
          (set_prop "windowBlocks" (VNum blocks)
             (spread r (literal [("ok", VBool true)]))))).

(** Lines 133-138: the graph stays empty when the builder throws. *)
Definition evm_graph (token center : string) (meta : value)
    (blocks span delay : number) : M value :=
  try_catch
    (let* provider := get meta "provider" in
     call w buildEvmGraph
       [object [("provider", provider); ("token", VStr token);
                ("center", VStr center);
                ("blocks", VNum blocks); ("span", VNum span);
                ("delay", VNum delay)]])
    (fun e => log_failed "buildEvmGraph failed:" e ;;; ret empty_graph).

(** [app.get("/graph", ...)] *)
Definition graph (query : gmap string qval) : M response :=
  let chainKey := chainKey_of query in
  let token := token_of query in
  let center := center_of query in
  let blocks := blocks_of query in
  let span := span_of query in
  let delay := delay_of query in
  try_catch
    (match getChains w !! chainKey with
     | None => respond 400 (failure (VStr "Unknown chain"))
     | Some chain =>
         if String.eqb token "" || String.eqb center "" then
           respond 400 (failure (VStr "Missing token/center"))
         else if strict_eq_str (kind chain) "evm" then
           let* meta := call w readErc20Meta
                          [object [("rpc", rpc chain);
                                   ("token", VStr token)]] in
           let* g := evm_graph token center meta blocks span delay in
           json (with_window g blocks span delay)
         else if strict_eq_str (kind chain) "solana" then
           let* looks := call w looksLikeSolAddress [VStr center] in
           if negb (truthy looks) then
             respond 400 (failure (VStr "Bad Sol address"))
           else
             let* g := call w buildSolGraph
                         [object [("mint", VStr token);
                                  ("center", VStr center);
                                  ("birdeyeApiKey", VStr (BIRDEYE w))]] in
             json (VObj false (spread g (literal [("ok", VBool true)])))
         else respond 400 (failure (VStr "Unsupported chain kind"))
     end)
    (on_error "Graph failed").

Definition empty_report : value :=
  object [("priceNow", VNull); ("fromBlock", VNull); ("toBlock", VNull);
          ("jeeters", empty_array)].

(** Lines 170-175: the report stays empty when the reporter throws. *)
Definition evm_report (chainKey token : string) (meta : value)
    (blocks span delay : number) : M value :=
  try_catch
    (let* provider := get meta "provider" in
     let* decimals := get meta "decimals" in
     call w jeeterReport
       [object [("chainKey", VStr chainKey); ("token", VStr token);
                ("provider", provider); ("decimals", decimals);
                ("blocks", VNum blocks); ("span", VNum span);
                ("delay", VNum delay)]])
    (fun e => log_failed "jeeterReport failed:" e ;;; ret empty_report).

(** [app.get("/jeeter", ...)] *)
Definition jeeter (query : gmap string qval) : M response :=
  let chainKey := chainKey_of query in
  let token := token_of query in
  let blocks := blocks_of query in
  let span := span_of query in
  let delay := delay_of query in
  try_catch
    (match getChains w !! chainKey with
     | None => respond 400 (failure (VStr "EVM only"))
     | Some chain =>
         if negb (strict_eq_str (kind chain) "evm") then
           respond 400 (failure (VStr "EVM only"))
         else
           let* meta := call w readErc20Meta
                          [object [("rpc", rpc chain);
                                   ("token", VStr token)]] in
           let* r :=
             evm_report chainKey token meta blocks span delay in
           json (with_window r blocks span delay)
     end)
    (on_error "Jeeter failed").

End WithWorld.

(** Serving one request: how the handler completes and the events it
    caused, in order.  A handler that completes with [Throw] has sent no
    response. *)
Definition serve (h : world -> gmap string qval -> M response)
    (w : world) (query : gmap string qval)
    : completion response * list event :=
  h w query [].

End Handlers.

(** ** Observing a served request *)

Module Observe.
Import JsNumber JsValue Query Eff Handlers.

Inductive endpoint := Analyze | Graph | Jeeter.

Definition handler (ep : endpoint) : world -> gmap string qval -> M response :=
  match ep with
  | Analyze => analyze
  | Graph => graph
  | Jeeter => jeeter
  end.

(** The text of the handler-wide [catch] when the thrown value has no
    message. *)
Definition fallback_message (ep : endpoint) : string :=
  match ep with
  | Analyze => "Analyze failed"
  | Graph => "Graph failed"
  | Jeeter => "Jeeter failed"
  end.

(** The response sent, if any. *)
Definition sent (r : completion response * list event) : option response :=
  match fst r with
  | Normal x => Some x
  | Throw _ => None
  end.

Definition status_of (r : completion response * list event) : option Z :=
  status <$> sent r.

Definition invoked (c : collaborator) (t : list event) : Prop :=
  exists args, In (Call c args) t.

(** The services that a handler calls inside a [try] of their own. *)
Definition guarded (c : collaborator) : bool :=
  match c with
  | approxTopHoldersPct | getContractSource | getDexScreenerPairs
  | buildEvmGraph | jeeterReport => true
  | _ => false
  end.

(** The world [w] with its guarded services replaced by [f]. *)
Definition with_guarded (f : collaborator -> list value -> completion value)
    (w : world) : world :=
  {| getChains := getChains w;
     BIRDEYE := BIRDEYE w;
     services := fun c => if guarded c then f c else services w c |}.

(** The chain that the request names is registered with kind [k]. *)
Definition on_chain (k : string) (w : world) (query : gmap string qval)
    : Prop :=
  exists chain,
    getChains w !! chainKey_of query = Some chain
    /\ strict_eq_str (kind chain) k = true.

(** A finite double that is a non-negative integer. *)
Definition nonneg_integer (n : number) : Prop :=
  isFinite n = true
  /\ exists k : Z, (0 <= k)%Z /\ (to_Q n == inject_Z k)%Q.

(** ** The runs of the handlers

    What a handler does with one request, case by case: how it completes
    and the events it causes.  [analyze_runs], [graph_runs] and
    [jeeter_runs] below show that every request is served as one of these
    cases says. *)

Definition dex_call (ev : event) : Prop :=
  exists args, ev = Call getDexScreenerPairs args.

Section Runs.
Variable w : world.
Variable query : gmap string qval.

Let chainKey := chainKey_of query.
Let token := token_of query.
Let center := center_of query.
Let fast := fast_of query.
Let blocks := blocks_of query.
Let span := span_of query.
Let delay := delay_of query.

(** The argument of [readErc20Meta] *)
Definition metadata_args (chain : ChainConfig) : list value :=
  [object [("rpc", rpc chain); ("token", VStr token)]].

(** The argument that lines 73-76 pass to the estimator *)
Definition estimator_args (meta : value) : list value :=
  [object [("provider", get_data meta "provider");
           ("iface", get_data meta "iface");
           ("token", VStr token); ("decimals", get_data meta "decimals");
           ("blocks", VNum blocks); ("span", VNum span);
           ("delay", VNum delay)]].

Definition analyzer_args (chain : ChainConfig) : list value :=
  [object [("rpc", rpc chain); ("mint", VStr token);
           ("explorer", VStr (explorer chain));
           ("birdeyeApiKey", VStr (BIRDEYE w))]].

Definition sol_graph_args : list value :=
  [object [("mint", VStr token); ("center", VStr center);
           ("birdeyeApiKey", VStr (BIRDEYE w))]].

(** The estimate of lines 70-80: its value and its events. *)
Inductive estimate (args : list value) : bool -> value -> list event -> Prop :=
| estimate_skipped :
    estimate args true VNull []
| estimate_done v :
    services w approxTopHoldersPct args = Normal v ->
    estimate args false v [Call approxTopHoldersPct args]
| estimate_failed e :
    services w approxTopHoldersPct args = Throw e ->
    estimate args false VNull
      [Call approxTopHoldersPct args;
       console_error [VStr "approxTopHoldersPct failed:";
                      or (opt_get e "message") e]].

Inductive analyze_run : completion response * list event -> Prop :=
| analyze_unknown_chain :
    getChains w !! chainKey = None ->
    analyze_run
      (Normal {| status := 400; body := failure (VStr "Unknown chain") |},
       [])
| analyze_missing_token chain :
    getChains w !! chainKey = Some chain ->
    token = "" ->
    analyze_run
      (Normal {| status := 400;
                 body := failure (VStr "Missing token/mint") |}, [])
| analyze_unsupported chain :
    getChains w !! chainKey = Some chain ->
    token <> "" ->
    strict_eq_str (kind chain) "evm" = false ->
    strict_eq_str (kind chain) "solana" = false ->
    analyze_run
      (Normal {| status := 400;
                 body := failure (VStr "Unsupported chain kind") |}, [])
| analyze_evm chain meta meta' t1 top t2 cs :
    getChains w !! chainKey = Some chain ->
    token <> "" ->
    strict_eq_str (kind chain) "evm" = true ->
    services w readErc20Meta (metadata_args chain) = Normal meta ->
    nullish meta = false ->
    nullish meta' = false ->
    Forall dex_call t1 ->
    estimate (estimator_args meta') fast top t2 ->
    analyze_run
      (Normal {| status := 200;
                 body := analysis chainKey token chain fast blocks span
                           delay (get_data meta' "name")
                           (get_data meta' "symbol")
                           (get_data meta' "decimals")
                           (get_data meta' "totalSupply")
                           (get_data meta' "owner")
                           (get_data meta' "ownerRenounced")
                           top (fst cs) (snd cs) |},
       (Call readErc20Meta (metadata_args chain) :: t1 ++ t2
          ++ [Call getContractSource
                [VStr chainKey; VStr token; scanKey chain]])%list)
| analyze_no_metadata chain meta e :
    getChains w !! chainKey = Some chain ->
    token <> "" ->
    strict_eq_str (kind chain) "evm" = true ->
    services w readErc20Meta (metadata_args chain) = Normal meta ->
    nullish meta = true ->
    nullish e = false ->
    analyze_run
      (on_error "Analyze failed" e
         [Call readErc20Meta (metadata_args chain)])
| analyze_metadata_threw chain e :
    getChains w !! chainKey = Some chain ->
    token <> "" ->
    strict_eq_str (kind chain) "evm" = true ->
    services w readErc20Meta (metadata_args chain) = Throw e ->
    analyze_run
      (on_error "Analyze failed" e
         [Call readErc20Meta (metadata_args chain)])
| analyze_solana chain out :
    getChains w !! chainKey = Some chain ->
    token <> "" ->
    strict_eq_str (kind chain) "evm" = false ->
    strict_eq_str (kind chain) "solana" = true ->
    services w analyzeSolMint (analyzer_args chain) = Normal out ->
    analyze_run
      (Normal {| status := 200; body := out |},
       [Call analyzeSolMint (analyzer_args chain)])
| analyze_solana_threw chain e :
    getChains w !! chainKey = Some chain ->
    token <> "" ->
    strict_eq_str (kind chain) "evm" = false ->
    strict_eq_str (kind chain) "solana" = true ->
    services w analyzeSolMint (analyzer_args chain) = Throw e ->
    analyze_run
      (on_error "Analyze failed" e
         [Call analyzeSolMint (analyzer_args chain)]).

Inductive graph_run : completion response * list event -> Prop :=
| graph_unknown_chain :
    getChains w !! chainKey = None ->
    graph_run
      (Normal {| status := 400; body := failure (VStr "Unknown chain") |},
       [])
| graph_missing chain :
    getChains w !! chainKey = Some chain ->
    token = "" \/ center = "" ->
    graph_run
      (Normal {| status := 400;
                 body := failure (VStr "Missing token/center") |}, [])
| graph_unsupported chain :
    getChains w !! chainKey = Some chain ->
    token <> "" -> center <> "" ->
    strict_eq_str (kind chain) "evm" = false ->
    strict_eq_str (kind chain) "solana" = false ->
    graph_run
      (Normal {| status := 400;
                 body := failure (VStr "Unsupported chain kind") |}, [])
| graph_evm chain meta g t :
    getChains w !! chainKey = Some chain ->
    token <> "" -> center <> "" ->
    strict_eq_str (kind chain) "evm" = true ->
    services w readErc20Meta (metadata_args chain) = Normal meta ->
    graph_run
      (Normal {| status := 200;
                 body := with_window g blocks span delay |},
       Call readErc20Meta (metadata_args chain) :: t)
| graph_metadata_threw chain e :
    getChains w !! chainKey = Some chain ->
    token <> "" -> center <> "" ->
    strict_eq_str (kind chain) "evm" = true ->
    services w readErc20Meta (metadata_args chain) = Throw e ->
    graph_run
      (on_error "Graph failed" e
         [Call readErc20Meta (metadata_args chain)])
| graph_bad_address chain looks :
    getChains w !! chainKey = Some chain ->
    token <> "" -> center <> "" ->
    strict_eq_str (kind chain) "evm" = false ->
    strict_eq_str (kind chain) "solana" = true ->
    services w looksLikeSolAddress [VStr center] = Normal looks ->
    truthy looks = false ->
    graph_run
      (Normal {| status := 400;
                 body := failure (VStr "Bad Sol address") |},
       [Call looksLikeSolAddress [VStr center]])
| graph_address_threw chain e :
    getChains w !! chainKey = Some chain ->
    token <> "" -> center <> "" ->
    strict_eq_str (kind chain) "evm" = false ->
    strict_eq_str (kind chain) "solana" = true ->
    services w looksLikeSolAddress [VStr center] = Throw e ->
    graph_run
      (on_error "Graph failed" e
         [Call looksLikeSolAddress [VStr center]])
| graph_solana chain looks g :
    getChains w !! chainKey = Some chain ->
    token <> "" -> center <> "" ->
    strict_eq_str (kind chain) "evm" = false ->
    strict_eq_str (kind chain) "solana" = true ->
    services w looksLikeSolAddress [VStr center] = Normal looks ->
    truthy looks = true ->
    services w buildSolGraph sol_graph_args = Normal g ->
    graph_run
      (Normal {| status := 200;
                 body := VObj false
                           (spread g (literal [("ok", VBool true)])) |},
       [Call looksLikeSolAddress [VStr center];
        Call buildSolGraph sol_graph_args])
| graph_solana_threw chain looks e :
    getChains w !! chainKey = Some chain ->
    token <> "" -> center <> "" ->
    strict_eq_str (kind chain) "evm" = false ->
    strict_eq_str (kind chain) "solana" = true ->
    services w looksLikeSolAddress [VStr center] = Normal looks ->
    truthy looks = true ->
    services w buildSolGraph sol_graph_args = Throw e ->
    graph_run
      (on_error "Graph failed" e
         [Call looksLikeSolAddress [VStr center];
          Call buildSolGraph sol_graph_args]).

Inductive jeeter_run : completion response * list event -> Prop :=
| jeeter_unknown_chain :
    getChains w !! chainKey = None ->
    jeeter_run
      (Normal {| status := 400; body := failure (VStr "EVM only") |}, [])
| jeeter_not_evm chain :
    getChains w !! chainKey = Some chain ->
    strict_eq_str (kind chain) "evm" = false ->
    jeeter_run
      (Normal {| status := 400; body := failure (VStr "EVM only") |}, [])
| jeeter_evm chain meta r t :
    getChains w !! chainKey = Some chain ->
    strict_eq_str (kind chain) "evm" = true ->
    services w readErc20Meta (metadata_args chain) = Normal meta ->
    jeeter_run
      (Normal {| status := 200;
                 body := with_window r blocks span delay |},
       Call readErc20Meta (metadata_args chain) :: t)
| jeeter_metadata_threw chain e :
    getChains w !! chainKey = Some chain ->
    strict_eq_str (kind chain) "evm" = true ->
    services w readErc20Meta (metadata_args chain) = Throw e ->
    jeeter_run
      (on_error "Jeeter failed" e
         [Call readErc20Meta (metadata_args chain)]).

End Runs.

End Observe.

(** ** A sample deployment *)

Module Sample.
Import JsNumber JsValue Query Eff Handlers Observe.

Definition chain_of (k url : string) : ChainConfig :=
  {| kind := VStr k; rpc := VStr (url +:+ "/rpc"); explorer := url;
     scanKey := VUndef |}.

Definition registry : gmap string ChainConfig :=
  <["base" := chain_of "evm" "https://basescan.org"]>
    (<["solana" := chain_of "solana" "https://solscan.io"]> ∅).

Definition Error (msg : string) : value := VObj false [("message", VStr msg)].

Definition metadata : value :=
  object [("provider", VStr "provider"); ("iface", VStr "iface");
          ("name", VStr "Guardian"); ("symbol", VStr "GRD");
          ("decimals", VNum (of_Z 18)); ("totalSupply", VStr "1000000");
          ("owner", VNull); ("ownerRenounced", VBool true)].

(** The estimator is down and no address looks like a Solana address. *)
Definition replies (c : collaborator) (args : list value)
    : completion value :=
  match c with
  | readErc20Meta => Normal metadata
  | approxTopHoldersPct => Throw (Error "rate limited")
  | getContractSource =>
      Normal (object [("verified", VBool true); ("owner", VNull)])
  | getDexScreenerPairs => Normal (object [("pairs", empty_array)])
  | buildEvmGraph | buildSolGraph =>
      Normal (object [("nodes", empty_array); ("links", empty_array)])
  | jeeterReport => Normal (object [("jeeters", empty_array)])
  | looksLikeSolAddress => Normal (VBool false)
  | analyzeSolMint => Normal (object [("mint", VStr "So111")])
  end.

Definition world0 : world :=
  {| getChains := registry; BIRDEYE := ""; services := replies |}.

(** [w] where service [c] settles as [r]. *)
Definition answering (c : collaborator) (r : completion value) (w : world)
    : world :=
  {| getChains := getChains w;
     BIRDEYE := BIRDEYE w;
     services := fun c' args =>
       if decide (c' = c) then r else services w c' args |}.

(** The query [?k1=v1&k2=v2...] *)
Definition params (l : list (string * string)) : gmap string qval :=
  list_to_map (map (fun kv => (fst kv, QStr (snd kv))) l).

Definition solana_chain : ChainConfig :=
  chain_of "solana" "https://solscan.io".

(** Every address looks like a Solana address. *)
Definition lenient : world :=
  answering looksLikeSolAddress (Normal (VBool true)) world0.


(** The RPC endpoint is down. *)
Definition rpc_down : world :=
  answering readErc20Meta (Throw (Error "rpc down")) world0.

Definition analyze_base : gmap string qval :=
  params [("chain", "base"); ("token", "0xabc")].

Definition analyze_base_fast : gmap string qval :=
  params [("chain", "base"); ("token", "0xabc"); ("fast", "1")].

Definition analyze_base_fast_no_token : gmap string qval :=
  params [("chain", "base"); ("fast", "1")].

(** [?chain=base&token=0xabc&fast[]=1] *)
Definition analyze_base_fast_array : gmap string qval :=
  <["fast" := QArr [QStr "1"]]> analyze_base.

Definition analyze_solana : gmap string qval :=
  params [("chain", "solana"); ("token", "So111")].

Definition graph_base : gmap string qval :=
  params [("chain", "base"); ("token", "0xabc"); ("center", "0xdef")].

Definition graph_solana : gmap string qval :=
  params [("chain", "solana"); ("token", "So111");
          ("center", "not-an-address")].

Definition graph_solana_no_token : gmap string qval :=
  params [("chain", "solana"); ("center", "not-an-address")].

Definition unknown_chain : gmap string qval :=
  params [("chain", "unknown"); ("token", "0xabc")].

Definition unknown_chain_no_token : gmap string qval :=
  params [("chain", "unknown")].

End Sample.

(** ** More to observe: the guarded calls in detail *)

Module Detail.
Import JsString JsNumber JsValue Query Eff Handlers Observe.

(** A string of white space only; the empty string is one. *)
Definition blank (s : string) : bool :=
  forallb is_space (list_ascii_of_string s).

(** A list of characters that does not start with white space. *)
Definition tidy (l : list ascii) : Prop :=
  match l with
  | [] => True
  | c :: _ => is_space c = false
  end.

(** The own properties of an object as JavaScript keeps them: no key
    twice. *)
Definition distinct_keys (ps : props) : Prop := NoDup (map fst ps).

(** The services called, in order. *)
Definition calls (t : list event) : list collaborator :=
  flat_map (fun ev => match ev with Call c _ => [c] | _ => [] end) t.

(** The window of a request as an argument object shows it. *)
Definition carries_window (query : gmap string qval) (a : value) : Prop :=
  get_data a "blocks" = VNum (blocks_of query)
  /\ get_data a "span" = VNum (span_of query)
  /\ get_data a "delay" = VNum (delay_of query).

Section Guards.
Variable w : world.
Variable query : gmap string qval.

(** The argument of [buildEvmGraph] on line 135 *)
Definition graph_args (meta : value) : list value :=
  [object [("provider", get_data meta "provider");
           ("token", VStr (token_of query));
           ("center", VStr (center_of query));
           ("blocks", VNum (blocks_of query));
           ("span", VNum (span_of query));
           ("delay", VNum (delay_of query))]].

(** The argument of [jeeterReport] on line 172 *)
Definition report_args (meta : value) : list value :=
  [object [("chainKey", VStr (chainKey_of query));
           ("token", VStr (token_of query));
           ("provider", get_data meta "provider");
           ("decimals", get_data meta "decimals");
           ("blocks", VNum (blocks_of query));
           ("span", VNum (span_of query));
           ("delay", VNum (delay_of query))]].

(** The arguments of [getContractSource] on line 84 *)
Definition source_args (chain : ChainConfig) : list value :=
  [VStr (chainKey_of query); VStr (token_of query); scanKey chain].

(** What lines 82-86 leave in [contractVerified] and [explorerOwner]. *)
Definition explorer_facts (chain : ChainConfig) : value * value :=
  match services w getContractSource (source_args chain) with
  | Normal src =>
      if nullish src then (VNull, VNull)
      else (get_data src "verified", get_data src "owner")
  | Throw _ => (VNull, VNull)
  end.

(** A guarded call of [/graph] or [/jeeter] on the metadata [meta]: the
    value it leaves and the events it causes.  Without metadata the read
    of [meta.provider] throws inside the [try], before the call. *)
Inductive guarded_call (c : collaborator) (args : list value)
    (label : string) (dflt : value) (meta : value)
    : value -> list event -> Prop :=
| guarded_no_metadata :
    nullish meta = true ->
    guarded_call c args label dflt meta dflt
      [console_error
         [VStr label;
          VStr ("Cannot read properties of " +:+ type_name meta
                +:+ " (reading 'provider')")]]
| guarded_done v :
    nullish meta = false ->
    services w c args = Normal v ->
    guarded_call c args label dflt meta v [Call c args]
| guarded_failed e :
    nullish meta = false ->
    services w c args = Throw e ->
    guarded_call c args label dflt meta dflt
      [Call c args; console_error [VStr label; or (opt_get e "message") e]].

End Guards.

End Detail.


(** ** More of the sample deployment *)

Module Cases.
Import JsNumber JsValue Query Eff Handlers Observe Sample.

Definition base_chain : ChainConfig := chain_of "evm" "https://basescan.org".

(** The graph builder and the jeeter report time out. *)
Definition builders_down : world :=
  answering buildEvmGraph (Throw (Error "timeout"))
    (answering jeeterReport (Throw (Error "timeout")) world0).

(** The RPC endpoint answers [null] for the metadata. *)
Definition no_metadata : world :=
  answering readErc20Meta (Normal VNull) world0.

(** The estimator answers. *)
Definition estimating : world :=
  answering approxTopHoldersPct (Normal (VNum (of_Z 42))) world0.

(** Metadata of a token whose contract gives no name. *)
Definition nameless : value :=
  object [("provider", VStr "provider"); ("iface", VStr "iface");
          ("name", VStr ""); ("symbol", VStr "GRD");
          ("decimals", VNum (of_Z 18)); ("totalSupply", VStr "1000000");
          ("owner", VNull); ("ownerRenounced", VBool true)].

Definition listing : value :=
  object
    [("pairs",
      VObj true
        [("0", object [("baseToken",
                        object [("name", VStr "Guardian Token");
                                ("symbol", VStr "GRD")])])])].

(** The contract gives no name and DexScreener lists the token. *)
Definition listed : world :=
  answering getDexScreenerPairs (Normal listing)
    (answering readErc20Meta (Normal nameless) world0).

(** The contract gives no name and DexScreener is down. *)
Definition dex_down : world :=
  answering getDexScreenerPairs (Throw (Error "dex down"))
    (answering readErc20Meta (Normal nameless) world0).

(** [?chain=base&token=%20%20] *)
Definition blank_token : gmap string qval :=
  params [("chain", "base"); ("token", "  ")].

(** [?chain=solana&token=So111&fast=1&window=50&span=2&delay=0] *)
Definition analyze_solana_window : gmap string qval :=
  params [("chain", "solana"); ("token", "So111"); ("fast", "1");
          ("window", "50"); ("span", "2"); ("delay", "0")].

End Cases.
(** * Properties *)

Import JsString JsNumber JsValue Query Eff Handlers Observe.

(** ** The window parameters *)

Section Window.

Lemma lt_finite (a b : number) :
  isFinite a = true -> isFinite b = true ->
  lt a b = negb (Qle_bool (to_Q b) (to_Q a)).
Proof.
  destruct a, b; simpl; intros Ha Hb; try discriminate; reflexivity.
Qed.

Lemma lt_below_infinity (a : number) :
  isFinite a = true -> lt a (S754_infinity false) = true.
Proof. destruct a; simpl; intros H; try discriminate; reflexivity. Qed.

Lemma lt_above_infinity (a : number) :
  isFinite a = true -> lt (S754_infinity true) a = true.
Proof. destruct a; simpl; intros H; try discriminate; reflexivity. Qed.

Lemma finite_not_nan (a : number) : isFinite a = true -> is_nan a = false.
Proof. destruct a; simpl; intros H; try discriminate; reflexivity. Qed.

(** [num] never yields NaN or an infinity when its default is finite. *)
Lemma num_finite (v : option qval) (d : number) :
  isFinite d = true -> isFinite (num v d) = true.
Proof.
  intros Hd. unfold num.
  destruct (isFinite (Number v)) eqn:E; [exact E | exact Hd].
Qed.

(** [Math.min(n, hi)] on finite arguments, [hi] not being -0 *)
Lemma Math_min_pair (n hi : number) :
  isFinite n = true -> isFinite hi = true -> is_neg_zero hi = false ->
  Math_min [n; hi] = if lt hi n then hi else n.
Proof.
  intros Hn Hh Hz. unfold Math_min. cbn [existsb min_from].
  rewrite (finite_not_nan _ Hn), (finite_not_nan _ Hh). cbn [orb].
  rewrite (lt_below_infinity _ Hn).
  replace (is_pos_zero (S754_infinity false)) with false by reflexivity.
  rewrite andb_false_r, Hz. reflexivity.
Qed.

(** [Math.max(lo, n)] on finite arguments, [lo] not being -0 *)
Lemma Math_max_pair (lo n : number) :
  isFinite lo = true -> isFinite n = true -> is_neg_zero lo = false ->
  Math_max [lo; n] = if lt lo n then n else lo.
Proof.
  intros Hl Hn Hz. unfold Math_max. cbn [existsb max_from].
  rewrite (finite_not_nan _ Hn), (finite_not_nan _ Hl). cbn [orb].
  rewrite (lt_above_infinity _ Hl).
  replace (is_neg_zero (S754_infinity true)) with false by reflexivity.
  rewrite andb_false_r, Hz, andb_false_r. reflexivity.
Qed.

Lemma to_Q_bounds :
  (to_Q (of_Z 0) == 0)%Q /\ (to_Q (of_Z 1) == 1)%Q
  /\ (to_Q (of_Z 10) == 10)%Q.
Proof. repeat split. Qed.

Lemma not_le_bool_lt (x y : Q) : Qle_bool x y = false -> (y <= x)%Q.
Proof.
  intros H. apply Qlt_le_weak, Qnot_le_lt. intros Hle.
  apply Qle_bool_iff in Hle. congruence.
Qed.

(** The clamp of [span]: [Math.max(1, Math.min(n, 10))] *)
Lemma clamp_span (n : number) :
  isFinite n = true ->
  let s := Math_max [of_Z 1; Math_min [n; of_Z 10]] in
  isFinite s = true /\ (1 <= to_Q s)%Q /\ (to_Q s <= 10)%Q.
Proof.
  intros Hn. cbv zeta.
  destruct to_Q_bounds as (_ & H1 & H10).
  rewrite (Math_min_pair n (of_Z 10) Hn eq_refl eq_refl).
  destruct (lt (of_Z 10) n) eqn:Hhi.
  - vm_compute. repeat split; discriminate.
  - rewrite (Math_max_pair (of_Z 1) n eq_refl Hn eq_refl).
    rewrite (lt_finite (of_Z 10) n eq_refl Hn) in Hhi.
    apply negb_false_iff, Qle_bool_iff in Hhi.
    destruct (lt (of_Z 1) n) eqn:Hlo.
    + rewrite (lt_finite (of_Z 1) n eq_refl Hn) in Hlo.
      apply negb_true_iff, not_le_bool_lt in Hlo.
      rewrite <- H1 at 1. rewrite <- H10. auto.
    + vm_compute. repeat split; discriminate.
Qed.

(** The floor of [delay]: [Math.max(0, n)] *)
Lemma floor_delay (n : number) :
  isFinite n = true ->
  let d := Math_max [of_Z 0; n] in
  isFinite d = true /\ (0 <= to_Q d)%Q /\ is_neg_zero d = false.
Proof.
  intros Hn. cbv zeta.
  destruct to_Q_bounds as (H0 & _ & _).
  rewrite (Math_max_pair (of_Z 0) n eq_refl Hn eq_refl).
  destruct (lt (of_Z 0) n) eqn:Hlo.
  - pose proof Hlo as Hlt.
    rewrite (lt_finite (of_Z 0) n eq_refl Hn) in Hlo.
    apply negb_true_iff, not_le_bool_lt in Hlo.
    repeat split; [exact Hn | rewrite <- H0; exact Hlo | ].
    destruct n as [[] | | | ]; try reflexivity; discriminate.
  - vm_compute. repeat split; discriminate.
Qed.

End Window.

Section WindowClaims.

Variable query : gmap string qval.

(** C2, as amended.  [windowBlocks] is a finite number for every raw
    query: a parse that is not finite falls back to the default 200, and a
    finite parse is taken as it is, without a floor at 0 and without
    rounding; [window=x] gives 200. *)
Theorem windowBlocks_finite :
  isFinite (blocks_of query) = true
  /\ (isFinite (Number (query !! "window")) = true
      \/ blocks_of query = of_Z 200)
  /\ (isFinite (Number (query !! "window")) = false
      \/ blocks_of query = Number (query !! "window"))
  /\ blocks_of (<["window" := QStr "x"]> query) = of_Z 200.
Proof.
  unfold blocks_of, num.
  rewrite lookup_insert_eq.
  destruct (isFinite (Number (query !! "window"))) eqn:E; auto.
Qed.

(** C3.  For every raw query, [span] is a number of [[1,10]] and [delay]
    a number that is at least 0; a parse that is not finite gives the
    default (5 for [span], 500 for [delay]); [span=0] gives 1 and
    [span=99] gives 10. *)
Theorem span_delay_bounds :
  (isFinite (span_of query) = true
   /\ (1 <= to_Q (span_of query))%Q /\ (to_Q (span_of query) <= 10)%Q)
  /\ (isFinite (delay_of query) = true /\ (0 <= to_Q (delay_of query))%Q)
  /\ (isFinite (Number (query !! "span")) = true
      \/ span_of query = of_Z 5)
  /\ (isFinite (Number (query !! "delay")) = true
      \/ delay_of query = of_Z 500)
  /\ span_of (<["span" := QStr "0"]> query) = of_Z 1
  /\ span_of (<["span" := QStr "99"]> query) = of_Z 10.
Proof.
  split; [| split; [| split; [| split; [| split]]]].
  - apply clamp_span, num_finite. reflexivity.
  - destruct (floor_delay (num (query !! "delay") (of_Z 500)))
      as (Hf & Hq & _); [apply num_finite; reflexivity | auto].
  - unfold span_of, num.
    destruct (isFinite (Number (query !! "span"))); auto.
  - unfold delay_of, num.
    destruct (isFinite (Number (query !! "delay"))); auto.
  - unfold span_of. rewrite lookup_insert_eq. reflexivity.
  - unfold span_of. rewrite lookup_insert_eq. reflexivity.
Qed.

End WindowClaims.

(** C2, as stated, fails: [window=-5] makes [windowBlocks] the number -5,
    which is negative, and [window=1.5] makes it 1.5, which is no
    integer. *)
Lemma windowBlocks_negative_or_fractional :
  blocks_of (Sample.params [("window", "-5")]) = of_Z (-5)
  /\ ~ nonneg_integer (blocks_of (Sample.params [("window", "-5")]))
  /\ ~ nonneg_integer (blocks_of (Sample.params [("window", "1.5")])).
Proof.
  split; [reflexivity |].
  split; intros (_ & k & Hk & He).
  - assert (Hv : (to_Q (blocks_of (Sample.params [("window", "-5")]))
                  == -5 # 1)%Q) by reflexivity.
    rewrite Hv in He. unfold Qeq in He. simpl in He. lia.
  - assert (Hv : (to_Q (blocks_of (Sample.params [("window", "1.5")]))
                  == 3 # 2)%Q) by reflexivity.
    rewrite Hv in He. unfold Qeq in He. simpl in He. lia.
Qed.

(** ** The blocks of the handlers *)

Section Blocks.

Variable w : world.

Lemma get_object (v : value) (k : string) :
  nullish v = false -> get v k = ret (get_data v k).
Proof. unfold get. intros ->. reflexivity. Qed.

Lemma get_nullish (v : value) (k : string) (t : list event) :
  nullish v = true -> exists e, get v k t = (Throw e, t) /\ nullish e = false.
Proof. unfold get. intros ->. eexists. split; reflexivity. Qed.

Lemma set_object (v : value) (k : string) (x : value) (t : list event) :
  exists c, set v k x t = (c, t)
            /\ forall v', c = Normal v' -> nullish v' = false.
Proof.
  destruct v; eexists; (split; [reflexivity |]); intros v' [=]; subst;
    reflexivity.
Qed.

(** Lines 65 and 66 cause no event and leave an object in [meta]. *)
Lemma fill_from_pair_pure (p0 : value) (k : string) (meta : value)
    (t : list event) :
  nullish meta = false ->
  exists c, fill_from_pair p0 k meta t = (c, t)
            /\ forall v', c = Normal v' -> nullish v' = false.
Proof.
  intros Hm. unfold fill_from_pair.
  rewrite (get_object meta k Hm). unfold bind, ret.
  destruct (truthy (opt_get (opt_get p0 "baseToken") k)).
  - destruct (negb (truthy (get_data meta k))).
    + unfold get at 1. destruct (nullish p0).
      * eexists. split; [reflexivity | discriminate].
      * unfold ret, get. destruct (nullish (get_data p0 "baseToken")).
        -- eexists. split; [reflexivity | discriminate].
        -- apply set_object.
    + exists (Normal meta). split; [reflexivity |]. intros v' [=]. congruence.
  - exists (Normal meta). split; [reflexivity |]. intros v' [=]. congruence.
Qed.

(** Lines 60-68 on a metadata object: the block completes normally, the
    metadata is still an object, and the only call it may make is the one
    to DexScreener. *)
Lemma fallback_returns (token : string) (meta : value) (t : list event) :
  nullish meta = false ->
  exists meta' t',
    fallback_name_symbol w token meta t = (Normal meta', (t ++ t')%list)
    /\ nullish meta' = false
    /\ Forall dex_call t'.
Proof.
  intros Hm. unfold fallback_name_symbol.
  rewrite !(get_object meta _ Hm). unfold bind at 1 2, ret at 1.
  assert (Hskip : exists meta' t',
             ret (A := value) meta t = (Normal meta', (t ++ t')%list)
             /\ nullish meta' = false /\ Forall dex_call t').
  { exists meta, []. rewrite app_nil_r. auto. }
  assert (Hfetch : exists meta' t',
             try_catch
               (let* r := call w getDexScreenerPairs [VStr token] in
                let* pairs := get r "pairs" in
                let p0 := opt_get pairs "0" in
                let* meta0 := fill_from_pair p0 "name" meta in
                fill_from_pair p0 "symbol" meta0)
               (fun _ => ret meta) t
             = (Normal meta', (t ++ t')%list)
             /\ nullish meta' = false /\ Forall dex_call t').
  { unfold try_catch, bind, call, ret.
    set (t1 := (t ++ [Call getDexScreenerPairs [VStr token]])%list).
    assert (Hd : Forall dex_call [Call getDexScreenerPairs [VStr token]])
      by (repeat constructor; eexists; reflexivity).
    destruct (services w getDexScreenerPairs [VStr token]) as [r | e];
      [| exists meta; eexists; eauto].
    unfold get at 1. destruct (nullish r);
      [exists meta; eexists; eauto |].
    unfold ret at 1.
    destruct (fill_from_pair_pure
                (opt_get (get_data r "pairs") "0") "name" meta t1 Hm)
      as (c1 & -> & H1).
    destruct c1 as [m1 | e1]; [| exists meta; eexists; eauto].
    destruct (fill_from_pair_pure
                (opt_get (get_data r "pairs") "0") "symbol" m1 t1
                (H1 m1 eq_refl))
      as (c2 & -> & H2).
    destruct c2 as [m2 | e2]; [| exists meta; eexists; eauto].
    exists m2. eexists. eauto. }
  destruct (truthy (get_data meta "name")).
  - unfold bind, ret. destruct (negb (truthy (get_data meta "symbol")));
      [exact Hfetch | exact Hskip].
  - exact Hfetch.
Qed.

(** Lines 60-68 when [readErc20Meta] gave [undefined] or [null]: reading
    [meta.name] throws before any call. *)
Lemma fallback_throws (token : string) (meta : value) (t : list event) :
  nullish meta = true ->
  exists e,
    fallback_name_symbol w token meta t = (Throw e, t) /\ nullish e = false.
Proof.
  intros Hm. unfold fallback_name_symbol, bind.
  destruct (get_nullish meta "name" t Hm) as (e & -> & He). eauto.
Qed.

(** Lines 70-80 on a metadata object *)
Lemma top_holders_eq (fast : bool) (token : string) (meta : value)
    (blocks span delay : number) (t : list event) :
  nullish meta = false ->
  top_holders w fast token meta blocks span delay t =
    if fast then (Normal VNull, t)
    else
      let args :=
        [object [("provider", get_data meta "provider");
                 ("iface", get_data meta "iface");
                 ("token", VStr token);
                 ("decimals", get_data meta "decimals");
                 ("blocks", VNum blocks); ("span", VNum span);
                 ("delay", VNum delay)]] in
      match services w approxTopHoldersPct args with
      | Normal v => (Normal v, (t ++ [Call approxTopHoldersPct args])%list)
      | Throw e =>
          (Normal VNull,
           ((t ++ [Call approxTopHoldersPct args])
              ++ [console_error [VStr "approxTopHoldersPct failed:";
                                 or (opt_get e "message") e]])%list)
      end.
Proof.
  intros Hm. unfold top_holders. destruct fast; [reflexivity |].
  cbn [negb]. rewrite !(get_object meta _ Hm).
  unfold try_catch, bind, ret, call, log_failed, log_error.
  cbv zeta.
  destruct (services w approxTopHoldersPct _); reflexivity.
Qed.

(** Lines 82-86 always complete normally, after one call to the
    explorer. *)
Lemma contract_source_returns (chainKey token : string)
    (chain : ChainConfig) (t : list event) :
  exists cs,
    contract_source w chainKey token chain t =
      (Normal cs,
       (t ++ [Call getContractSource
                [VStr chainKey; VStr token; scanKey chain]])%list).
Proof.
  unfold contract_source, try_catch, bind, call, ret.
  destruct (services w getContractSource _) as [src | e]; [| eauto].
  unfold get. destruct (nullish src); eauto.
Qed.

(** The handler-wide [catch] *)
Lemma on_error_eq (fb : string) (e : value) (t : list event) :
  on_error fb e t =
    (if nullish e then
       Throw (TypeError ("Cannot read properties of " +:+ type_name e
                         +:+ " (reading 'message')"))
     else Normal {| status := 500;
                    body := failure (or (get_data e "message") (VStr fb)) |},
     (t ++ [console_error [e]])%list).
Proof.
  unfold on_error, bind, log_error, get, respond, ret, throw.
  destruct (nullish e); reflexivity.
Qed.

End Blocks.

(** ** Every request is served by one of the runs *)

Lemma analyze_runs (w : world) (query : gmap string qval) :
  analyze_run w query (serve analyze w query).
Proof.
  unfold serve, analyze. cbv zeta. unfold try_catch at 1.
  destruct (getChains w !! chainKey_of query) as [chain |] eqn:Hc;
    [| cbn; apply analyze_unknown_chain; exact Hc].
  destruct (String.eqb (token_of query) "") eqn:Ht.
  { apply String.eqb_eq in Ht. cbn. eapply analyze_missing_token; eauto. }
  apply String.eqb_neq in Ht.
  destruct (strict_eq_str (kind chain) "evm") eqn:He.
  - unfold bind at 1. unfold call at 1. cbn [app].
    fold (metadata_args query chain).
    destruct (services w readErc20Meta (metadata_args query chain))
      as [meta | e] eqn:Hs;
      [| eapply analyze_metadata_threw; eauto].
    unfold bind at 1.
    destruct (nullish meta) eqn:Hn.
    + destruct (fallback_throws w (token_of query) meta
                  [Call readErc20Meta (metadata_args query chain)] Hn)
        as (e & -> & Hne).
      eapply analyze_no_metadata; eauto.
    + destruct (fallback_returns w (token_of query) meta
                  [Call readErc20Meta (metadata_args query chain)] Hn)
        as (meta' & t1 & -> & Hn' & Hd).
      unfold bind at 1. rewrite (top_holders_eq w _ _ meta' _ _ _ _ Hn').
      cbv zeta. fold (estimator_args query meta').
      rewrite !(get_object meta' _ Hn').
      assert (Hfin : forall top t2,
        estimate w (estimator_args query meta') (fast_of query) top t2 ->
        analyze_run w query
          (let (c, t') :=
             let (c0, t') :=
               (Normal top,
                (([Call readErc20Meta (metadata_args query chain)] ++ t1)
                   ++ t2)%list) in
             match c0 with
             | Normal a =>
                 (let* cs := contract_source w (chainKey_of query)
                               (token_of query) chain in
                  let* name := ret (get_data meta' "name") in
                  let* symbol := ret (get_data meta' "symbol") in
                  let* decimals := ret (get_data meta' "decimals") in
                  let* totalSupply := ret (get_data meta' "totalSupply") in
                  let* owner := ret (get_data meta' "owner") in
                  let* ownerRenounced :=
                    ret (get_data meta' "ownerRenounced") in
                  json (analysis (chainKey_of query) (token_of query) chain
                          (fast_of query) (blocks_of query) (span_of query)
                          (delay_of query) name symbol decimals totalSupply
                          owner ownerRenounced a cs.1 cs.2)) t'
             | Throw e => (Throw e, t')
             end in
           match c with
           | Normal a => (Normal a, t')
           | Throw e => on_error "Analyze failed" e t'
           end)).
      { intros top t2 Hest. unfold bind at 1.
        destruct (contract_source_returns w (chainKey_of query)
                    (token_of query) chain
                    (([Call readErc20Meta (metadata_args query chain)] ++ t1)
                       ++ t2)%list) as (cs & ->).
        cbn -[analysis metadata_args]. rewrite <- app_assoc.
        eapply analyze_evm; eauto. }
      destruct (fast_of query).
      * specialize (Hfin VNull [] (estimate_skipped _ _)).
        rewrite app_nil_r in Hfin. exact Hfin.
      * destruct (services w approxTopHoldersPct (estimator_args query meta'))
          as [v | e] eqn:Hv.
        -- apply (Hfin v [Call approxTopHoldersPct
                            (estimator_args query meta')]).
           constructor; exact Hv.
        -- rewrite <- app_assoc. apply (Hfin VNull). 
           econstructor; exact Hv.
  - destruct (strict_eq_str (kind chain) "solana") eqn:Hk.
    + unfold bind, call. cbn [app]. fold (analyzer_args w query chain).
      destruct (services w analyzeSolMint (analyzer_args w query chain))
        as [out | e] eqn:Hs.
      * cbn. eapply analyze_solana; eauto.
      * eapply analyze_solana_threw; eauto.
    + cbn. eapply analyze_unsupported; eauto.
Qed.

Lemma evm_graph_returns (w : world) (token center : string) (meta : value)
    (blocks span delay : number) (t : list event) :
  exists g t',
    evm_graph w token center meta blocks span delay t
    = (Normal g, (t ++ t')%list).
Proof.
  unfold evm_graph, try_catch, bind, get, call, log_failed, log_error, ret,
    throw.
  destruct (nullish meta).
  - eexists. eexists. reflexivity.
  - destruct (services w buildEvmGraph _).
    + eexists. eexists. reflexivity.
    + eexists. eexists. rewrite <- app_assoc. reflexivity.
Qed.

Lemma evm_report_returns (w : world) (chainKey token : string) (meta : value)
    (blocks span delay : number) (t : list event) :
  exists r t',
    evm_report w chainKey token meta blocks span delay t
    = (Normal r, (t ++ t')%list).
Proof.
  unfold evm_report, try_catch, bind, get, call, log_failed, log_error, ret,
    throw.
  destruct (nullish meta).
  - eexists. eexists. reflexivity.
  - destruct (services w jeeterReport _).
    + eexists. eexists. reflexivity.
    + eexists. eexists. rewrite <- app_assoc. reflexivity.
Qed.

Lemma graph_runs (w : world) (query : gmap string qval) :
  graph_run w query (serve graph w query).
Proof.
  unfold serve, graph. cbv zeta. unfold try_catch at 1.
  destruct (getChains w !! chainKey_of query) as [chain |] eqn:Hc;
    [| cbn; apply graph_unknown_chain; exact Hc].
  destruct (String.eqb (token_of query) "") eqn:Ht.
  { apply String.eqb_eq in Ht. cbn. eapply graph_missing; eauto. }
  destruct (String.eqb (center_of query) "") eqn:Hce.
  { apply String.eqb_eq in Hce. cbn. eapply graph_missing; eauto. }
  apply String.eqb_neq in Ht. apply String.eqb_neq in Hce. cbn [orb].
  destruct (strict_eq_str (kind chain) "evm") eqn:He.
  - unfold bind at 1. unfold call at 1. cbn [app].
    fold (metadata_args query chain).
    destruct (services w readErc20Meta (metadata_args query chain))
      as [meta | e] eqn:Hs;
      [| eapply graph_metadata_threw; eauto].
    unfold bind.
    destruct (evm_graph_returns w (token_of query) (center_of query) meta
                (blocks_of query) (span_of query) (delay_of query)
                [Call readErc20Meta (metadata_args query chain)])
      as (g & t' & ->).
    cbn -[with_window metadata_args]. eapply graph_evm; eauto.
  - destruct (strict_eq_str (kind chain) "solana") eqn:Hk;
      [| cbn; eapply graph_unsupported; eauto].
    unfold bind at 1. unfold call at 1. cbn [app].
    destruct (services w looksLikeSolAddress [VStr (center_of query)])
      as [looks | e] eqn:Hl;
      [| eapply graph_address_threw; eauto].
    destruct (truthy looks) eqn:Htr; cbn [negb].
    + unfold bind, call. cbn [app]. fold (sol_graph_args w query).
      destruct (services w buildSolGraph (sol_graph_args w query))
        as [g | e] eqn:Hg.
      * cbn -[spread literal]. eapply graph_solana; eauto.
      * eapply graph_solana_threw; eauto.
    + cbn. eapply graph_bad_address; eauto.
Qed.

Lemma jeeter_runs (w : world) (query : gmap string qval) :
  jeeter_run w query (serve jeeter w query).
Proof.
  unfold serve, jeeter. cbv zeta. unfold try_catch at 1.
  destruct (getChains w !! chainKey_of query) as [chain |] eqn:Hc;
    [| cbn; apply jeeter_unknown_chain; exact Hc].
  destruct (strict_eq_str (kind chain) "evm") eqn:He; cbn [negb];
    [| cbn; eapply jeeter_not_evm; eauto].
  unfold bind at 1. unfold call at 1. cbn [app].
  fold (metadata_args query chain).
  destruct (services w readErc20Meta (metadata_args query chain))
    as [meta | e] eqn:Hs;
    [| eapply jeeter_metadata_threw; eauto].
  unfold bind.
  destruct (evm_report_returns w (chainKey_of query) (token_of query) meta
              (blocks_of query) (span_of query) (delay_of query)
              [Call readErc20Meta (metadata_args query chain)])
    as (r & t' & ->).
  cbn -[with_window metadata_args]. eapply jeeter_evm; eauto.
Qed.

(** ** Response bodies, and what the guarded services cannot change *)

Section Envelope.

Lemma lookup_set_eq (k : string) (v : value) (ps : props) :
  lookup_prop k (set_prop k v ps) = Some v.
Proof.
  induction ps as [| [k' v'] ps IH]; simpl.
  - rewrite String.eqb_refl. reflexivity.
  - destruct (String.eqb k' k) eqn:E; simpl.
    + rewrite String.eqb_refl. reflexivity.
    + rewrite E. exact IH.
Qed.

Lemma lookup_set_ne (k k' : string) (v : value) (ps : props) :
  k <> k' -> lookup_prop k (set_prop k' v ps) = lookup_prop k ps.
Proof.
  intros Hne. induction ps as [| [k0 v0] ps IH]; simpl.
  - destruct (String.eqb k' k) eqn:E; [| reflexivity].
    apply String.eqb_eq in E. congruence.
  - destruct (String.eqb k0 k') eqn:E; simpl.
    + apply String.eqb_eq in E. subst k0.
      destruct (String.eqb k' k) eqn:E'; [| reflexivity].
      apply String.eqb_eq in E'. congruence.
    + destruct (String.eqb k0 k); [reflexivity | exact IH].
Qed.

(** [{ ok: true, ...r, windowBlocks: blocks, span, delay }] shows the three
    parameters, whatever [r] holds. *)
Lemma with_window_echo (r : value) (blocks span delay : number) :
  get_data (with_window r blocks span delay) "windowBlocks" = VNum blocks
  /\ get_data (with_window r blocks span delay) "span" = VNum span
  /\ get_data (with_window r blocks span delay) "delay" = VNum delay.
Proof.
  unfold with_window, get_data. repeat split.
  - rewrite !lookup_set_ne by discriminate. rewrite lookup_set_eq.
    reflexivity.
  - rewrite lookup_set_ne by discriminate. rewrite lookup_set_eq.
    reflexivity.
  - rewrite lookup_set_eq. reflexivity.
Qed.

Lemma sent_on_error (fb : string) (e : value) (t : list event) :
  sent (on_error fb e t) =
    if nullish e then None
    else Some {| status := 500;
                 body := failure (or (get_data e "message") (VStr fb)) |}.
Proof. rewrite on_error_eq. unfold sent. destruct (nullish e); reflexivity. Qed.

Lemma trace_on_error (fb : string) (e : value) (t : list event) :
  snd (on_error fb e t) = (t ++ [console_error [e]])%list.
Proof. rewrite on_error_eq. reflexivity. Qed.

Lemma solana_not_evm (v : value) :
  strict_eq_str v "solana" = true -> strict_eq_str v "evm" = false.
Proof.
  destruct v; simpl; try discriminate.
  intros H. apply String.eqb_eq in H. subst. reflexivity.
Qed.

End Envelope.


Ltac same_chain :=
  repeat match goal with
    | H : ?x = Some ?c, H' : ?x = Some ?c' |- _ =>
        rewrite H in H'; injection H' as <-
    | H : ?x = None, H' : ?x = Some _ |- _ => congruence
    end.

Ltac same_reply :=
  repeat match goal with
    | H : services ?w ?c ?a = ?r, H' : services ?w ?c ?a = ?r' |- _ =>
        rewrite H in H'; first [discriminate H' | injection H' as <-]
    end.

Ltac same_run :=
  cbn [getChains with_guarded services guarded BIRDEYE] in *;
  same_chain;
  try change (analyzer_args (with_guarded ?f ?w) ?q ?c)
        with (analyzer_args w q c) in *;
  try change (sol_graph_args (with_guarded ?f ?w) ?q)
        with (sol_graph_args w q) in *;
  same_reply;
  rewrite ?sent_on_error;
  repeat match goal with H : nullish _ = _ |- _ => rewrite H end;
  try reflexivity; try congruence; try (exfalso; tauto).

Section Guarded.
Variable w : world.
Variable f : collaborator -> list value -> completion value.
Variable query : gmap string qval.

Lemma analyze_status_guarded :
  status_of (serve analyze (with_guarded f w) query)
  = status_of (serve analyze w query).
Proof.
  pose proof (analyze_runs w query) as H1.
  pose proof (analyze_runs (with_guarded f w) query) as H2.
  unfold status_of.
  destruct H1; destruct H2; same_run.
Qed.

Lemma graph_status_guarded :
  status_of (serve graph (with_guarded f w) query)
  = status_of (serve graph w query).
Proof.
  pose proof (graph_runs w query) as H1.
  pose proof (graph_runs (with_guarded f w) query) as H2.
  unfold status_of.
  destruct H1; destruct H2; same_run.
Qed.

Lemma jeeter_status_guarded :
  status_of (serve jeeter (with_guarded f w) query)
  = status_of (serve jeeter w query).
Proof.
  pose proof (jeeter_runs w query) as H1.
  pose proof (jeeter_runs (with_guarded f w) query) as H2.
  unfold status_of.
  destruct H1; destruct H2; same_run.
Qed.

End Guarded.

Section Estimator.

Variable w : world.
Variable query : gmap string qval.

Lemma not_in_on_error (c : collaborator) (args : list value)
    (fb : string) (e : value) (t : list event) :
  In (Call c args) (snd (on_error fb e t)) -> In (Call c args) t.
Proof.
  rewrite trace_on_error. intros H. apply in_app_or in H as [H | H];
    [exact H |].
  destruct H as [H | []]. discriminate H.
Qed.

(** The estimator is called at most with the arguments of lines 73-76, in
    standard mode, on a chain of kind evm, once the metadata is read. *)
Lemma estimator_called (args : list value) :
  In (Call approxTopHoldersPct args) (snd (serve analyze w query)) ->
  exists chain meta' t1 top t2 cs,
    getChains w !! chainKey_of query = Some chain
    /\ strict_eq_str (kind chain) "evm" = true
    /\ fast_of query = false
    /\ args = estimator_args query meta'
    /\ estimate w args false top t2
    /\ serve analyze w query =
         (Normal {| status := 200;
                    body := analysis (chainKey_of query) (token_of query)
                              chain false (blocks_of query) (span_of query)
                              (delay_of query) (get_data meta' "name")
                              (get_data meta' "symbol")
                              (get_data meta' "decimals")
                              (get_data meta' "totalSupply")
                              (get_data meta' "owner")
                              (get_data meta' "ownerRenounced")
                              top (fst cs) (snd cs) |},
          (Call readErc20Meta (metadata_args query chain) :: t1 ++ t2
             ++ [Call getContractSource
                   [VStr (chainKey_of query); VStr (token_of query);
                    scanKey chain]])%list).
Proof.
  pose proof (analyze_runs w query) as Hrun. intros Hin. revert Hin.
  destruct Hrun as [ | | | chain meta meta' t1 top t2 cs Hc Ht He Hs Hn Hn'
                             Hd Hest | | | | ];
    try (intros Hin; apply not_in_on_error in Hin);
    try (intros Hin);
    try (cbn in Hin; intuition discriminate).
  cbn [snd] in Hin. destruct Hin as [Hin | Hin]; [discriminate Hin |].
  apply in_app_or in Hin as [Hin | Hin].
  { rewrite Forall_forall in Hd. apply list_elem_of_In, Hd in Hin.
    destruct Hin as [a Ha]. discriminate Ha. }
  apply in_app_or in Hin as [Hin | Hin];
    [| cbn in Hin; intuition discriminate].
  destruct (fast_of query) eqn:Hf; inversion Hest as [| v Hv | e Hv];
    subst.
  - destruct Hin.
  - destruct Hin as [[= <-] | []].
    exists chain, meta', t1, top,
      [Call approxTopHoldersPct (estimator_args query meta')], cs.
    repeat split; auto.
  - destruct Hin as [[= <-] | [Hin | []]]; [| discriminate Hin].
    exists chain, meta', t1, VNull. eexists. exists cs.
    repeat split; eauto.
Qed.
End Estimator.

(** * The properties that the specification states *)

Section FailureIsolation.

Variable w : world.
Variable query : gmap string qval.

(** C1.  Whatever the guarded services do, the status of the response of
    each of the three handlers is the one it would be otherwise.  And if,
    serving [/analyze], the estimator is called and throws, the response is
    200 with [ok: true] and [holders.top10Pct] null; the request is then
    one on a chain of kind evm with [fast] not set. *)
Theorem guarded_failure_keeps_status :
  (forall f,
      status_of (serve analyze (with_guarded f w) query)
      = status_of (serve analyze w query)
      /\ status_of (serve graph (with_guarded f w) query)
         = status_of (serve graph w query)
      /\ status_of (serve jeeter (with_guarded f w) query)
         = status_of (serve jeeter w query))
  /\ (forall args e,
         In (Call approxTopHoldersPct args) (snd (serve analyze w query)) ->
         services w approxTopHoldersPct args = Throw e ->
         exists b,
           sent (serve analyze w query) = Some {| status := 200; body := b |}
           /\ get_data b "ok" = VBool true
           /\ get_data (get_data (get_data b "facts") "holders") "top10Pct"
              = VNull
           /\ on_chain "evm" w query
           /\ fast_of query = false).
Proof.
  split.
  - intros f. split; [| split].
    + apply analyze_status_guarded.
    + apply graph_status_guarded.
    + apply jeeter_status_guarded.
  - intros args e Hin Hthrow.
    destruct (estimator_called w query args Hin)
      as (chain & meta' & t1 & top & t2 & cs & Hc & He & Hf & -> & Hest
          & Hrun).
    rewrite Hrun. eexists. split; [reflexivity |].
    inversion Hest as [| v Hv | e' Hv]; subst; [congruence |].
    repeat split; try reflexivity; auto.
    exists chain. auto.
Qed.

End FailureIsolation.

Ltac inv_sent :=
  repeat match goal with
    | H : sent (on_error _ _ _) = Some _ |- _ =>
        rewrite sent_on_error in H
    | H : (if nullish ?e then None else Some _) = Some _ |- _ =>
        destruct (nullish e) eqn:?; [discriminate H |]
    | H : sent (Normal _, _) = Some _ |- _ =>
        unfold sent in H; cbn [fst] in H
    | H : Some _ = Some _ |- _ => injection H as <-
    end.

Section FastMode.

Variable w : world.
Variable query : gmap string qval.

Lemma fast_iff :
  fast_of query = true
  <-> exists v, query !! "fast" = Some v /\ ToString v = "1".
Proof.
  unfold fast_of, string_or.
  destruct (query !! "fast") as [q |].
  - destruct (to_boolean q) eqn:Hq.
    + rewrite String.eqb_eq. split; [eauto |].
      intros (v & [= <-] & Hv). exact Hv.
    + destruct q as [s | |]; try discriminate Hq.
      simpl in Hq. apply negb_false_iff, String.eqb_eq in Hq. subst s.
      split; [discriminate |]. intros (v & [= <-] & Hv). discriminate Hv.
  - split; [discriminate |]. intros (v & Hv & _). discriminate Hv.
Qed.

Lemma fast_of_string (s : string) :
  query !! "fast" = Some (QStr s) -> fast_of query = String.eqb s "1".
Proof.
  unfold fast_of, string_or. intros ->. cbn [to_boolean ToString].
  destruct s; reflexivity.
Qed.

(** C4, as amended.  [fast] is set exactly when the raw value converts to
    the string "1"; for a raw value that is a string, when it is "1".  In
    fast mode the estimator is never called, whatever the chain and the
    outcome of the request.  On a chain of kind evm, a 200 response of
    [/analyze] has [holders.top10Pct] null and [mode] "fast" in fast mode,
    and [mode] "standard" otherwise.  A response whose status is not 200
    has neither [mode] nor [facts], and no call to the estimator comes
    before it. *)
Theorem fast_skips_estimator :
  (fast_of query = true
   <-> exists v, query !! "fast" = Some v /\ ToString v = "1")
  /\ (forall s, query !! "fast" = Some (QStr s) ->
               fast_of query = String.eqb s "1")
  /\ (fast_of query = true ->
      ~ invoked approxTopHoldersPct (snd (serve analyze w query)))
  /\ (forall r,
         on_chain "evm" w query ->
         sent (serve analyze w query) = Some r ->
         status r = 200 ->
         if fast_of query
         then get_data (get_data (get_data (body r) "facts") "holders")
                "top10Pct" = VNull
              /\ get_data (body r) "mode" = VStr "fast"
         else get_data (body r) "mode" = VStr "standard")
  /\ (forall r,
         sent (serve analyze w query) = Some r ->
         status r <> 200 ->
         get_data (body r) "mode" = VUndef
         /\ get_data (body r) "facts" = VUndef
         /\ ~ invoked approxTopHoldersPct (snd (serve analyze w query))).
Proof.
  split; [apply fast_iff |]. split; [apply fast_of_string |].
  split; [| split].
  - intros Hf (args & Hin).
    destruct (estimator_called w query args Hin)
      as (_ & _ & _ & _ & _ & _ & _ & _ & Hf' & _). congruence.
  - intros r (chain0 & Hc0 & Hk0) Hsent Hst.
    pose proof (analyze_runs w query) as Hrun. revert Hsent.
    destruct Hrun as [ | | | chain meta meta' t1 top t2 cs Hc Ht He Hs Hn
                               Hn' Hd Hest | | | chain out Hc Ht He | ];
      intros Hsent; inv_sent; try discriminate Hst; try congruence.
    destruct (fast_of query) eqn:Hf; [| reflexivity].
    inversion Hest; subst. split; reflexivity.
  - intros r Hsent Hst. split; [| split].
    + pose proof (analyze_runs w query) as Hrun. revert Hsent.
      destruct Hrun; intros Hsent; inv_sent; cbn [status] in Hst;
        try congruence; reflexivity.
    + pose proof (analyze_runs w query) as Hrun. revert Hsent.
      destruct Hrun; intros Hsent; inv_sent; cbn [status] in Hst;
        try congruence; reflexivity.
    + intros (args & Hin).
      destruct (estimator_called w query args Hin)
        as (chain & meta' & t1 & top & t2 & cs & _ & _ & _ & _ & _ & Heq).
      rewrite Heq in Hsent. inv_sent. cbn [status] in Hst. congruence.
Qed.

End FastMode.

Section Solana.

Variable w : world.
Variable query : gmap string qval.
Variable chain : ChainConfig.
Hypothesis registered : getChains w !! chainKey_of query = Some chain.
Hypothesis solana : strict_eq_str (kind chain) "solana" = true.

(** C6, as amended.  When [/analyze] on a chain of kind solana gets a
    result from the mint analyzer, the response is 200 and its body is
    that result as it is: the handler adds no [ok]. *)
Theorem analyze_solana_verbatim (out : value) :
  token_of query <> "" ->
  services w analyzeSolMint (analyzer_args w query chain) = Normal out ->
  serve analyze w query
  = (Normal {| status := 200; body := out |},
     [Call analyzeSolMint (analyzer_args w query chain)]).
Proof.
  intros Ht Hs. pose proof (solana_not_evm _ solana) as Hne.
  pose proof (analyze_runs w query) as Hrun.
  destruct Hrun; same_chain; try congruence.
Qed.

(** C8, as amended.  On a chain of kind solana, when the address
    predicate rejects [center], [/graph] answers 400 without calling the
    graph builder; the error is "Bad Sol address" when [token] and
    [center] are both present, and "Missing token/center" when one is
    empty. *)
Theorem bad_sol_address (looks : value) :
  services w looksLikeSolAddress [VStr (center_of query)] = Normal looks ->
  truthy looks = false ->
  sent (serve graph w query)
  = Some {| status := 400;
            body := failure (VStr
              (if String.eqb (token_of query) ""
                  || String.eqb (center_of query) ""
               then "Missing token/center" else "Bad Sol address")) |}
  /\ ~ invoked buildSolGraph (snd (serve graph w query)).
Proof.
  intros Hl Htr. pose proof (solana_not_evm _ solana) as Hne.
  pose proof (graph_runs w query) as Hrun.
  destruct Hrun; same_chain; same_reply; try congruence.
  - split; [| intros (a & [])].
    replace (String.eqb (token_of query) "" || String.eqb (center_of query) "")
      with true; [reflexivity |].
    symmetry. apply orb_true_iff. rewrite !String.eqb_eq. assumption.
  - split; [| intros (a & [Hin | []]); discriminate Hin].
    replace (String.eqb (token_of query) "") with false
      by (symmetry; apply String.eqb_neq; assumption).
    replace (String.eqb (center_of query) "") with false
      by (symmetry; apply String.eqb_neq; assumption).
    reflexivity.
Qed.

End Solana.

Section UnknownChain.

Variable w : world.
Variable query : gmap string qval.
Hypothesis unknown : getChains w !! chainKey_of query = None.

(** C7, as amended.  A chain key that the registry does not hold gets 400
    with [{ok: false, error: "Unknown chain"}] from [/analyze] and
    [/graph], and 400 with [{ok: false, error: "EVM only"}] from
    [/jeeter]; no service is called. *)
Theorem unknown_chain_rejected :
  serve analyze w query
  = (Normal {| status := 400; body := failure (VStr "Unknown chain") |}, [])
  /\ serve graph w query
     = (Normal {| status := 400; body := failure (VStr "Unknown chain") |},
        [])
  /\ serve jeeter w query
     = (Normal {| status := 400; body := failure (VStr "EVM only") |}, []).
Proof.
  unfold serve, analyze, graph, jeeter, try_catch. cbv zeta.
  rewrite unknown. repeat split.
Qed.

(** C10.  In [/analyze] and [/graph] the check of the chain comes before
    the check of the identifiers: with an unknown chain and an empty
    [token] (and [center]) the error is "Unknown chain". *)
Theorem unknown_chain_precedes_missing :
  token_of query = "" ->
  center_of query = "" ->
  sent (serve analyze w query)
  = Some {| status := 400; body := failure (VStr "Unknown chain") |}
  /\ sent (serve graph w query)
     = Some {| status := 400; body := failure (VStr "Unknown chain") |}.
Proof.
  intros _ _. unfold sent, serve, analyze, graph, try_catch. cbv zeta.
  rewrite unknown. split; reflexivity.
Qed.

End UnknownChain.





Section Failures.

Variable ep : endpoint.
Variable w : world.
Variable query : gmap string qval.


End Failures.

(** * The sample deployment *)

Lemma guarded_failure_keeps_status_witness :
  In (Call approxTopHoldersPct
        (estimator_args Sample.analyze_base Sample.metadata))
     (snd (serve analyze Sample.world0 Sample.analyze_base))
  /\ services Sample.world0 approxTopHoldersPct
       (estimator_args Sample.analyze_base Sample.metadata)
     = Throw (Sample.Error "rate limited")
  /\ exists b,
       sent (serve analyze Sample.world0 Sample.analyze_base)
       = Some {| status := 200; body := b |}
       /\ get_data b "ok" = VBool true
       /\ get_data (get_data (get_data b "facts") "holders") "top10Pct"
          = VNull
       /\ on_chain "evm" Sample.world0 Sample.analyze_base
       /\ fast_of Sample.analyze_base = false.
Proof.
  assert (Hin : In (Call approxTopHoldersPct
                      (estimator_args Sample.analyze_base Sample.metadata))
                   (snd (serve analyze Sample.world0 Sample.analyze_base))).
  { vm_compute. right. left. reflexivity. }
  split; [exact Hin |]. split; [reflexivity |].
  exact (proj2 (guarded_failure_keeps_status Sample.world0 Sample.analyze_base)
           _ _ Hin eq_refl).
Defined.

(** C4, as stated, fails: [?chain=base&fast=1] names a chain of kind evm
    and sets [fast], and the response is the 400 of the missing token, with
    no [mode] and no [holders]. *)
Lemma fast_without_token :
  on_chain "evm" Sample.world0 Sample.analyze_base_fast_no_token
  /\ Sample.analyze_base_fast_no_token !! "fast" = Some (QStr "1")
  /\ sent (serve analyze Sample.world0 Sample.analyze_base_fast_no_token)
     = Some {| status := 400;
               body := failure (VStr "Missing token/mint") |}
  /\ get_data (failure (VStr "Missing token/mint")) "mode" = VUndef
  /\ get_data (failure (VStr "Missing token/mint")) "holders" = VUndef.
Proof.
  split; [exists (Sample.chain_of "evm" "https://basescan.org");
          split; reflexivity |].
  repeat split.
Qed.

(** The raw value [["1"]], which a query [fast[]=1] gives with the extended
    query parser, is not the string "1" and sets [fast] all the same. *)
Lemma fast_from_array :
  Sample.analyze_base_fast_array !! "fast" = Some (QArr [QStr "1"])
  /\ exists r,
       sent (serve analyze Sample.world0 Sample.analyze_base_fast_array)
       = Some r
       /\ status r = 200
       /\ get_data (body r) "mode" = VStr "fast".
Proof.
  split; [reflexivity |]. eexists. split; [vm_compute; reflexivity |].
  split; reflexivity.
Qed.

Lemma fast_skips_estimator_witness :
  (fast_of Sample.analyze_base_fast = true
   /\ ~ invoked approxTopHoldersPct
         (snd (serve analyze Sample.world0 Sample.analyze_base_fast))
   /\ exists r,
        on_chain "evm" Sample.world0 Sample.analyze_base_fast
        /\ sent (serve analyze Sample.world0 Sample.analyze_base_fast)
           = Some r
        /\ status r = 200
        /\ get_data (get_data (get_data (body r) "facts") "holders")
             "top10Pct" = VNull
        /\ get_data (body r) "mode" = VStr "fast")
  /\ exists r,
       sent (serve analyze Sample.rpc_down Sample.analyze_base_fast) = Some r
       /\ status r <> 200
       /\ get_data (body r) "mode" = VUndef
       /\ get_data (body r) "facts" = VUndef
       /\ ~ invoked approxTopHoldersPct
             (snd (serve analyze Sample.rpc_down Sample.analyze_base_fast)).
Proof.
  split.
  - assert (Hf : fast_of Sample.analyze_base_fast = true) by reflexivity.
    assert (Hon : on_chain "evm" Sample.world0 Sample.analyze_base_fast).
    { exists (Sample.chain_of "evm" "https://basescan.org").
      split; reflexivity. }
    destruct (sent (serve analyze Sample.world0 Sample.analyze_base_fast))
      as [r |] eqn:Hs; [| vm_compute in Hs; discriminate Hs].
    assert (Hst : status r = 200)
      by (vm_compute in Hs; injection Hs as <-; reflexivity).
    pose (H := fast_skips_estimator Sample.world0 Sample.analyze_base_fast).
    split; [exact Hf |].
    split; [exact (proj1 (proj2 (proj2 H)) Hf) |].
    exists r. split; [exact Hon |]. split; [reflexivity |].
    split; [exact Hst |].
    exact (proj1 (proj2 (proj2 (proj2 H))) r Hon Hs Hst).
  - destruct (sent (serve analyze Sample.rpc_down Sample.analyze_base_fast))
      as [r |] eqn:Hs; [| vm_compute in Hs; discriminate Hs].
    assert (Hst : status r <> 200)
      by (vm_compute in Hs; injection Hs as <-; discriminate).
    exists r. split; [reflexivity |]. split; [exact Hst |].
    exact (proj2 (proj2 (proj2 (proj2
             (fast_skips_estimator Sample.rpc_down
                Sample.analyze_base_fast)))) r Hs Hst).
Defined.

(** C5, as stated, fails: on a chain of kind solana the 200 response of
    [/graph] shows none of [windowBlocks], [span], [delay]. *)
Lemma graph_solana_no_echo :
  sent (serve graph Sample.lenient Sample.graph_solana)
  = Some {| status := 200;
            body := object [("ok", VBool true); ("nodes", empty_array);
                            ("links", empty_array)] |}
  /\ get_data (object [("ok", VBool true); ("nodes", empty_array);
                       ("links", empty_array)]) "windowBlocks" = VUndef.
Proof. split; reflexivity. Qed.

(** C6, as stated, fails: the analyzer's result has no [ok], and neither
    has the body of the response. *)
Lemma analyze_solana_without_ok :
  sent (serve analyze Sample.world0 Sample.analyze_solana)
  = Some {| status := 200; body := object [("mint", VStr "So111")] |}
  /\ get_data (object [("mint", VStr "So111")]) "ok" = VUndef.
Proof. split; reflexivity. Qed.

Lemma analyze_solana_verbatim_witness :
  serve analyze Sample.world0 Sample.analyze_solana
  = (Normal {| status := 200; body := object [("mint", VStr "So111")] |},
     [Call analyzeSolMint
        (analyzer_args Sample.world0 Sample.analyze_solana
           Sample.solana_chain)]).
Proof.
  apply (analyze_solana_verbatim Sample.world0 Sample.analyze_solana
           Sample.solana_chain).
  - reflexivity.
  - reflexivity.
  - vm_compute. discriminate.
  - reflexivity.
Defined.

(** C7, as stated, fails: [/jeeter] answers an unknown chain with
    "EVM only". *)
Lemma jeeter_unknown_chain_evm_only :
  getChains Sample.world0 !! chainKey_of Sample.unknown_chain = None
  /\ sent (serve jeeter Sample.world0 Sample.unknown_chain)
     = Some {| status := 400; body := failure (VStr "EVM only") |}
  /\ failure (VStr "EVM only") <> failure (VStr "Unknown chain").
Proof. repeat split. discriminate. Qed.

Lemma unknown_chain_rejected_witness :
  serve analyze Sample.world0 Sample.unknown_chain
  = (Normal {| status := 400; body := failure (VStr "Unknown chain") |}, [])
  /\ serve graph Sample.world0 Sample.unknown_chain
     = (Normal {| status := 400; body := failure (VStr "Unknown chain") |},
        [])
  /\ serve jeeter Sample.world0 Sample.unknown_chain
     = (Normal {| status := 400; body := failure (VStr "EVM only") |}, []).
Proof.
  apply (unknown_chain_rejected Sample.world0 Sample.unknown_chain).
  reflexivity.
Defined.

(** C8, as stated, fails: without [token] the rejected [center] gets
    "Missing token/center". *)
Lemma rejected_center_without_token :
  on_chain "solana" Sample.world0 Sample.graph_solana_no_token
  /\ services Sample.world0 looksLikeSolAddress
       [VStr (center_of Sample.graph_solana_no_token)]
     = Normal (VBool false)
  /\ sent (serve graph Sample.world0 Sample.graph_solana_no_token)
     = Some {| status := 400;
               body := failure (VStr "Missing token/center") |}.
Proof.
  split; [exists Sample.solana_chain; split; reflexivity |].
  split; reflexivity.
Qed.

Lemma bad_sol_address_witness :
  sent (serve graph Sample.world0 Sample.graph_solana)
  = Some {| status := 400; body := failure (VStr "Bad Sol address") |}
  /\ ~ invoked buildSolGraph
         (snd (serve graph Sample.world0 Sample.graph_solana)).
Proof.
  apply (bad_sol_address Sample.world0 Sample.graph_solana
           Sample.solana_chain eq_refl eq_refl (VBool false));
    reflexivity.
Defined.



Lemma unknown_chain_precedes_missing_witness :
  sent (serve analyze Sample.world0 Sample.unknown_chain_no_token)
  = Some {| status := 400; body := failure (VStr "Unknown chain") |}
  /\ sent (serve graph Sample.world0 Sample.unknown_chain_no_token)
     = Some {| status := 400; body := failure (VStr "Unknown chain") |}.
Proof.
  apply (unknown_chain_precedes_missing Sample.world0
           Sample.unknown_chain_no_token);
    reflexivity.
Defined.

(** * More of [index.js] *)

Import Detail.

(** ** Identifiers: [trim] and [toLowerCase] *)

Ltac other_keys :=
  unfold chainKey_of, token_of, center_of, fast_of, blocks_of, span_of,
    delay_of;
  rewrite ?lookup_insert_eq, ?lookup_insert_ne by discriminate.

Section Identifiers.

Lemma drop_space_blank (l : list ascii) :
  forallb is_space l = true -> drop_space l = [].
Proof.
  induction l as [| c l IH]; [reflexivity |]. cbn [forallb drop_space].
  intros [Hc Hl]%andb_true_iff. rewrite Hc. auto.
Qed.

Lemma trim_blank (s : string) : blank s = true -> trim s = "".
Proof.
  unfold blank, trim. intros H. rewrite (drop_space_blank _ H). reflexivity.
Qed.

Lemma drop_space_tidy (l : list ascii) : tidy (drop_space l).
Proof.
  induction l as [| c l IH]; [exact I |]. cbn [drop_space].
  destruct (is_space c) eqn:Hc; [exact IH | exact Hc].
Qed.

Lemma drop_space_id (l : list ascii) : tidy l -> drop_space l = l.
Proof. destruct l as [| c l]; [reflexivity |]. cbn. intros ->. reflexivity. Qed.

Lemma drop_space_suffix (l : list ascii) :
  exists pre, l = (pre ++ drop_space l)%list.
Proof.
  induction l as [| c l [pre IH]]; [exists []; reflexivity |].
  cbn [drop_space]. destruct (is_space c).
  - exists (c :: pre). cbn. congruence.
  - exists []. reflexivity.
Qed.

Lemma trimmed_tidy (l : list ascii) :
  tidy l -> tidy (rev (drop_space (rev l))).
Proof.
  intros Hl. destruct (drop_space_suffix (rev l)) as [pre Hpre].
  apply (f_equal (@rev ascii)) in Hpre.
  rewrite rev_involutive, rev_app_distr in Hpre.
  destruct (rev (drop_space (rev l))) as [| c r]; [exact I |].
  rewrite Hpre in Hl. exact Hl.
Qed.

Lemma trim_idempotent (s : string) : trim (trim s) = trim s.
Proof.
  unfold trim. rewrite list_ascii_of_string_of_list_ascii.
  set (l1 := drop_space (list_ascii_of_string s)).
  assert (H1 : tidy l1) by apply drop_space_tidy.
  rewrite (drop_space_id _ (trimmed_tidy l1 H1)).
  rewrite rev_involutive.
  rewrite (drop_space_id _ (drop_space_tidy (rev l1))). reflexivity.
Qed.

Lemma lower_idempotent (c : ascii) : lower (lower c) = lower c.
Proof. destruct c as [[] [] [] [] [] [] [] []]; reflexivity. Qed.

Lemma toLowerCase_idempotent (s : string) :
  toLowerCase (toLowerCase s) = toLowerCase s.
Proof.
  induction s as [| c s IH]; [reflexivity |]. cbn.
  rewrite lower_idempotent, IH. reflexivity.
Qed.

Lemma toLowerCase_empty (s : string) :
  String.eqb (toLowerCase s) "" = String.eqb s "".
Proof. destruct s; reflexivity. Qed.

Lemma lower_space (c : ascii) : is_space (lower c) = is_space c.
Proof. destruct c as [[] [] [] [] [] [] [] []]; reflexivity. Qed.

Lemma list_of_toLowerCase (s : string) :
  list_ascii_of_string (toLowerCase s) = map lower (list_ascii_of_string s).
Proof. induction s as [| c s IH]; [reflexivity |]. cbn. congruence. Qed.

Lemma toLowerCase_of_list (l : list ascii) :
  toLowerCase (string_of_list_ascii l) = string_of_list_ascii (map lower l).
Proof. induction l as [| c l IH]; [reflexivity |]. cbn. congruence. Qed.

Lemma drop_space_lower (l : list ascii) :
  drop_space (map lower l) = map lower (drop_space l).
Proof.
  induction l as [| c l IH]; [reflexivity |]. cbn [map drop_space].
  rewrite lower_space. destruct (is_space c); [exact IH | reflexivity].
Qed.

Lemma trim_toLowerCase (s : string) :
  trim (toLowerCase s) = toLowerCase (trim s).
Proof.
  unfold trim. rewrite list_of_toLowerCase, toLowerCase_of_list.
  rewrite drop_space_lower, <- map_rev, drop_space_lower, <- map_rev.
  reflexivity.
Qed.

Lemma string_or_string (s : string) : string_or (Some (QStr s)) "" = s.
Proof. destruct s; reflexivity. Qed.

(** A handler looks at the query through the seven derived values only. *)
Lemma handler_ext (ep : endpoint) (w : world) (q q' : gmap string qval) :
  chainKey_of q = chainKey_of q' ->
  token_of q = token_of q' ->
  center_of q = center_of q' ->
  fast_of q = fast_of q' ->
  blocks_of q = blocks_of q' ->
  span_of q = span_of q' ->
  delay_of q = delay_of q' ->
  serve (handler ep) w q = serve (handler ep) w q'.
Proof.
  intros Hc Ht Hce Hf Hb Hs Hd.
  destruct ep; unfold serve, handler, analyze, graph, jeeter; cbv zeta;
    rewrite ?Hc, ?Ht, ?Hce, ?Hf, ?Hb, ?Hs, ?Hd; reflexivity.
Qed.

Variable ep : endpoint.
Variable w : world.
Variable q : gmap string qval.

(** X1.  The chain key is looked up in lower case: a request is served the
    same whatever the case of the letters of its [chain]. *)
Theorem chain_case_insensitive (s : string) :
  serve (handler ep) w (<["chain" := QStr s]> q)
  = serve (handler ep) w (<["chain" := QStr (toLowerCase s)]> q).
Proof.
  apply handler_ext; other_keys; try reflexivity.
  unfold string_or, to_boolean, ToString.
  rewrite toLowerCase_empty.
  destruct (String.eqb s ""); cbn [negb];
    [reflexivity | symmetry; apply toLowerCase_idempotent].
Qed.

(** X2.  White space around [token] and [center] does not count, nor does
    the case of the letters of [center]: a request is served the same with
    the trimmed token and with the trimmed, lower-cased center. *)
Theorem identifiers_trimmed (s : string) :
  serve (handler ep) w (<["token" := QStr s]> q)
  = serve (handler ep) w (<["token" := QStr (trim s)]> q)
  /\ serve (handler ep) w (<["center" := QStr s]> q)
     = serve (handler ep) w (<["center" := QStr (toLowerCase (trim s))]> q).
Proof.
  split; apply handler_ext; other_keys; try reflexivity;
    rewrite !string_or_string.
  - symmetry. apply trim_idempotent.
  - rewrite trim_toLowerCase, trim_idempotent, toLowerCase_idempotent.
    reflexivity.
Qed.

End Identifiers.

(** ** Requests rejected before any service is called *)

Section Rejections.

Variable w : world.
Variable query : gmap string qval.
Variable chain : ChainConfig.
Hypothesis registered : getChains w !! chainKey_of query = Some chain.

(** X3.  On a registered chain, [/analyze] without [token], or with a
    [token] of white space only, answers 400 "Missing token/mint" and calls
    no service, whatever the kind of the chain. *)
Theorem missing_token_rejected :
  query !! "token" = None
  \/ (exists s, query !! "token" = Some (QStr s) /\ blank s = true) ->
  serve analyze w query
  = (Normal {| status := 400; body := failure (VStr "Missing token/mint") |},
     []).
Proof.
  intros Htok.
  assert (Ht : token_of query = "").
  { unfold token_of. destruct Htok as [-> | (s & -> & Hs)]; [reflexivity |].
    rewrite string_or_string. apply trim_blank, Hs. }
  unfold serve, analyze, try_catch. cbv zeta. rewrite registered, Ht.
  reflexivity.
Qed.

End Rejections.

Ltac run_of H r Hr :=
  match type of H with
  | _ _ _ ?s => remember s as r eqn:Hr; destruct H
  end.

Ltac sent_400 :=
  unfold status_of, sent; cbn [fst fmap option_fmap option_map status];
  try rewrite on_error_eq; cbn [fst];
  repeat match goal with
    | |- context [nullish ?e] => destruct (nullish e)
    end;
  cbn [fst fmap option_fmap option_map status].

Section Validation.

Variable w : world.
Variable query : gmap string qval.

(** X4.  [/analyze] answers 400 exactly when the chain is unknown, the
    token is missing, or the kind of the chain is neither "evm" nor
    "solana". *)
Theorem analyze_rejects_iff :
  status_of (serve analyze w query) = Some 400
  <-> match getChains w !! chainKey_of query with
      | None => True
      | Some chain =>
          token_of query = ""
          \/ (strict_eq_str (kind chain) "evm" = false
              /\ strict_eq_str (kind chain) "solana" = false)
      end.
Proof.
  pose proof (analyze_runs w query) as Hrun.
  destruct Hrun;
    repeat match goal with
      | H : getChains w !! _ = _ |- _ => rewrite H; clear H
      end;
    sent_400; split; intros Hx; try discriminate Hx; try exact I;
    try reflexivity; auto; try (exfalso; intuition congruence).
Qed.

(** X5.  [/graph] answers 400 exactly when the chain is unknown, the token
    or the center is missing, the kind of the chain is neither "evm" nor
    "solana", or the chain is of kind solana and the address predicate
    returns a falsy value for the center. *)
Theorem graph_rejects_iff :
  status_of (serve graph w query) = Some 400
  <-> match getChains w !! chainKey_of query with
      | None => True
      | Some chain =>
          token_of query = "" \/ center_of query = ""
          \/ (strict_eq_str (kind chain) "evm" = false
              /\ strict_eq_str (kind chain) "solana" = false)
          \/ (strict_eq_str (kind chain) "evm" = false
              /\ exists looks,
                   services w looksLikeSolAddress [VStr (center_of query)]
                   = Normal looks
                   /\ truthy looks = false)
      end.
Proof.
  pose proof (graph_runs w query) as Hrun.
  destruct Hrun;
    repeat match goal with
      | H : getChains w !! _ = _ |- _ => rewrite H; clear H
      end;
    sent_400; split; intros Hx; try discriminate Hx; try exact I;
    try reflexivity; try tauto; eauto 8;
    try (exfalso;
         repeat match goal with
           | H : _ \/ _ |- _ => destruct H
           | H : _ /\ _ |- _ => destruct H
           | H : exists _, _ |- _ => destruct H
           end; congruence).
Qed.

(** X6.  [/jeeter] answers 400 exactly when the chain is unknown or its
    kind is not "evm"; a missing token is no reason. *)
Theorem jeeter_rejects_iff :
  status_of (serve jeeter w query) = Some 400
  <-> match getChains w !! chainKey_of query with
      | None => True
      | Some chain => strict_eq_str (kind chain) "evm" = false
      end.
Proof.
  pose proof (jeeter_runs w query) as Hrun.
  destruct Hrun;
    repeat match goal with
      | H : getChains w !! _ = _ |- _ => rewrite H; clear H
      end;
    sent_400; split; intros Hx; try discriminate Hx; try exact I;
    try reflexivity; auto; try congruence.
Qed.

End Validation.

(** ** The guarded calls in detail *)

Section GuardedCalls.

Variable w : world.
Variable query : gmap string qval.

Lemma evm_graph_guarded (meta : value) (t : list event) :
  exists g t',
    evm_graph w (token_of query) (center_of query) meta (blocks_of query)
      (span_of query) (delay_of query) t
    = (Normal g, (t ++ t')%list)
    /\ guarded_call w buildEvmGraph (graph_args query meta)
         "buildEvmGraph failed:" empty_graph meta g t'.
Proof.
  unfold evm_graph, try_catch, bind, get, call, log_failed, log_error, ret,
    throw.
  destruct (nullish meta) eqn:Hn.
  - eexists. eexists. split; [reflexivity |]. cbn. constructor. exact Hn.
  - fold (graph_args query meta).
    destruct (services w buildEvmGraph (graph_args query meta)) eqn:Hs.
    + eexists. eexists. split; [reflexivity |]. constructor; assumption.
    + eexists. eexists. split; [rewrite <- app_assoc; reflexivity |].
      constructor; assumption.
Qed.

Lemma evm_report_guarded (meta : value) (t : list event) :
  exists r t',
    evm_report w (chainKey_of query) (token_of query) meta (blocks_of query)
      (span_of query) (delay_of query) t
    = (Normal r, (t ++ t')%list)
    /\ guarded_call w jeeterReport (report_args query meta)
         "jeeterReport failed:" empty_report meta r t'.
Proof.
  unfold evm_report, try_catch, bind, get, call, log_failed, log_error, ret,
    throw.
  destruct (nullish meta) eqn:Hn.
  - eexists. eexists. split; [reflexivity |]. cbn. constructor. exact Hn.
  - fold (report_args query meta).
    destruct (services w jeeterReport (report_args query meta)) eqn:Hs.
    + eexists. eexists. split; [reflexivity |]. constructor; assumption.
    + eexists. eexists. split; [rewrite <- app_assoc; reflexivity |].
      constructor; assumption.
Qed.

Variable chain : ChainConfig.
Hypothesis registered : getChains w !! chainKey_of query = Some chain.
Hypothesis evm : strict_eq_str (kind chain) "evm" = true.

(** [/graph] on a chain of kind evm once the metadata is read *)
Lemma graph_evm_detail (meta : value) :
  token_of query <> "" ->
  center_of query <> "" ->
  services w readErc20Meta (metadata_args query chain) = Normal meta ->
  exists g t',
    serve graph w query
    = (Normal {| status := 200;
                 body := with_window g (blocks_of query) (span_of query)
                           (delay_of query) |},
       Call readErc20Meta (metadata_args query chain) :: t')
    /\ guarded_call w buildEvmGraph (graph_args query meta)
         "buildEvmGraph failed:" empty_graph meta g t'.
Proof.
  intros Ht Hce Hs. apply String.eqb_neq in Ht, Hce.
  unfold serve, graph. cbv zeta. unfold try_catch at 1.
  rewrite registered, Ht, Hce, evm. cbn [orb].
  unfold bind at 1. unfold call at 1. cbn [app].
  fold (metadata_args query chain). rewrite Hs. unfold bind.
  destruct (evm_graph_guarded meta
              [Call readErc20Meta (metadata_args query chain)])
    as (g & t' & -> & Hg).
  exists g, t'. split; [reflexivity | exact Hg].
Qed.

(** [/jeeter] on a chain of kind evm once the metadata is read *)
Lemma jeeter_evm_detail (meta : value) :
  services w readErc20Meta (metadata_args query chain) = Normal meta ->
  exists r t',
    serve jeeter w query
    = (Normal {| status := 200;
                 body := with_window r (blocks_of query) (span_of query)
                           (delay_of query) |},
       Call readErc20Meta (metadata_args query chain) :: t')
    /\ guarded_call w jeeterReport (report_args query meta)
         "jeeterReport failed:" empty_report meta r t'.
Proof.
  intros Hs.
  unfold serve, jeeter. cbv zeta. unfold try_catch at 1.
  rewrite registered, evm. cbn [negb].
  unfold bind at 1. unfold call at 1. cbn [app].
  fold (metadata_args query chain). rewrite Hs. unfold bind.
  destruct (evm_report_guarded meta
              [Call readErc20Meta (metadata_args query chain)])
    as (r & t' & -> & Hr).
  exists r, t'. split; [reflexivity | exact Hr].
Qed.

End GuardedCalls.

(** ** [/analyze] on a chain of kind evm in detail *)

Section AnalyzeDetail.

Variable w : world.
Variable query : gmap string qval.
Variable chain : ChainConfig.
Hypothesis registered : getChains w !! chainKey_of query = Some chain.
Hypothesis evm : strict_eq_str (kind chain) "evm" = true.

(** Lines 82-86 leave [explorer_facts] after one call to the explorer. *)
Lemma contract_source_eq (t : list event) :
  contract_source w (chainKey_of query) (token_of query) chain t
  = (Normal (explorer_facts w query chain),
     (t ++ [Call getContractSource (source_args query chain)])%list).
Proof.
  unfold contract_source, explorer_facts, try_catch, bind, call, ret.
  fold (source_args query chain).
  destruct (services w getContractSource (source_args query chain))
    as [src | e]; [| reflexivity].
  unfold get. destruct (nullish src); reflexivity.
Qed.

(** [/analyze] on a chain of kind evm once the metadata, an object, is
    read: lines 60-101. *)
Lemma analyze_evm_detail (meta : value) :
  token_of query <> "" ->
  services w readErc20Meta (metadata_args query chain) = Normal meta ->
  nullish meta = false ->
  exists meta' t1 top t2,
    fallback_name_symbol w (token_of query) meta
      [Call readErc20Meta (metadata_args query chain)]
    = (Normal meta', Call readErc20Meta (metadata_args query chain) :: t1)
    /\ nullish meta' = false
    /\ Forall dex_call t1
    /\ estimate w (estimator_args query meta') (fast_of query) top t2
    /\ serve analyze w query
       = (Normal {| status := 200;
                    body := analysis (chainKey_of query) (token_of query)
                              chain (fast_of query) (blocks_of query)
                              (span_of query) (delay_of query)
                              (get_data meta' "name")
                              (get_data meta' "symbol")
                              (get_data meta' "decimals")
                              (get_data meta' "totalSupply")
                              (get_data meta' "owner")
                              (get_data meta' "ownerRenounced")
                              top (fst (explorer_facts w query chain))
                              (snd (explorer_facts w query chain)) |},
          (Call readErc20Meta (metadata_args query chain) :: t1 ++ t2
             ++ [Call getContractSource (source_args query chain)])%list).
Proof.
  intros Ht Hs Hn. apply String.eqb_neq in Ht.
  unfold serve, analyze. cbv zeta. unfold try_catch at 1.
  rewrite registered, Ht, evm.
  unfold bind at 1. unfold call at 1. cbn [app].
  fold (metadata_args query chain). rewrite Hs. unfold bind at 1.
  destruct (fallback_returns w (token_of query) meta
              [Call readErc20Meta (metadata_args query chain)] Hn)
    as (meta' & t1 & Hfb & Hn' & Hd).
  rewrite Hfb. exists meta', t1.
  unfold bind at 1. rewrite (top_holders_eq w _ _ meta' _ _ _ _ Hn').
  cbv zeta. fold (estimator_args query meta').
  rewrite !(get_object meta' _ Hn').
  assert (Hfin : forall top t2,
    estimate w (estimator_args query meta') (fast_of query) top t2 ->
    exists top' t2',
      (Normal meta',
       ([Call readErc20Meta (metadata_args query chain)] ++ t1)%list)
      = (Normal meta',
         Call readErc20Meta (metadata_args query chain) :: t1)
      /\ nullish meta' = false
      /\ Forall dex_call t1
      /\ estimate w (estimator_args query meta') (fast_of query) top' t2'
      /\ (let (c, t') :=
            let (c0, t') :=
              (Normal top,
               (([Call readErc20Meta (metadata_args query chain)] ++ t1)
                  ++ t2)%list) in
            match c0 with
            | Normal a =>
                (let* cs := contract_source w (chainKey_of query)
                              (token_of query) chain in
                 let* name := ret (get_data meta' "name") in
                 let* symbol := ret (get_data meta' "symbol") in
                 let* decimals := ret (get_data meta' "decimals") in
                 let* totalSupply := ret (get_data meta' "totalSupply") in
                 let* owner := ret (get_data meta' "owner") in
                 let* ownerRenounced :=
                   ret (get_data meta' "ownerRenounced") in
                 json (analysis (chainKey_of query) (token_of query) chain
                         (fast_of query) (blocks_of query) (span_of query)
                         (delay_of query) name symbol decimals totalSupply
                         owner ownerRenounced a cs.1 cs.2)) t'
            | Throw e => (Throw e, t')
            end in
          match c with
          | Normal a => (Normal a, t')
          | Throw e => on_error "Analyze failed" e t'
          end)
         = (Normal {| status := 200;
                      body := analysis (chainKey_of query) (token_of query)
                                chain (fast_of query) (blocks_of query)
                                (span_of query) (delay_of query)
                                (get_data meta' "name")
                                (get_data meta' "symbol")
                                (get_data meta' "decimals")
                                (get_data meta' "totalSupply")
                                (get_data meta' "owner")
                                (get_data meta' "ownerRenounced")
                                top' (fst (explorer_facts w query chain))
                                (snd (explorer_facts w query chain)) |},
            (Call readErc20Meta (metadata_args query chain) :: t1 ++ t2'
               ++ [Call getContractSource (source_args query chain)])%list)).
  { intros top t2 Hest. exists top, t2.
    repeat (split; [solve [auto] |]).
    unfold bind at 1. rewrite contract_source_eq.
    cbn -[analysis metadata_args explorer_facts source_args].
    rewrite <- app_assoc. reflexivity. }
  destruct (fast_of query).
  - specialize (Hfin VNull [] (estimate_skipped _ _)).
    rewrite app_nil_r in Hfin. exact Hfin.
  - destruct (services w approxTopHoldersPct (estimator_args query meta'))
      as [v | e] eqn:Hv.
    + apply (Hfin v [Call approxTopHoldersPct
                       (estimator_args query meta')]).
      constructor; exact Hv.
    + rewrite <- app_assoc. apply (Hfin VNull).
      econstructor; exact Hv.
Qed.

End AnalyzeDetail.

(** ** Where the failures come from *)

Ltac inv_guarded H :=
  inversion H; subst; clear H.

Section Origins.

Variable w : world.
Variable query : gmap string qval.

(** The graph builder is called at most with the argument of line 135, on
    a chain of kind evm, once the metadata is read. *)
Lemma builder_called (args : list value) :
  In (Call buildEvmGraph args) (snd (serve graph w query)) ->
  exists chain meta g t',
    getChains w !! chainKey_of query = Some chain
    /\ strict_eq_str (kind chain) "evm" = true
    /\ nullish meta = false
    /\ args = graph_args query meta
    /\ guarded_call w buildEvmGraph args "buildEvmGraph failed:" empty_graph
         meta g t'
    /\ serve graph w query
       = (Normal {| status := 200;
                    body := with_window g (blocks_of query) (span_of query)
                              (delay_of query) |},
          Call readErc20Meta (metadata_args query chain) :: t').
Proof.
  pose proof (graph_runs w query) as Hrun. intros Hin. revert Hin.
  run_of Hrun r Hr; intros Hin;
    try (apply not_in_on_error in Hin);
    try (cbn in Hin; intuition discriminate).
  destruct (graph_evm_detail w query chain H H2 meta H0 H1 H3)
    as (g' & t' & Heq & Hg).
  rewrite Heq in Hr. injection Hr as Hb Htr. subst t.
  unfold with_window. rewrite Hb. fold (with_window g' (blocks_of query)
    (span_of query) (delay_of query)).
  cbn [snd] in Hin. destruct Hin as [Hin | Hin]; [discriminate Hin |].
  exists chain, meta, g', t'.
  inversion Hg as [Hn | v Hn Hv | e Hn Hv]; subst.
  - destruct Hin as [Hin | []]. discriminate Hin.
  - destruct Hin as [[= <-] | []]. auto 10.
  - destruct Hin as [[= <-] | [Hin | []]]; [| discriminate Hin]. auto 10.
Qed.

(** The jeeter report is called at most with the argument of line 172, on
    a chain of kind evm, once the metadata is read. *)
Lemma reporter_called (args : list value) :
  In (Call jeeterReport args) (snd (serve jeeter w query)) ->
  exists chain meta r t',
    getChains w !! chainKey_of query = Some chain
    /\ strict_eq_str (kind chain) "evm" = true
    /\ nullish meta = false
    /\ args = report_args query meta
    /\ guarded_call w jeeterReport args "jeeterReport failed:" empty_report
         meta r t'
    /\ serve jeeter w query
       = (Normal {| status := 200;
                    body := with_window r (blocks_of query) (span_of query)
                              (delay_of query) |},
          Call readErc20Meta (metadata_args query chain) :: t').
Proof.
  pose proof (jeeter_runs w query) as Hrun. intros Hin. revert Hin.
  run_of Hrun r Hr; intros Hin;
    try (apply not_in_on_error in Hin);
    try (cbn in Hin; intuition discriminate).
  destruct (jeeter_evm_detail w query chain H H0 meta H1)
    as (r' & t' & Heq & Hg).
  rewrite Heq in Hr. injection Hr as Hb Htr. subst t.
  unfold with_window. rewrite Hb. fold (with_window r' (blocks_of query)
    (span_of query) (delay_of query)).
  cbn [snd] in Hin. destruct Hin as [Hin | Hin]; [discriminate Hin |].
  exists chain, meta, r', t'.
  inversion Hg as [Hn | v Hn Hv | e Hn Hv]; subst.
  - destruct Hin as [Hin | []]. discriminate Hin.
  - destruct Hin as [[= <-] | []]. auto 10.
  - destruct Hin as [[= <-] | [Hin | []]]; [| discriminate Hin]. auto 10.
Qed.

End Origins.

Section Errors.

Variable ep : endpoint.
Variable w : world.
Variable query : gmap string qval.

(** X7.  A 400 response costs no call to a service, except that "Bad Sol
    address" of [/graph] comes after the one call to the address
    predicate. *)
Theorem validation_calls_no_service (r : response) :
  sent (serve (handler ep) w query) = Some r ->
  status r = 400 ->
  snd (serve (handler ep) w query) = []
  \/ (ep = Graph
      /\ body r = failure (VStr "Bad Sol address")
      /\ snd (serve (handler ep) w query)
         = [Call looksLikeSolAddress [VStr (center_of query)]]).
Proof.
  intros Hsent Hst. destruct ep; cbn [handler] in *.
  - pose proof (analyze_runs w query) as Hrun. revert Hsent.
    destruct Hrun; intros Hsent; inv_sent; cbn [status snd] in *;
      try discriminate Hst; auto.
  - pose proof (graph_runs w query) as Hrun. revert Hsent.
    destruct Hrun; intros Hsent; inv_sent; cbn [status snd] in *;
      try discriminate Hst; auto.
  - pose proof (jeeter_runs w query) as Hrun. revert Hsent.
    destruct Hrun; intros Hsent; inv_sent; cbn [status snd] in *;
      try discriminate Hst; auto.
Qed.

(** X8.  A 500 response is logged and explained: the last event is
    [console.error(e)] for the thrown value [e], the body is
    [{ok: false, error: e.message || fallback}], and no guarded service
    has been called while the request was served. *)
Theorem server_error_origin (r : response) :
  sent (serve (handler ep) w query) = Some r ->
  status r = 500 ->
  exists e t,
    snd (serve (handler ep) w query) = (t ++ [console_error [e]])%list
    /\ body r = failure (or (get_data e "message")
                            (VStr (fallback_message ep)))
    /\ forallb (fun c => negb (guarded c))
         (calls (snd (serve (handler ep) w query))) = true.
Proof.
  intros Hsent Hst. destruct ep; cbn [handler fallback_message] in *.
  - pose proof (analyze_runs w query) as Hrun. revert Hsent.
    destruct Hrun; intros Hsent; inv_sent; cbn [status] in *;
      try discriminate Hst; rewrite on_error_eq; cbn [snd];
      eexists; eexists; repeat split.
  - pose proof (graph_runs w query) as Hrun. revert Hsent.
    destruct Hrun; intros Hsent; inv_sent; cbn [status] in *;
      try discriminate Hst; rewrite on_error_eq; cbn [snd];
      eexists; eexists; repeat split.
  - pose proof (jeeter_runs w query) as Hrun. revert Hsent.
    destruct Hrun; intros Hsent; inv_sent; cbn [status] in *;
      try discriminate Hst; rewrite on_error_eq; cbn [snd];
      eexists; eexists; repeat split.
Qed.

(** X9.  When the metadata reader is called and throws a value [e] other
    than [undefined] and [null], the response is 500 with
    [{ok: false, error: e.message || fallback}], on each of the three
    endpoints. *)
Theorem metadata_read_failure (args : list value) (e : value) :
  In (Call readErc20Meta args) (snd (serve (handler ep) w query)) ->
  services w readErc20Meta args = Throw e ->
  nullish e = false ->
  sent (serve (handler ep) w query)
  = Some {| status := 500;
            body := failure (or (get_data e "message")
                                (VStr (fallback_message ep))) |}.
Proof.
  intros Hin Hthrow Hne. revert Hin.
  destruct ep; cbn [handler fallback_message] in *.
  - pose proof (analyze_runs w query) as Hrun.
    destruct Hrun as [ | | | chain meta meta' t1 top t2 cs Hc Ht He Hs Hn Hn'
                               Hd Hest | | | | ];
      intros Hin; try (apply not_in_on_error in Hin); cbn [snd] in Hin.
    + destruct Hin.
    + destruct Hin.
    + destruct Hin.
    + exfalso. destruct Hin as [[= <-] | Hin]; [congruence |].
      apply in_app_or in Hin as [Hin | Hin].
      * rewrite Forall_forall in Hd. apply list_elem_of_In, Hd in Hin.
        destruct Hin as [a Ha]. discriminate Ha.
      * apply in_app_or in Hin as [Hin | Hin];
          [| cbn in Hin; intuition discriminate].
        inversion Hest; subst; cbn in Hin; intuition discriminate.
    + destruct Hin as [[= <-] | []]. congruence.
    + destruct Hin as [[= <-] | []].
      rewrite sent_on_error. same_reply. rewrite Hne. reflexivity.
    + destruct Hin as [Hin | []]. discriminate Hin.
    + destruct Hin as [Hin | []]. discriminate Hin.
  - pose proof (graph_runs w query) as Hrun.
    run_of Hrun r Hr; intros Hin; try (apply not_in_on_error in Hin);
      try (cbn in Hin; intuition discriminate).
    + exfalso.
      destruct (graph_evm_detail w query chain H H2 meta H0 H1 H3)
        as (g' & t' & Heq & Hg).
      rewrite Heq in Hr. injection Hr as Hb Htr. subst t.
      destruct Hin as [[= <-] | Hin]; [congruence |].
      inversion Hg; subst; cbn in Hin; intuition discriminate.
    + destruct Hin as [[= <-] | []].
      rewrite sent_on_error. same_reply. rewrite Hne. reflexivity.
  - pose proof (jeeter_runs w query) as Hrun.
    run_of Hrun r Hr; intros Hin; try (apply not_in_on_error in Hin);
      try (cbn in Hin; intuition discriminate).
    + exfalso.
      destruct (jeeter_evm_detail w query chain H H0 meta H1)
        as (r' & t' & Heq & Hg).
      rewrite Heq in Hr. injection Hr as Hb Htr. subst t.
      destruct Hin as [[= <-] | Hin]; [congruence |].
      inversion Hg; subst; cbn in Hin; intuition discriminate.
    + destruct Hin as [[= <-] | []].
      rewrite sent_on_error. same_reply. rewrite Hne. reflexivity.
Qed.

End Errors.

(** ** Guarded failures of [/graph] and [/jeeter] *)

Section GuardedFailures.

Variable w : world.
Variable query : gmap string qval.

(** X10.  When the graph builder of [/graph] is called and throws, the
    response is 200 with an empty graph beside the window, and the failure
    is logged with the message of the thrown value. *)
Theorem graph_builder_failure (args : list value) (e : value) :
  In (Call buildEvmGraph args) (snd (serve graph w query)) ->
  services w buildEvmGraph args = Throw e ->
  sent (serve graph w query)
  = Some {| status := 200;
            body := object [("ok", VBool true);
                            ("fromBlock", VNull); ("toBlock", VNull);
                            ("nodes", empty_array); ("links", empty_array);
                            ("windowBlocks", VNum (blocks_of query));
                            ("span", VNum (span_of query));
                            ("delay", VNum (delay_of query))] |}
  /\ In (console_error [VStr "buildEvmGraph failed:";
                        or (opt_get e "message") e])
        (snd (serve graph w query)).
Proof.
  intros Hin Hthrow.
  destruct (builder_called w query args Hin)
    as (chain & meta & g & t' & Hc & He & Hn & -> & Hg & Hrun).
  rewrite Hrun. inversion Hg as [Hn' | v Hn' Hv | e' Hn' Hv]; subst.
  - congruence.
  - congruence.
  - rewrite Hv in Hthrow. injection Hthrow as ->.
    split; [reflexivity |]. cbn. auto.
Qed.

(** X11.  When the jeeter report of [/jeeter] is called and throws, the
    response is 200 with an empty report beside the window, and the failure
    is logged with the message of the thrown value. *)
Theorem jeeter_report_failure (args : list value) (e : value) :
  In (Call jeeterReport args) (snd (serve jeeter w query)) ->
  services w jeeterReport args = Throw e ->
  sent (serve jeeter w query)
  = Some {| status := 200;
            body := object [("ok", VBool true);
                            ("priceNow", VNull);
                            ("fromBlock", VNull); ("toBlock", VNull);
                            ("jeeters", empty_array);
                            ("windowBlocks", VNum (blocks_of query));
                            ("span", VNum (span_of query));
                            ("delay", VNum (delay_of query))] |}
  /\ In (console_error [VStr "jeeterReport failed:";
                        or (opt_get e "message") e])
        (snd (serve jeeter w query)).
Proof.
  intros Hin Hthrow.
  destruct (reporter_called w query args Hin)
    as (chain & meta & r & t' & Hc & He & Hn & -> & Hg & Hrun).
  rewrite Hrun. inversion Hg as [Hn' | v Hn' Hv | e' Hn' Hv]; subst.
  - congruence.
  - congruence.
  - rewrite Hv in Hthrow. injection Hthrow as ->.
    split; [reflexivity |]. cbn. auto.
Qed.

Variable chain : ChainConfig.
Hypothesis registered : getChains w !! chainKey_of query = Some chain.
Hypothesis evm : strict_eq_str (kind chain) "evm" = true.

(** X12.  When the metadata reader returns [undefined] or [null] on a
    chain of kind evm, [/analyze] fails with 500 on reading [meta.name],
    while [/graph] and [/jeeter] answer 200 with an empty graph or report
    and do not call the builder or the reporter: there the read of
    [meta.provider] is inside the guard. *)
Theorem without_metadata (meta : value) :
  services w readErc20Meta (metadata_args query chain) = Normal meta ->
  nullish meta = true ->
  token_of query <> "" ->
  center_of query <> "" ->
  sent (serve analyze w query)
  = Some {| status := 500;
            body := failure (VStr ("Cannot read properties of "
                                   +:+ type_name meta
                                   +:+ " (reading 'name')")) |}
  /\ (sent (serve graph w query)
      = Some {| status := 200;
                body := with_window empty_graph (blocks_of query)
                          (span_of query) (delay_of query) |}
      /\ ~ invoked buildEvmGraph (snd (serve graph w query)))
  /\ (sent (serve jeeter w query)
      = Some {| status := 200;
                body := with_window empty_report (blocks_of query)
                          (span_of query) (delay_of query) |}
      /\ ~ invoked jeeterReport (snd (serve jeeter w query))).
Proof.
  intros Hs Hn Ht Hce. split; [| split].
  - pose proof Ht as Ht'. apply String.eqb_neq in Ht'.
    unfold sent, serve, analyze. cbv zeta. unfold try_catch at 1.
    rewrite registered, Ht', evm.
    unfold bind at 1. unfold call at 1. cbn [app].
    fold (metadata_args query chain). rewrite Hs. unfold bind at 1.
    unfold fallback_name_symbol, bind, get. rewrite Hn.
    unfold throw. rewrite on_error_eq. reflexivity.
  - destruct (graph_evm_detail w query chain registered evm meta Ht Hce Hs)
      as (g & t' & Heq & Hg).
    rewrite Heq. inversion Hg; subst; try congruence.
    split; [reflexivity |]. intros (a & Hin). cbn in Hin.
    intuition discriminate.
  - destruct (jeeter_evm_detail w query chain registered evm meta Hs)
      as (r & t' & Heq & Hg).
    rewrite Heq. inversion Hg; subst; try congruence.
    split; [reflexivity |]. intros (a & Hin). cbn in Hin.
    intuition discriminate.
Qed.

End GuardedFailures.

(** ** What a 200 response shows *)

Section Payload.

Lemma lookup_absent (k : string) (ps : props) :
  ~ In k (map fst ps) -> lookup_prop k ps = None.
Proof.
  induction ps as [| [k' v'] ps IH]; [reflexivity |]. cbn.
  intros Hni. destruct (String.eqb k' k) eqn:E.
  - apply String.eqb_eq in E. tauto.
  - apply IH. tauto.
Qed.

(** Spreading an object over properties already there: its own value
    wins, the others stay. *)
Lemma lookup_spread (k : string) (a : bool) (ps acc : props) :
  distinct_keys ps ->
  lookup_prop k (spread (VObj a ps) acc)
  = match lookup_prop k ps with
    | Some v => Some v
    | None => lookup_prop k acc
    end.
Proof.
  unfold spread, own_props, distinct_keys. revert acc.
  induction ps as [| [k1 v1] ps IH]; intros acc Hd; [reflexivity |].
  cbn [fold_left fst snd map lookup_prop] in *.
  apply NoDup_cons in Hd as [Hni Hd]. rewrite (IH _ Hd).
  destruct (String.eqb k1 k) eqn:E.
  - apply String.eqb_eq in E. subst k1.
    rewrite (lookup_absent k ps), lookup_set_eq; [reflexivity |].
    intros Hin. apply Hni, list_elem_of_In, Hin.
  - apply String.eqb_neq in E.
    rewrite (lookup_set_ne k k1) by congruence. reflexivity.
Qed.

(** [{ ok: true, ...r, windowBlocks, span, delay }]: every property of [r]
    but the three of the window is at the top level with its value, and
    [ok] is [true] unless [r] has one. *)
Lemma with_window_payload (a : bool) (ps : props)
    (blocks span delay : number) (k : string) :
  distinct_keys ps ->
  k <> "windowBlocks" -> k <> "span" -> k <> "delay" ->
  get_data (with_window (VObj a ps) blocks span delay) k
  = match lookup_prop k ps with
    | Some v => v
    | None => if String.eqb k "ok" then VBool true else VUndef
    end.
Proof.
  intros Hd H1 H2 H3. unfold with_window, get_data.
  rewrite !lookup_set_ne by assumption.
  rewrite (lookup_spread k a ps _ Hd).
  destruct (lookup_prop k ps); [reflexivity |].
  unfold literal. cbn [fold_left set_prop fst snd lookup_prop].
  rewrite String.eqb_sym. destruct (String.eqb k "ok"); reflexivity.
Qed.

Variable w : world.
Variable query : gmap string qval.

(** X13.  When the graph builder of [/graph] returns an object, the
    response is 200 and every property of the object, but [windowBlocks],
    [span] and [delay], is a property of the body with the same value (at
    the top level); those three are the window of the request. *)
Theorem graph_payload_top_level (args : list value) (a : bool) (ps : props) :
  In (Call buildEvmGraph args) (snd (serve graph w query)) ->
  services w buildEvmGraph args = Normal (VObj a ps) ->
  distinct_keys ps ->
  exists r,
    sent (serve graph w query) = Some r
    /\ status r = 200
    /\ (forall k v,
           lookup_prop k ps = Some v ->
           k <> "windowBlocks" -> k <> "span" -> k <> "delay" ->
           get_data (body r) k = v)
    /\ (lookup_prop "ok" ps = None -> get_data (body r) "ok" = VBool true)
    /\ get_data (body r) "windowBlocks" = VNum (blocks_of query)
    /\ get_data (body r) "span" = VNum (span_of query)
    /\ get_data (body r) "delay" = VNum (delay_of query).
Proof.
  intros Hin Hret Hd.
  destruct (builder_called w query args Hin)
    as (chain & meta & g & t' & Hc & He & Hn & -> & Hg & Hrun).
  rewrite Hrun. eexists. split; [reflexivity |]. split; [reflexivity |].
  cbn [body].
  inversion Hg as [Hn' | v Hn' Hv | e' Hn' Hv]; subst; try congruence.
  rewrite Hv in Hret. injection Hret as ->.
  split; [| split; [| apply with_window_echo]].
  - intros k v Hk H1 H2 H3.
    rewrite (with_window_payload a ps _ _ _ k Hd H1 H2 H3), Hk. reflexivity.
  - intros Hok. rewrite (with_window_payload a ps _ _ _ "ok" Hd);
      try discriminate. rewrite Hok. reflexivity.
Qed.

(** X14.  Every 200 response of [/jeeter] shows the window of the request
    in [windowBlocks], [span] and [delay], whatever the report holds; when
    the reporter returns an object, its other properties are properties of
    the body with the same value. *)
Theorem jeeter_success_echo (r : response) :
  sent (serve jeeter w query) = Some r ->
  status r = 200 ->
  (get_data (body r) "windowBlocks" = VNum (blocks_of query)
   /\ get_data (body r) "span" = VNum (span_of query)
   /\ get_data (body r) "delay" = VNum (delay_of query))
  /\ forall args a ps k v,
       In (Call jeeterReport args) (snd (serve jeeter w query)) ->
       services w jeeterReport args = Normal (VObj a ps) ->
       distinct_keys ps ->
       lookup_prop k ps = Some v ->
       k <> "windowBlocks" -> k <> "span" -> k <> "delay" ->
       get_data (body r) k = v.
Proof.
  intros Hsent Hst. split.
  - pose proof (jeeter_runs w query) as Hrun. revert Hsent.
    destruct Hrun; intros Hsent; inv_sent; try discriminate Hst.
    apply with_window_echo.
  - intros args a ps k v Hin Hret Hd Hk H1 H2 H3.
    destruct (reporter_called w query args Hin)
      as (chain & meta & r0 & t' & Hc & He & Hn & -> & Hg & Hrun).
    rewrite Hrun in Hsent. inv_sent. cbn [body].
    inversion Hg as [Hn' | v' Hn' Hv | e' Hn' Hv]; subst; try congruence.
    rewrite Hv in Hret. injection Hret as ->.
    rewrite (with_window_payload a ps _ _ _ k Hd H1 H2 H3), Hk. reflexivity.
Qed.

End Payload.

(** ** The 200 response of [/graph] *)

Section GraphEcho.

Variable w : world.
Variable query : gmap string qval.

Lemma with_window_own (g : value) (blocks span delay : number) :
  with_window g blocks span delay
  = with_window (VObj false (own_props g)) blocks span delay.
Proof. reflexivity. Qed.

(** C5, as amended.  A 200 response of [/graph] on a chain of kind evm is
    [{ok: true, ...g, windowBlocks, span, delay}], where [g] is what the
    graph builder returned, or the empty graph when the builder threw or
    could not be called for want of metadata: the body shows
    [windowBlocks], [span] and [delay] as derived from the query and,
    beside them, every other property of [g] with its value, and [ok] is
    [true] unless [g] has one.  On a chain of kind solana the body is
    [ok: true] followed by the properties of the graph that the builder
    returned, and nothing else. *)
Theorem graph_success_echo (r : response) :
  sent (serve graph w query) = Some r ->
  status r = 200 ->
  (exists chain meta g,
      getChains w !! chainKey_of query = Some chain
      /\ strict_eq_str (kind chain) "evm" = true
      /\ services w readErc20Meta (metadata_args query chain) = Normal meta
      /\ (nullish meta = false
          /\ services w buildEvmGraph (graph_args query meta) = Normal g
          \/ g = empty_graph
             /\ (nullish meta = true
                 \/ exists e,
                      services w buildEvmGraph (graph_args query meta)
                      = Throw e))
      /\ body r
         = VObj false
             (set_prop "delay" (VNum (delay_of query))
                (set_prop "span" (VNum (span_of query))
                   (set_prop "windowBlocks" (VNum (blocks_of query))
                      (spread g (literal [("ok", VBool true)])))))
      /\ get_data (body r) "windowBlocks" = VNum (blocks_of query)
      /\ get_data (body r) "span" = VNum (span_of query)
      /\ get_data (body r) "delay" = VNum (delay_of query)
      /\ (distinct_keys (own_props g) ->
          (forall k v,
              lookup_prop k (own_props g) = Some v ->
              k <> "windowBlocks" -> k <> "span" -> k <> "delay" ->
              get_data (body r) k = v)
          /\ (lookup_prop "ok" (own_props g) = None ->
              get_data (body r) "ok" = VBool true)))
  \/ (on_chain "solana" w query
      /\ exists g,
           services w buildSolGraph (sol_graph_args w query) = Normal g
           /\ body r = VObj false (spread g (literal [("ok", VBool true)]))).
Proof.
  intros Hsent Hst.
  pose proof (graph_runs w query) as Hrun. revert Hsent.
  run_of Hrun r0 Hr; intros Hsent; inv_sent; try discriminate Hst.
  - left.
    match goal with
    | Hc : getChains w !! _ = Some chain,
      He : strict_eq_str _ "evm" = true,
      Ht : token_of query <> "", Hce : center_of query <> "",
      Hs : services w readErc20Meta _ = Normal meta |- _ =>
        destruct (graph_evm_detail w query chain Hc He meta Ht Hce Hs)
          as (g' & t' & Heq & Hg);
        exists chain, meta, g';
        split; [exact Hc |]; split; [exact He |]; split; [exact Hs |]
    end.
    rewrite Heq in Hr. injection Hr as Hb Htr. cbn [body].
    unfold with_window. rewrite Hb.
    fold (with_window g' (blocks_of query) (span_of query)
            (delay_of query)).
    split.
    { inversion Hg as [Hn | v Hn Hv | e Hn Hv]; subst; eauto 6. }
    split; [reflexivity |].
    destruct (with_window_echo g' (blocks_of query) (span_of query)
                (delay_of query)) as (Hb1 & Hb2 & Hb3).
    split; [exact Hb1 |]. split; [exact Hb2 |]. split; [exact Hb3 |].
    intros Hd. rewrite with_window_own. split.
    + intros k v Hk Hk1 Hk2 Hk3.
      rewrite (with_window_payload false _ _ _ _ k Hd Hk1 Hk2 Hk3), Hk.
      reflexivity.
    + intros Hok.
      rewrite (with_window_payload false _ _ _ _ "ok" Hd);
        try discriminate.
      rewrite Hok. reflexivity.
  - right. split; [eexists; eauto |]. eauto.
Qed.

End GraphEcho.

(** ** The 200 response of [/analyze] on a chain of kind evm *)

Section AnalyzeSuccess.

Variable w : world.
Variable query : gmap string qval.
Variable chain : ChainConfig.
Hypothesis registered : getChains w !! chainKey_of query = Some chain.
Hypothesis evm : strict_eq_str (kind chain) "evm" = true.

Lemma analyze_success_detail (r : response) :
  sent (serve analyze w query) = Some r ->
  status r = 200 ->
  exists meta meta' t1 top t2,
    services w readErc20Meta (metadata_args query chain) = Normal meta
    /\ nullish meta = false
    /\ fallback_name_symbol w (token_of query) meta
         [Call readErc20Meta (metadata_args query chain)]
       = (Normal meta', Call readErc20Meta (metadata_args query chain) :: t1)
    /\ nullish meta' = false
    /\ Forall dex_call t1
    /\ estimate w (estimator_args query meta') (fast_of query) top t2
    /\ r = {| status := 200;
              body := analysis (chainKey_of query) (token_of query)
                        chain (fast_of query) (blocks_of query)
                        (span_of query) (delay_of query)
                        (get_data meta' "name")
                        (get_data meta' "symbol")
                        (get_data meta' "decimals")
                        (get_data meta' "totalSupply")
                        (get_data meta' "owner")
                        (get_data meta' "ownerRenounced")
                        top (fst (explorer_facts w query chain))
                        (snd (explorer_facts w query chain)) |}
    /\ snd (serve analyze w query)
       = (Call readErc20Meta (metadata_args query chain) :: t1 ++ t2
            ++ [Call getContractSource (source_args query chain)])%list.
Proof.
  intros Hsent Hst.
  pose proof (analyze_runs w query) as Hrun. revert Hsent.
  run_of Hrun s Hs0; intros Hsent;
    try solve [inv_sent; cbn [status] in Hst; same_chain;
               first [discriminate Hst | congruence]].
  same_chain.
  destruct (analyze_evm_detail w query chain registered evm meta H0 H2 H3)
    as (m' & t1' & top' & t2' & Hfb & Hn' & Hd & Hest & Heq).
  rewrite Hs0 in Hsent |- *. rewrite Heq in Hsent |- *. inv_sent.
  exists meta, m', t1', top', t2'. auto 10.
Qed.

(** X15.  A 200 response of [/analyze] on a chain of kind evm has
    [ok: true]; [facts.chain] is the lower-cased chain key and
    [facts.token] the trimmed token; the three fields of [facts.lp] are
    [null]; [explorer] is the explorer of the chain followed by [/token/]
    and the token; [windowBlocks], [span] and [delay] are the window of the
    request. *)
Theorem analyze_success_facts (r : response) :
  sent (serve analyze w query) = Some r ->
  status r = 200 ->
  get_data (body r) "ok" = VBool true
  /\ get_data (get_data (body r) "facts") "chain" = VStr (chainKey_of query)
  /\ get_data (get_data (body r) "facts") "token" = VStr (token_of query)
  /\ get_data (get_data (body r) "facts") "lp"
     = object [("locked", VNull); ("locker", VNull); ("unlockDate", VNull)]
  /\ get_data (body r) "explorer"
     = VStr (explorer chain +:+ "/token/" +:+ token_of query)
  /\ get_data (body r) "windowBlocks" = VNum (blocks_of query)
  /\ get_data (body r) "span" = VNum (span_of query)
  /\ get_data (body r) "delay" = VNum (delay_of query).
Proof.
  intros Hsent Hst.
  destruct (analyze_success_detail r Hsent Hst)
    as (meta & meta' & t1 & top & t2 & _ & _ & _ & _ & _ & _ & -> & _).
  repeat split.
Qed.

End AnalyzeSuccess.

(** ** Lines 60-68: name and symbol from DexScreener *)

Section Fallback.

Variable w : world.

Lemma truthy_not_nullish (v : value) (k : string) :
  truthy (get_data v k) = true -> nullish v = false.
Proof. destruct v; try reflexivity; discriminate. Qed.

(** With a name and a symbol in the metadata, nothing is fetched. *)
Lemma fallback_complete (token : string) (meta : value) (t : list event) :
  truthy (get_data meta "name") = true ->
  truthy (get_data meta "symbol") = true ->
  fallback_name_symbol w token meta t = (Normal meta, t).
Proof.
  intros Hname Hsym. pose proof (truthy_not_nullish _ _ Hname) as Hn.
  unfold fallback_name_symbol. rewrite !(get_object meta _ Hn).
  unfold bind, ret. rewrite Hname. rewrite Hsym. reflexivity.
Qed.

Lemma get_data_set_ne (a : bool) (ps : props) (k k' : string) (x : value) :
  k' <> k ->
  get_data (VObj a (set_prop k x ps)) k' = get_data (VObj a ps) k'.
Proof. intros H. cbn. rewrite lookup_set_ne by assumption. reflexivity. Qed.

Lemma get_data_set_eq (a : bool) (ps : props) (k : string) (x : value) :
  get_data (VObj a (set_prop k x ps)) k = x.
Proof. cbn. rewrite lookup_set_eq. reflexivity. Qed.

(** Line 65 (or 66): the metadata after the statement is the metadata
    before it, unless the property is falsy there and truthy in the pair,
    and then only that property has changed. *)
Lemma fill_from_pair_result (p0 : value) (k : string) (meta meta' : value)
    (t t' : list event) :
  nullish meta = false ->
  fill_from_pair p0 k meta t = (Normal meta', t') ->
  meta' = meta
  \/ (truthy (get_data meta k) = false
      /\ truthy (opt_get (opt_get p0 "baseToken") k) = true
      /\ get_data meta' k = opt_get (opt_get p0 "baseToken") k
      /\ forall k', k' <> k -> get_data meta' k' = get_data meta k').
Proof.
  intros Hm. unfold fill_from_pair.
  rewrite (get_object meta k Hm). unfold bind, ret.
  destruct (truthy (opt_get (opt_get p0 "baseToken") k)) eqn:Hp;
    [| intros [= <- _]; auto].
  destruct (truthy (get_data meta k)) eqn:Hk; cbn [negb];
    [intros [= <- _]; auto |].
  unfold opt_get in Hp.
  destruct (nullish p0) eqn:Hp0; [discriminate Hp |].
  destruct (nullish (get_data p0 "baseToken")) eqn:Hb; [discriminate Hp |].
  rewrite (get_object p0 _ Hp0). unfold ret.
  rewrite (get_object _ k Hb). unfold ret.
  destruct meta as [| | | | | a ps]; try discriminate Hm;
    cbn [set ret throw]; try discriminate.
  intros [= <- _]. right. unfold opt_get. rewrite Hp0, Hb.
  split; [reflexivity |]. split; [reflexivity |].
  split; [apply get_data_set_eq |].
  intros k' Hk'. apply get_data_set_ne. exact Hk'.
Qed.

(** Lines 60-68 never touch a property other than [name] and [symbol], and
    never replace a name or a symbol that is truthy. *)
Lemma fallback_keeps (token : string) (meta meta' : value)
    (t t' : list event) :
  nullish meta = false ->
  fallback_name_symbol w token meta t = (Normal meta', t') ->
  (forall k, k <> "name" -> k <> "symbol" ->
             get_data meta' k = get_data meta k)
  /\ (get_data meta' "name" = get_data meta "name"
      \/ truthy (get_data meta "name") = false)
  /\ (get_data meta' "symbol" = get_data meta "symbol"
      \/ truthy (get_data meta "symbol") = false).
Proof.
  intros Hm. unfold fallback_name_symbol.
  rewrite !(get_object meta _ Hm). unfold bind at 1 2, ret at 1.
  assert (Hskip : forall t0,
             ret (A := value) meta t0 = (Normal meta', t') ->
             (forall k, k <> "name" -> k <> "symbol" ->
                        get_data meta' k = get_data meta k)
             /\ (get_data meta' "name" = get_data meta "name"
                 \/ truthy (get_data meta "name") = false)
             /\ (get_data meta' "symbol" = get_data meta "symbol"
                 \/ truthy (get_data meta "symbol") = false))
    by (intros t0 [= <- _]; auto).
  assert (Hfetch :
    try_catch
      (let* r := call w getDexScreenerPairs [VStr token] in
       let* pairs := get r "pairs" in
       let p0 := opt_get pairs "0" in
       let* meta0 := fill_from_pair p0 "name" meta in
       fill_from_pair p0 "symbol" meta0)
      (fun _ => ret meta) t
    = (Normal meta', t') ->
    (forall k, k <> "name" -> k <> "symbol" ->
               get_data meta' k = get_data meta k)
    /\ (get_data meta' "name" = get_data meta "name"
        \/ truthy (get_data meta "name") = false)
    /\ (get_data meta' "symbol" = get_data meta "symbol"
        \/ truthy (get_data meta "symbol") = false)).
  { unfold try_catch, bind, call.
    destruct (services w getDexScreenerPairs [VStr token]) as [r | e];
      [| apply Hskip].
    unfold get at 1. destruct (nullish r); [apply Hskip |].
    unfold ret at 1. cbv zeta.
    generalize (opt_get (get_data r "pairs") "0"). intros p0.
    generalize (t ++ [Call getDexScreenerPairs [VStr token]])%list.
    intros t1.
    destruct (fill_from_pair p0 "name" meta t1) as [[m1 | e1] t2] eqn:H1;
      [| apply Hskip].
    destruct (fill_from_pair_pure p0 "name" meta t1 Hm) as (c1 & Hc1 & Hn1).
    rewrite H1 in Hc1. injection Hc1 as <- ->.
    specialize (Hn1 m1 eq_refl).
    apply (fill_from_pair_result p0 "name" meta m1 t1 t1 Hm) in H1.
    destruct (fill_from_pair p0 "symbol" m1 t1) as [[m2 | e2] t3] eqn:H2;
      [| apply Hskip].
    apply (fill_from_pair_result p0 "symbol" m1 m2 t1 t3 Hn1) in H2.
    intros [= <- _].
    destruct H1 as [-> | (Hf1 & _ & _ & Ho1)];
      destruct H2 as [-> | (Hf2 & _ & _ & Ho2)];
      (split; [| split]);
      try (intros k Hk1 Hk2; rewrite ?Ho2, ?Ho1 by assumption; reflexivity);
      try (left; reflexivity);
      try (right; assumption);
      try (left; first [apply Ho2 | apply Ho1]; discriminate).
    right. rewrite Ho1 in Hf2 by discriminate. exact Hf2. }
  destruct (truthy (get_data meta "name")).
  - unfold bind, ret. destruct (negb (truthy (get_data meta "symbol")));
      [exact Hfetch | apply Hskip].
  - exact Hfetch.
Qed.

(** On an object, line 65 (or 66) completes normally and leaves an
    object. *)
Lemma fill_from_pair_object (p0 : value) (k : string) (a : bool)
    (ps : props) (t : list event) :
  exists ps', fill_from_pair p0 k (VObj a ps) t = (Normal (VObj a ps'), t).
Proof.
  unfold fill_from_pair, bind, get, ret, throw. cbn [nullish].
  destruct (truthy (opt_get (opt_get p0 "baseToken") k)) eqn:Hp;
    [| eauto].
  destruct (negb (truthy (get_data (VObj a ps) k))); [| eauto].
  unfold opt_get in Hp.
  destruct (nullish p0); [discriminate Hp |].
  destruct (nullish (get_data p0 "baseToken")); [discriminate Hp |].
  cbn [set ret]. eauto.
Qed.

(** When DexScreener throws, the metadata stays as it is. *)
Lemma fallback_fetch_failed (token : string) (meta : value) (e : value)
    (t : list event) :
  nullish meta = false ->
  services w getDexScreenerPairs [VStr token] = Throw e ->
  exists t', fallback_name_symbol w token meta t = (Normal meta, t').
Proof.
  intros Hm Hs. unfold fallback_name_symbol.
  rewrite !(get_object meta _ Hm).
  unfold bind, ret, try_catch, call. rewrite Hs.
  destruct (truthy (get_data meta "name"));
    [destruct (negb (truthy (get_data meta "symbol"))) |]; eauto.
Qed.

(** A metadata object without a name takes the name of the base token of
    the first pair, when that name is truthy. *)
Lemma fallback_fills_name (token : string) (a : bool) (ps : props)
    (found : value) (t : list event) :
  truthy (get_data (VObj a ps) "name") = false ->
  services w getDexScreenerPairs [VStr token] = Normal found ->
  truthy (opt_get (opt_get (opt_get (opt_get found "pairs") "0")
                     "baseToken") "name") = true ->
  exists meta' t',
    fallback_name_symbol w token (VObj a ps) t = (Normal meta', t')
    /\ get_data meta' "name"
       = opt_get (opt_get (opt_get (opt_get found "pairs") "0")
                    "baseToken") "name".
Proof.
  intros Hname Hs Hn. unfold fallback_name_symbol.
  rewrite !(get_object (VObj a ps) _ eq_refl). unfold bind at 1 2, ret at 1.
  rewrite Hname. unfold ret at 1.
  unfold try_catch, bind at 1, call. rewrite Hs.
  destruct (nullish found) eqn:Hf;
    [unfold opt_get in Hn; rewrite Hf in Hn; discriminate Hn |].
  unfold bind at 1. rewrite (get_object found _ Hf). unfold ret at 1.
  cbv zeta. unfold bind at 1.
  replace (opt_get found "pairs") with (get_data found "pairs") in *
    by (unfold opt_get; rewrite Hf; reflexivity).
  generalize dependent (opt_get (get_data found "pairs") "0"). intros p0 Hn.
  generalize (t ++ [Call getDexScreenerPairs [VStr token]])%list. intros t1.
  destruct (fill_from_pair_object p0 "name" a ps t1) as [ps1 H1].
  pose proof H1 as H1'.
  apply (fill_from_pair_result p0 "name" (VObj a ps) _ t1 t1 eq_refl) in H1'.
  rewrite H1.
  destruct (fill_from_pair_object p0 "symbol" a ps1 t1) as [ps2 H2].
  pose proof H2 as H2'.
  apply (fill_from_pair_result p0 "symbol" (VObj a ps1) _ t1 t1 eq_refl)
    in H2'.
  rewrite H2. eexists. eexists. split; [reflexivity |].
  assert (Hm1 : get_data (VObj a ps1) "name"
                = opt_get (opt_get p0 "baseToken") "name").
  { destruct H1' as [H1' | (_ & _ & H1' & _)]; [| exact H1'].
    exfalso. revert H1. unfold fill_from_pair, bind, get, ret, throw.
    cbn [nullish]. rewrite Hn, Hname. cbn [negb].
    unfold opt_get in Hn.
    destruct (nullish p0); [discriminate Hn |].
    destruct (nullish (get_data p0 "baseToken")); [discriminate Hn |].
    cbn [set ret]. intros [= Heq].
    rewrite <- Heq in H1'. injection H1' as H1'.
    assert (Hx : get_data (VObj a (set_prop "name"
                   (get_data (get_data p0 "baseToken") "name") ps)) "name"
                 = get_data (VObj a ps) "name") by (rewrite H1'; reflexivity).
    rewrite get_data_set_eq in Hx. rewrite <- Hx in Hname. congruence. }
  destruct H2' as [[= ->] | (_ & _ & _ & Ho)]; [exact Hm1 |].
  rewrite Ho by discriminate. exact Hm1.
Qed.

End Fallback.

(** ** What the services are given and what is made of their results *)

Section Results.

Variable w : world.
Variable query : gmap string qval.

(** X16.  When the estimator is called and returns [v], the response of
    [/analyze] is 200 with [holders.top10Pct] equal to [v] and [mode]
    "standard". *)
Theorem estimator_result_reported (args : list value) (v : value) :
  In (Call approxTopHoldersPct args) (snd (serve analyze w query)) ->
  services w approxTopHoldersPct args = Normal v ->
  exists r,
    sent (serve analyze w query) = Some r
    /\ status r = 200
    /\ get_data (get_data (get_data (body r) "facts") "holders") "top10Pct"
       = v
    /\ get_data (body r) "mode" = VStr "standard".
Proof.
  intros Hin Hret.
  destruct (estimator_called w query args Hin)
    as (chain & meta' & t1 & top & t2 & cs & Hc & He & Hf & -> & Hest
        & Hrun).
  rewrite Hrun. eexists. split; [reflexivity |].
  inversion Hest as [| v' Hv | e' Hv]; subst; [| congruence].
  rewrite Hv in Hret. injection Hret as ->. repeat split.
Qed.

(** X17.  The estimator, the graph builder and the jeeter report are given
    the window that the response shows: [blocks], [span] and [delay] of
    their argument are the derived [windowBlocks], [span] and [delay]. *)
Theorem window_handed_on (args : list value) :
  (In (Call approxTopHoldersPct args) (snd (serve analyze w query)) ->
   exists a, args = [a] /\ carries_window query a)
  /\ (In (Call buildEvmGraph args) (snd (serve graph w query)) ->
      exists a, args = [a] /\ carries_window query a)
  /\ (In (Call jeeterReport args) (snd (serve jeeter w query)) ->
      exists a, args = [a] /\ carries_window query a).
Proof.
  split; [| split]; intros Hin.
  - destruct (estimator_called w query args Hin)
      as (chain & meta' & _ & _ & _ & _ & _ & _ & _ & -> & _).
    eexists. split; [reflexivity |]. repeat split.
  - destruct (builder_called w query args Hin)
      as (chain & meta & _ & _ & _ & _ & _ & -> & _).
    eexists. split; [reflexivity |]. repeat split.
  - destruct (reporter_called w query args Hin)
      as (chain & meta & _ & _ & _ & _ & _ & -> & _).
    eexists. split; [reflexivity |]. repeat split.
Qed.

Variable chain : ChainConfig.
Hypothesis registered : getChains w !! chainKey_of query = Some chain.
Hypothesis evm : strict_eq_str (kind chain) "evm" = true.

(** X18.  When the metadata has a truthy name and a truthy symbol,
    [/analyze] does not call DexScreener. *)
Theorem complete_metadata_skips_dexscreener (meta : value) :
  services w readErc20Meta (metadata_args query chain) = Normal meta ->
  truthy (get_data meta "name") = true ->
  truthy (get_data meta "symbol") = true ->
  ~ invoked getDexScreenerPairs (snd (serve analyze w query)).
Proof.
  intros Hs Hname Hsym (args & Hin).
  pose proof (truthy_not_nullish _ _ Hname) as Hn.
  destruct (String.eqb (token_of query) "") eqn:Ht.
  - revert Hin. unfold serve, analyze, try_catch. cbv zeta.
    rewrite registered, Ht. cbn. tauto.
  - apply String.eqb_neq in Ht.
    destruct (analyze_evm_detail w query chain registered evm meta Ht Hs Hn)
      as (meta' & t1 & top & t2 & Hfb & _ & _ & Hest & Hrun).
    rewrite (fallback_complete w _ meta _ Hname Hsym) in Hfb.
    injection Hfb as <- Ht1.
    assert (t1 = []) as -> by (destruct t1; [reflexivity | discriminate Ht1]).
    rewrite Hrun in Hin. cbn [snd app] in Hin.
    destruct Hin as [Hin | Hin]; [discriminate Hin |].
    apply in_app_or in Hin as [Hin | Hin];
      [| cbn in Hin; intuition discriminate].
    inversion Hest; subst; cbn in Hin; intuition discriminate.
Qed.

(** X19.  In a 200 response of [/analyze] on a chain of kind evm,
    [decimals], [totalSupply], [owner] and [ownerRenounced] are those of the
    metadata read, and so are [name] and [symbol] unless they are falsy
    there. *)
Theorem metadata_reported (r : response) :
  sent (serve analyze w query) = Some r ->
  status r = 200 ->
  exists meta,
    services w readErc20Meta (metadata_args query chain) = Normal meta
    /\ (forall k,
           k = "decimals" \/ k = "totalSupply" \/ k = "owner"
           \/ k = "ownerRenounced" ->
           get_data (get_data (body r) "facts") k = get_data meta k)
    /\ (get_data (get_data (body r) "facts") "name" = get_data meta "name"
        \/ truthy (get_data meta "name") = false)
    /\ (get_data (get_data (body r) "facts") "symbol"
        = get_data meta "symbol"
        \/ truthy (get_data meta "symbol") = false).
Proof.
  intros Hsent Hst.
  destruct (analyze_success_detail w query chain registered evm r Hsent Hst)
    as (meta & meta' & t1 & top & t2 & Hs & Hn & Hfb & _ & _ & _ & -> & _).
  destruct (fallback_keeps w _ meta meta' _ _ Hn Hfb) as (Ho & Hname & Hsym).
  exists meta. split; [exact Hs |]. split; [| split].
  - intros k [-> | [-> | [-> | ->]]];
      (etransitivity; [| apply Ho; discriminate]); reflexivity.
  - destruct Hname as [<- | Hname]; [left; reflexivity | right; exact Hname].
  - destruct Hsym as [<- | Hsym]; [left; reflexivity | right; exact Hsym].
Qed.

(** X20.  When the metadata is an object without a truthy name and the
    first DexScreener pair has a base token with a truthy name, the 200
    response of [/analyze] shows that name. *)
Theorem missing_name_filled (a : bool) (ps : props) (found : value) :
  token_of query <> "" ->
  services w readErc20Meta (metadata_args query chain) = Normal (VObj a ps) ->
  truthy (get_data (VObj a ps) "name") = false ->
  services w getDexScreenerPairs [VStr (token_of query)] = Normal found ->
  truthy (opt_get (opt_get (opt_get (opt_get found "pairs") "0")
                     "baseToken") "name") = true ->
  exists r,
    sent (serve analyze w query) = Some r
    /\ status r = 200
    /\ get_data (get_data (body r) "facts") "name"
       = opt_get (opt_get (opt_get (opt_get found "pairs") "0")
                    "baseToken") "name".
Proof.
  intros Ht Hs Hname Hdex Hfound.
  destruct (analyze_evm_detail w query chain registered evm _ Ht Hs eq_refl)
    as (meta' & t1 & top & t2 & Hfb & _ & _ & _ & Hrun).
  destruct (fallback_fills_name w (token_of query) a ps found
              [Call readErc20Meta (metadata_args query chain)]
              Hname Hdex Hfound) as (m & t' & Hfb' & Hm).
  rewrite Hfb in Hfb'. injection Hfb' as <- _.
  rewrite Hrun. eexists. split; [reflexivity |]. split; [reflexivity |].
  exact Hm.
Qed.

(** X21.  When DexScreener throws, the 200 response of [/analyze] shows
    the name and the symbol of the metadata as they are. *)
Theorem dexscreener_failure_ignored (meta e : value) (r : response) :
  services w readErc20Meta (metadata_args query chain) = Normal meta ->
  services w getDexScreenerPairs [VStr (token_of query)] = Throw e ->
  sent (serve analyze w query) = Some r ->
  status r = 200 ->
  get_data (get_data (body r) "facts") "name" = get_data meta "name"
  /\ get_data (get_data (body r) "facts") "symbol" = get_data meta "symbol".
Proof.
  intros Hs Hdex Hsent Hst.
  destruct (analyze_success_detail w query chain registered evm r Hsent Hst)
    as (meta0 & meta' & t1 & top & t2 & Hs' & Hn & Hfb & _ & _ & _ & ->
        & _).
  rewrite Hs in Hs'. injection Hs' as <-.
  destruct (fallback_fetch_failed w (token_of query) meta e
              [Call readErc20Meta (metadata_args query chain)] Hn Hdex)
    as (t' & Hfb').
  rewrite Hfb in Hfb'. injection Hfb' as -> _. split; reflexivity.
Qed.

(** X22.  In a 200 response of [/analyze] on a chain of kind evm,
    [contractVerified] and [explorerOwner] are [verified] and [owner] of
    what the explorer returned, and both [null] when it threw or returned
    [undefined] or [null]; the explorer is the last service called. *)
Theorem explorer_facts_reported (r : response) :
  sent (serve analyze w query) = Some r ->
  status r = 200 ->
  (exists t, snd (serve analyze w query)
             = (t ++ [Call getContractSource (source_args query chain)])%list)
  /\ match services w getContractSource (source_args query chain) with
     | Normal src =>
         if nullish src
         then get_data (body r) "contractVerified" = VNull
              /\ get_data (body r) "explorerOwner" = VNull
         else get_data (body r) "contractVerified" = get_data src "verified"
              /\ get_data (body r) "explorerOwner" = get_data src "owner"
     | Throw _ =>
         get_data (body r) "contractVerified" = VNull
         /\ get_data (body r) "explorerOwner" = VNull
     end.
Proof.
  intros Hsent Hst.
  destruct (analyze_success_detail w query chain registered evm r Hsent Hst)
    as (meta0 & meta' & t1 & top & t2 & _ & _ & _ & _ & _ & _ & -> & Htr).
  split.
  - rewrite Htr. exists (Call readErc20Meta (metadata_args query chain)
                          :: t1 ++ t2)%list.
    cbn [app]. rewrite <- app_assoc. reflexivity.
  - unfold explorer_facts.
    destruct (services w getContractSource (source_args query chain))
      as [src | e]; [destruct (nullish src) |]; split; reflexivity.
Qed.

End Results.

(** ** The window, exactly *)

Section WindowExact.

Lemma StringToNumber_blank (s : string) :
  blank s = true -> StringToNumber s = S754_zero false.
Proof.
  unfold blank, StringToNumber. intros H.
  rewrite (drop_space_blank _ H). reflexivity.
Qed.

Lemma lt_to_Q (a b : number) :
  isFinite a = true -> isFinite b = true ->
  (lt a b = true -> (to_Q a <= to_Q b)%Q)
  /\ (lt a b = false -> (to_Q b <= to_Q a)%Q).
Proof.
  intros Ha Hb. rewrite (lt_finite a b Ha Hb). split; intros H.
  - apply negb_true_iff, not_le_bool_lt in H. exact H.
  - apply negb_false_iff, Qle_bool_iff in H. exact H.
Qed.

Lemma Math_min_exact (n hi : number) :
  isFinite n = true -> isFinite hi = true -> is_neg_zero hi = false ->
  isFinite (Math_min [n; hi]) = true
  /\ (to_Q (Math_min [n; hi]) == Qmin (to_Q n) (to_Q hi))%Q.
Proof.
  intros Hn Hh Hz. rewrite (Math_min_pair n hi Hn Hh Hz).
  destruct (lt_to_Q hi n Hh Hn) as (Ht & Hf).
  destruct (lt hi n); split; trivial.
  - symmetry. apply Q.min_r. auto.
  - symmetry. apply Q.min_l. auto.
Qed.

Lemma Math_max_exact (lo n : number) :
  isFinite lo = true -> isFinite n = true -> is_neg_zero lo = false ->
  (to_Q (Math_max [lo; n]) == Qmax (to_Q lo) (to_Q n))%Q.
Proof.
  intros Hl Hn Hz. rewrite (Math_max_pair lo n Hl Hn Hz).
  destruct (lt_to_Q lo n Hl Hn) as (Ht & Hf).
  destruct (lt lo n).
  - symmetry. apply Q.max_r. auto.
  - symmetry. apply Q.max_l. auto.
Qed.

Variable query : gmap string qval.

(** X23.  The clamps of lines 47 and 48 computed on doubles are the
    clamps of the exact values: [span] is max(1, min(n, 10)) and [delay]
    is max(0, n) for the number [n] that [num] gives, with no rounding. *)
Theorem window_clamps_exact :
  (to_Q (span_of query)
   == Qmax 1 (Qmin (to_Q (num (query !! "span") (of_Z 5))) 10))%Q
  /\ (to_Q (delay_of query)
      == Qmax 0 (to_Q (num (query !! "delay") (of_Z 500))))%Q.
Proof.
  destruct to_Q_bounds as (H0 & H1 & H10).
  pose proof (num_finite (query !! "span") (of_Z 5) eq_refl) as Hs.
  pose proof (num_finite (query !! "delay") (of_Z 500) eq_refl) as Hd.
  split.
  - unfold span_of.
    destruct (Math_min_exact _ (of_Z 10) Hs eq_refl eq_refl) as (Hf & Hm).
    rewrite (Math_max_exact (of_Z 1) _ eq_refl Hf eq_refl).
    rewrite Hm, H1, H10. reflexivity.
  - unfold delay_of.
    rewrite (Math_max_exact (of_Z 0) _ eq_refl Hd eq_refl).
    rewrite H0. reflexivity.
Qed.

(** X24.  A numeric parameter given as a string of white space only, the
    empty string included, is read as 0, not as its default:
    [windowBlocks] is 0, [span] is 1 and [delay] is 0. *)
Theorem blank_number_is_zero (s : string) :
  blank s = true ->
  blocks_of (<["window" := QStr s]> query) = of_Z 0
  /\ span_of (<["span" := QStr s]> query) = of_Z 1
  /\ delay_of (<["delay" := QStr s]> query) = of_Z 0.
Proof.
  intros H. unfold blocks_of, span_of, delay_of, num, Number, ToNumber.
  rewrite !lookup_insert_eq. cbn [ToString].
  rewrite (StringToNumber_blank s H). repeat split.
Qed.

End WindowExact.

(** ** What a request does not depend on, and the order of the calls *)

Section Unused.

Variable w : world.
Variables q1 q2 : gmap string qval.
Variable chain : ChainConfig.
Hypothesis registered : getChains w !! chainKey_of q1 = Some chain.
Hypothesis not_evm : strict_eq_str (kind chain) "evm" = false.

(** X25.  On a chain whose kind is not evm, [/analyze] depends on the
    query through the chain and the token only, and [/graph] through the
    chain, the token and the center only: [fast], [window], [span] and
    [delay] play no role there. *)
Theorem window_unused_off_evm :
  chainKey_of q2 = chainKey_of q1 ->
  token_of q2 = token_of q1 ->
  serve analyze w q1 = serve analyze w q2
  /\ (center_of q2 = center_of q1 -> serve graph w q1 = serve graph w q2).
Proof.
  intros Hc Ht. split; [| intros Hce].
  - unfold serve, analyze. cbv zeta. rewrite Hc, Ht, registered, not_evm.
    reflexivity.
  - unfold serve, graph. cbv zeta.
    rewrite Hc, Ht, Hce, registered, not_evm. reflexivity.
Qed.

End Unused.

Section Order.

Variable w : world.

Lemma calls_app (t1 t2 : list event) :
  calls (t1 ++ t2) = (calls t1 ++ calls t2)%list.
Proof. apply flat_map_app. Qed.

(** Lines 60-68 call DexScreener at most once, and nothing else. *)
Lemma fallback_calls (token : string) (meta : value) (t : list event) :
  nullish meta = false ->
  exists t',
    snd (fallback_name_symbol w token meta t) = t'
    /\ (t' = t
        \/ t' = (t ++ [Call getDexScreenerPairs [VStr token]])%list).
Proof.
  intros Hm. unfold fallback_name_symbol.
  rewrite !(get_object meta _ Hm). unfold bind at 1 2, ret at 1.
  assert (Hfetch :
            snd (try_catch
                   (let* r := call w getDexScreenerPairs [VStr token] in
                    let* pairs := get r "pairs" in
                    let p0 := opt_get pairs "0" in
                    let* meta0 := fill_from_pair p0 "name" meta in
                    fill_from_pair p0 "symbol" meta0)
                   (fun _ => ret meta) t)
            = (t ++ [Call getDexScreenerPairs [VStr token]])%list).
  { unfold try_catch, bind, call, ret.
    generalize (t ++ [Call getDexScreenerPairs [VStr token]])%list.
    intros t1.
    destruct (services w getDexScreenerPairs [VStr token]) as [r | e];
      [| reflexivity].
    unfold get at 1. destruct (nullish r); [reflexivity |].
    unfold ret at 1.
    destruct (fill_from_pair_pure
                (opt_get (get_data r "pairs") "0") "name" meta t1 Hm)
      as (c1 & -> & H1).
    destruct c1 as [m1 | e1]; [| reflexivity].
    destruct (fill_from_pair_pure
                (opt_get (get_data r "pairs") "0") "symbol" m1 t1
                (H1 m1 eq_refl))
      as (c2 & -> & H2).
    destruct c2 as [m2 | e2]; reflexivity. }
  eexists. split; [reflexivity |].
  destruct (truthy (get_data meta "name")).
  - unfold bind, ret. destruct (negb (truthy (get_data meta "symbol")));
      [right; exact Hfetch | left; reflexivity].
  - right. exact Hfetch.
Qed.

Variable query : gmap string qval.

Ltac in_order :=
  cbn [snd calls flat_map app];
  repeat first [apply sublist_nil | apply sublist_skip | apply sublist_cons].

(** X26.  Every handler calls each service at most once and in the order
    of the source: [/analyze] the metadata, DexScreener, the estimator and
    the explorer, or the Solana analyzer alone; [/graph] the metadata and
    the graph builder, or the address check and the Solana graph builder;
    [/jeeter] the metadata and the report. *)
Theorem services_called_in_order :
  (sublist (calls (snd (serve analyze w query)))
     [readErc20Meta; getDexScreenerPairs; approxTopHoldersPct;
      getContractSource]
   \/ calls (snd (serve analyze w query)) = [analyzeSolMint])
  /\ (sublist (calls (snd (serve graph w query)))
        [readErc20Meta; buildEvmGraph]
      \/ sublist (calls (snd (serve graph w query)))
           [looksLikeSolAddress; buildSolGraph])
  /\ sublist (calls (snd (serve jeeter w query)))
       [readErc20Meta; jeeterReport].
Proof.
  split; [| split].
  - pose proof (analyze_runs w query) as Hrun.
    run_of Hrun r Hr; rewrite ?trace_on_error, ?calls_app;
      try solve [left; in_order]; try solve [right; reflexivity].
    left.
    match goal with
    | Hc : getChains w !! _ = Some chain, He : strict_eq_str _ "evm" = true,
      Ht : token_of query <> "", Hs : services w readErc20Meta _ = Normal meta,
      Hn : nullish meta = false |- _ =>
        destruct (analyze_evm_detail w query chain Hc He meta Ht Hs Hn)
          as (m' & t1' & top' & t2' & Hfb & _ & _ & Hest & Heq);
        pose proof (fallback_calls (token_of query) meta
                      [Call readErc20Meta (metadata_args query chain)] Hn)
          as Hfc
    end.
    rewrite Hr, Heq. destruct Hfc as (tf & Hsnd & Hfc).
    rewrite Hfb in Hsnd. cbn [snd app] in Hsnd. subst tf.
    assert (Ht1 : t1' = [] \/
                  t1' = [Call getDexScreenerPairs [VStr (token_of query)]])
      by (destruct Hfc as [Hfc | Hfc]; injection Hfc as ->; auto).
    destruct Ht1 as [-> | ->]; inversion Hest; subst; in_order.
  - pose proof (graph_runs w query) as Hrun.
    run_of Hrun r Hr; rewrite ?trace_on_error, ?calls_app;
      try solve [left; in_order]; try solve [right; in_order].
    left.
    match goal with
    | Hc : getChains w !! _ = Some chain, He : strict_eq_str _ "evm" = true,
      Ht : token_of query <> "", Hce : center_of query <> "",
      Hs : services w readErc20Meta _ = Normal meta |- _ =>
        destruct (graph_evm_detail w query chain Hc He meta Ht Hce Hs)
          as (g' & t' & Heq & Hg)
    end.
    rewrite Hr, Heq. inversion Hg; subst; in_order.
  - pose proof (jeeter_runs w query) as Hrun.
    run_of Hrun r Hr; rewrite ?trace_on_error, ?calls_app;
      try solve [in_order].
    match goal with
    | Hc : getChains w !! _ = Some chain, He : strict_eq_str _ "evm" = true,
      Hs : services w readErc20Meta _ = Normal meta |- _ =>
        destruct (jeeter_evm_detail w query chain Hc He meta Hs)
          as (r' & t' & Heq & Hg)
    end.
    rewrite Hr, Heq. inversion Hg; subst; in_order.
Qed.

End Order.

(** ** What the services are called with *)

Section Arguments.

Variable w : world.
Variable query : gmap string qval.

(** X27.  On each endpoint, the metadata reader is called on chains of
    kind evm only, as the first thing the handler does, with the RPC
    endpoint of the chain and the trimmed token. *)
Theorem metadata_read_first (ep : endpoint) (args : list value) :
  In (Call readErc20Meta args) (snd (serve (handler ep) w query)) ->
  exists chain t,
    getChains w !! chainKey_of query = Some chain
    /\ strict_eq_str (kind chain) "evm" = true
    /\ args = [object [("rpc", rpc chain); ("token", VStr (token_of query))]]
    /\ snd (serve (handler ep) w query) = Call readErc20Meta args :: t.
Proof.
  destruct ep; cbn [handler].
  - pose proof (analyze_runs w query) as Hrun.
    run_of Hrun r Hr; rewrite ?trace_on_error; cbn [snd app]; intros Hin;
      try solve [cbn in Hin; intuition discriminate].
    + destruct Hin as [[= <-] | Hin]; [eauto 8 |]. exfalso.
      apply in_app_or in Hin as [Hin | Hin].
      * match goal with
        | Hd : Forall dex_call _ |- _ =>
            rewrite Forall_forall in Hd; apply list_elem_of_In, Hd in Hin
        end.
        destruct Hin as [a Ha]. discriminate Ha.
      * apply in_app_or in Hin as [Hin | Hin];
          [| cbn in Hin; intuition discriminate].
        match goal with
        | Hest : estimate _ _ _ _ _ |- _ =>
            inversion Hest; subst; cbn in Hin; intuition discriminate
        end.
    + destruct Hin as [[= <-] | Hin]; [eauto 8 |].
      cbn in Hin; intuition discriminate.
    + destruct Hin as [[= <-] | Hin]; [eauto 8 |].
      cbn in Hin; intuition discriminate.
  - pose proof (graph_runs w query) as Hrun.
    run_of Hrun r Hr; rewrite ?trace_on_error; cbn [snd app]; intros Hin;
      try solve [cbn in Hin; intuition discriminate].
    + destruct Hin as [[= <-] | Hin]; [eauto 8 |]. exfalso.
      match goal with
      | Hc : getChains w !! _ = Some chain,
        He : strict_eq_str _ "evm" = true,
        Ht : token_of query <> "", Hce : center_of query <> "",
        Hs : services w readErc20Meta _ = Normal meta |- _ =>
          destruct (graph_evm_detail w query chain Hc He meta Ht Hce Hs)
            as (g' & t' & Heq & Hg)
      end.
      rewrite Heq in Hr. injection Hr as Hb Htr. subst t.
      inversion Hg; subst; cbn in Hin; intuition discriminate.
    + destruct Hin as [[= <-] | Hin]; [eauto 8 |].
      cbn in Hin; intuition discriminate.
  - pose proof (jeeter_runs w query) as Hrun.
    run_of Hrun r Hr; rewrite ?trace_on_error; cbn [snd app]; intros Hin;
      try solve [cbn in Hin; intuition discriminate].
    + destruct Hin as [[= <-] | Hin]; [eauto 8 |]. exfalso.
      match goal with
      | Hc : getChains w !! _ = Some chain,
        He : strict_eq_str _ "evm" = true,
        Hs : services w readErc20Meta _ = Normal meta |- _ =>
          destruct (jeeter_evm_detail w query chain Hc He meta Hs)
            as (r' & t' & Heq & Hg)
      end.
      rewrite Heq in Hr. injection Hr as Hb Htr. subst t.
      inversion Hg; subst; cbn in Hin; intuition discriminate.
    + destruct Hin as [[= <-] | Hin]; [eauto 8 |].
      cbn in Hin; intuition discriminate.
Qed.

(** X28.  The Solana services are called on chains of kind solana only.
    The analyzer is given the RPC endpoint and the explorer of the chain,
    the trimmed token as [mint] and the Birdeye key; the graph builder is
    given the token, the center and the Birdeye key, and is called only
    after the address check has returned a truthy value for the center. *)
Theorem solana_services_arguments (args : list value) :
  (In (Call analyzeSolMint args) (snd (serve analyze w query)) ->
   exists chain,
     getChains w !! chainKey_of query = Some chain
     /\ strict_eq_str (kind chain) "solana" = true
     /\ args = [object [("rpc", rpc chain);
                        ("mint", VStr (token_of query));
                        ("explorer", VStr (explorer chain));
                        ("birdeyeApiKey", VStr (BIRDEYE w))]])
  /\ (In (Call buildSolGraph args) (snd (serve graph w query)) ->
      exists chain looks,
        getChains w !! chainKey_of query = Some chain
        /\ strict_eq_str (kind chain) "solana" = true
        /\ services w looksLikeSolAddress [VStr (center_of query)]
           = Normal looks
        /\ truthy looks = true
        /\ args = [object [("mint", VStr (token_of query));
                           ("center", VStr (center_of query));
                           ("birdeyeApiKey", VStr (BIRDEYE w))]]).
Proof.
  split.
  - pose proof (analyze_runs w query) as Hrun.
    run_of Hrun r Hr; rewrite ?trace_on_error; cbn [snd app]; intros Hin;
      try solve [cbn in Hin; intuition discriminate].
    + exfalso. destruct Hin as [Hin | Hin]; [discriminate Hin |].
      apply in_app_or in Hin as [Hin | Hin].
      * match goal with
        | Hd : Forall dex_call _ |- _ =>
            rewrite Forall_forall in Hd; apply list_elem_of_In, Hd in Hin
        end.
        destruct Hin as [a Ha]. discriminate Ha.
      * apply in_app_or in Hin as [Hin | Hin];
          [| cbn in Hin; intuition discriminate].
        match goal with
        | Hest : estimate _ _ _ _ _ |- _ =>
            inversion Hest; subst; cbn in Hin; intuition discriminate
        end.
    + destruct Hin as [[= <-] | Hin]; [eauto |].
      cbn in Hin; intuition discriminate.
    + destruct Hin as [[= <-] | Hin]; [eauto |].
      cbn in Hin; intuition discriminate.
  - pose proof (graph_runs w query) as Hrun.
    run_of Hrun r Hr; rewrite ?trace_on_error; cbn [snd app]; intros Hin;
      try solve [cbn in Hin; intuition discriminate].
    + exfalso. destruct Hin as [Hin | Hin]; [discriminate Hin |].
      match goal with
      | Hc : getChains w !! _ = Some chain,
        He : strict_eq_str _ "evm" = true,
        Ht : token_of query <> "", Hce : center_of query <> "",
        Hs : services w readErc20Meta _ = Normal meta |- _ =>
          destruct (graph_evm_detail w query chain Hc He meta Ht Hce Hs)
            as (g' & t' & Heq & Hg)
      end.
      rewrite Heq in Hr. injection Hr as Hb Htr. subst t.
      inversion Hg; subst; cbn in Hin; intuition discriminate.
    + destruct Hin as [Hin | [[= <-] | []]]; [discriminate Hin |].
      eauto 8.
    + destruct Hin as [Hin | [[= <-] | Hin]]; [discriminate Hin | |].
      * eauto 8.
      * cbn in Hin; intuition discriminate.
Qed.

End Arguments.

(** * The sample deployment, continued *)

Ltac in_trace := vm_compute; repeat first [left; reflexivity | right].

Ltac given := repeat apply conj; first [assumption | reflexivity].

Lemma missing_token_rejected_witness :
  getChains Sample.world0 !! chainKey_of Cases.blank_token
  = Some Cases.base_chain
  /\ (exists s, Cases.blank_token !! "token" = Some (QStr s)
                /\ blank s = true)
  /\ serve analyze Sample.world0 Cases.blank_token
     = (Normal {| status := 400;
                  body := failure (VStr "Missing token/mint") |}, []).
Proof.
  assert (Hc : getChains Sample.world0 !! chainKey_of Cases.blank_token
               = Some Cases.base_chain) by (vm_compute; reflexivity).
  assert (Ht : exists s, Cases.blank_token !! "token" = Some (QStr s)
                         /\ blank s = true)
    by (exists "  "; split; vm_compute; reflexivity).
  split; [exact Hc |]. split; [exact Ht |].
  exact (missing_token_rejected Sample.world0 Cases.blank_token
           Cases.base_chain Hc (or_intror Ht)).
Defined.

Lemma validation_calls_no_service_witness :
  exists r,
    sent (serve (handler Graph) Sample.world0 Sample.graph_solana) = Some r
    /\ status r = 400
    /\ (snd (serve (handler Graph) Sample.world0 Sample.graph_solana) = []
        \/ (Graph = Graph
            /\ body r = failure (VStr "Bad Sol address")
            /\ snd (serve (handler Graph) Sample.world0 Sample.graph_solana)
               = [Call looksLikeSolAddress
                    [VStr (center_of Sample.graph_solana)]])).
Proof.
  destruct (sent (serve (handler Graph) Sample.world0 Sample.graph_solana))
    as [r |] eqn:Hs; [| vm_compute in Hs; discriminate Hs].
  assert (Hst : status r = 400)
    by (vm_compute in Hs; injection Hs as <-; reflexivity).
  exists r. split; [reflexivity |]. split; [exact Hst |].
  exact (validation_calls_no_service Graph Sample.world0 Sample.graph_solana
           r Hs Hst).
Defined.

Lemma server_error_origin_witness :
  exists r,
    sent (serve (handler Graph) Sample.rpc_down Sample.graph_base) = Some r
    /\ status r = 500
    /\ exists e t,
         snd (serve (handler Graph) Sample.rpc_down Sample.graph_base)
         = (t ++ [console_error [e]])%list
         /\ body r = failure (or (get_data e "message")
                                 (VStr (fallback_message Graph)))
         /\ forallb (fun c => negb (guarded c))
              (calls (snd (serve (handler Graph) Sample.rpc_down
                             Sample.graph_base))) = true.
Proof.
  destruct (sent (serve (handler Graph) Sample.rpc_down Sample.graph_base))
    as [r |] eqn:Hs; [| vm_compute in Hs; discriminate Hs].
  assert (Hst : status r = 500)
    by (vm_compute in Hs; injection Hs as <-; reflexivity).
  exists r. split; [reflexivity |]. split; [exact Hst |].
  exact (server_error_origin Graph Sample.rpc_down Sample.graph_base r Hs
           Hst).
Defined.

Lemma metadata_read_failure_witness :
  In (Call readErc20Meta
        (metadata_args Sample.analyze_base Cases.base_chain))
     (snd (serve (handler Analyze) Sample.rpc_down Sample.analyze_base))
  /\ services Sample.rpc_down readErc20Meta
       (metadata_args Sample.analyze_base Cases.base_chain)
     = Throw (Sample.Error "rpc down")
  /\ sent (serve (handler Analyze) Sample.rpc_down Sample.analyze_base)
     = Some {| status := 500;
               body := failure (or (get_data (Sample.Error "rpc down")
                                      "message")
                                   (VStr (fallback_message Analyze))) |}.
Proof.
  assert (Hin : In (Call readErc20Meta
                      (metadata_args Sample.analyze_base Cases.base_chain))
                   (snd (serve (handler Analyze) Sample.rpc_down
                           Sample.analyze_base))) by in_trace.
  split; [exact Hin |]. split; [reflexivity |].
  exact (metadata_read_failure Analyze Sample.rpc_down Sample.analyze_base
           _ _ Hin eq_refl eq_refl).
Defined.

Lemma graph_builder_failure_witness :
  In (Call buildEvmGraph (graph_args Sample.graph_base Sample.metadata))
     (snd (serve graph Cases.builders_down Sample.graph_base))
  /\ services Cases.builders_down buildEvmGraph
       (graph_args Sample.graph_base Sample.metadata)
     = Throw (Sample.Error "timeout")
  /\ sent (serve graph Cases.builders_down Sample.graph_base)
     = Some {| status := 200;
               body := object
                         [("ok", VBool true);
                          ("fromBlock", VNull); ("toBlock", VNull);
                          ("nodes", empty_array); ("links", empty_array);
                          ("windowBlocks",
                           VNum (blocks_of Sample.graph_base));
                          ("span", VNum (span_of Sample.graph_base));
                          ("delay", VNum (delay_of Sample.graph_base))] |}
  /\ In (console_error [VStr "buildEvmGraph failed:";
                        or (opt_get (Sample.Error "timeout") "message")
                          (Sample.Error "timeout")])
        (snd (serve graph Cases.builders_down Sample.graph_base)).
Proof.
  assert (Hin : In (Call buildEvmGraph
                      (graph_args Sample.graph_base Sample.metadata))
                   (snd (serve graph Cases.builders_down Sample.graph_base)))
    by in_trace.
  split; [exact Hin |]. split; [reflexivity |].
  exact (graph_builder_failure Cases.builders_down Sample.graph_base _ _ Hin
           eq_refl).
Defined.

Lemma jeeter_report_failure_witness :
  In (Call jeeterReport (report_args Sample.analyze_base Sample.metadata))
     (snd (serve jeeter Cases.builders_down Sample.analyze_base))
  /\ services Cases.builders_down jeeterReport
       (report_args Sample.analyze_base Sample.metadata)
     = Throw (Sample.Error "timeout")
  /\ sent (serve jeeter Cases.builders_down Sample.analyze_base)
     = Some {| status := 200;
               body := object
                         [("ok", VBool true);
                          ("priceNow", VNull);
                          ("fromBlock", VNull); ("toBlock", VNull);
                          ("jeeters", empty_array);
                          ("windowBlocks",
                           VNum (blocks_of Sample.analyze_base));
                          ("span", VNum (span_of Sample.analyze_base));
                          ("delay", VNum (delay_of Sample.analyze_base))] |}
  /\ In (console_error [VStr "jeeterReport failed:";
                        or (opt_get (Sample.Error "timeout") "message")
                          (Sample.Error "timeout")])
        (snd (serve jeeter Cases.builders_down Sample.analyze_base)).
Proof.
  assert (Hin : In (Call jeeterReport
                      (report_args Sample.analyze_base Sample.metadata))
                   (snd (serve jeeter Cases.builders_down
                           Sample.analyze_base)))
    by in_trace.
  split; [exact Hin |]. split; [reflexivity |].
  exact (jeeter_report_failure Cases.builders_down Sample.analyze_base _ _
           Hin eq_refl).
Defined.

Lemma without_metadata_witness :
  (getChains Cases.no_metadata !! chainKey_of Sample.graph_base
   = Some Cases.base_chain
   /\ strict_eq_str (kind Cases.base_chain) "evm" = true
   /\ services Cases.no_metadata readErc20Meta
        (metadata_args Sample.graph_base Cases.base_chain) = Normal VNull
   /\ token_of Sample.graph_base <> ""
   /\ center_of Sample.graph_base <> "")
  /\ sent (serve analyze Cases.no_metadata Sample.graph_base)
     = Some {| status := 500;
               body := failure (VStr ("Cannot read properties of "
                                      +:+ type_name VNull
                                      +:+ " (reading 'name')")) |}
  /\ (sent (serve graph Cases.no_metadata Sample.graph_base)
      = Some {| status := 200;
                body := with_window empty_graph
                          (blocks_of Sample.graph_base)
                          (span_of Sample.graph_base)
                          (delay_of Sample.graph_base) |}
      /\ ~ invoked buildEvmGraph
             (snd (serve graph Cases.no_metadata Sample.graph_base)))
  /\ (sent (serve jeeter Cases.no_metadata Sample.graph_base)
      = Some {| status := 200;
                body := with_window empty_report
                          (blocks_of Sample.graph_base)
                          (span_of Sample.graph_base)
                          (delay_of Sample.graph_base) |}
      /\ ~ invoked jeeterReport
             (snd (serve jeeter Cases.no_metadata Sample.graph_base))).
Proof.
  assert (Hc : getChains Cases.no_metadata !! chainKey_of Sample.graph_base
               = Some Cases.base_chain) by (vm_compute; reflexivity).
  assert (Ht : token_of Sample.graph_base <> "")
    by (vm_compute; discriminate).
  assert (Hce : center_of Sample.graph_base <> "")
    by (vm_compute; discriminate).
  split; [given |].
  exact (without_metadata Cases.no_metadata Sample.graph_base
           Cases.base_chain Hc eq_refl VNull eq_refl eq_refl Ht Hce).
Defined.

Lemma graph_payload_top_level_witness :
  In (Call buildEvmGraph (graph_args Sample.graph_base Sample.metadata))
     (snd (serve graph Sample.world0 Sample.graph_base))
  /\ services Sample.world0 buildEvmGraph
       (graph_args Sample.graph_base Sample.metadata)
     = Normal (VObj false [("nodes", empty_array); ("links", empty_array)])
  /\ distinct_keys [("nodes", empty_array); ("links", empty_array)]
  /\ exists r,
       sent (serve graph Sample.world0 Sample.graph_base) = Some r
       /\ status r = 200
       /\ (forall k v,
              lookup_prop k [("nodes", empty_array); ("links", empty_array)]
              = Some v ->
              k <> "windowBlocks" -> k <> "span" -> k <> "delay" ->
              get_data (body r) k = v)
       /\ (lookup_prop "ok" [("nodes", empty_array); ("links", empty_array)]
           = None -> get_data (body r) "ok" = VBool true)
       /\ get_data (body r) "windowBlocks"
          = VNum (blocks_of Sample.graph_base)
       /\ get_data (body r) "span" = VNum (span_of Sample.graph_base)
       /\ get_data (body r) "delay" = VNum (delay_of Sample.graph_base).
Proof.
  assert (Hin : In (Call buildEvmGraph
                      (graph_args Sample.graph_base Sample.metadata))
                   (snd (serve graph Sample.world0 Sample.graph_base)))
    by in_trace.
  assert (Hd : distinct_keys [("nodes", empty_array);
                              ("links", empty_array)]).
  { unfold distinct_keys. apply (bool_decide_unpack _). vm_compute.
    exact I. }
  split; [exact Hin |]. split; [reflexivity |]. split; [exact Hd |].
  exact (graph_payload_top_level Sample.world0 Sample.graph_base _ false _
           Hin eq_refl Hd).
Defined.

Lemma jeeter_success_echo_witness :
  exists r,
    sent (serve jeeter Sample.world0 Sample.analyze_base) = Some r
    /\ status r = 200
    /\ In (Call jeeterReport
             (report_args Sample.analyze_base Sample.metadata))
          (snd (serve jeeter Sample.world0 Sample.analyze_base))
    /\ services Sample.world0 jeeterReport
         (report_args Sample.analyze_base Sample.metadata)
       = Normal (VObj false [("jeeters", empty_array)])
    /\ distinct_keys [("jeeters", empty_array)]
    /\ (get_data (body r) "windowBlocks"
        = VNum (blocks_of Sample.analyze_base)
        /\ get_data (body r) "span" = VNum (span_of Sample.analyze_base)
        /\ get_data (body r) "delay" = VNum (delay_of Sample.analyze_base))
    /\ get_data (body r) "jeeters" = empty_array.
Proof.
  destruct (sent (serve jeeter Sample.world0 Sample.analyze_base))
    as [r |] eqn:Hs; [| vm_compute in Hs; discriminate Hs].
  assert (Hst : status r = 200)
    by (vm_compute in Hs; injection Hs as <-; reflexivity).
  assert (Hin : In (Call jeeterReport
                      (report_args Sample.analyze_base Sample.metadata))
                   (snd (serve jeeter Sample.world0 Sample.analyze_base)))
    by in_trace.
  assert (Hd : distinct_keys [("jeeters", empty_array)]).
  { unfold distinct_keys. apply (bool_decide_unpack _). vm_compute.
    exact I. }
  exists r. split; [reflexivity |]. split; [exact Hst |].
  split; [exact Hin |]. split; [reflexivity |]. split; [exact Hd |].
  pose (He := jeeter_success_echo Sample.world0 Sample.analyze_base r Hs
                Hst).
  split; [exact (proj1 He) |].
  refine (proj2 He _ false _ "jeeters" empty_array Hin eq_refl Hd eq_refl
            _ _ _); discriminate.
Defined.

Lemma analyze_success_facts_witness :
  getChains Sample.world0 !! chainKey_of Sample.analyze_base
  = Some Cases.base_chain
  /\ strict_eq_str (kind Cases.base_chain) "evm" = true
  /\ exists r,
       sent (serve analyze Sample.world0 Sample.analyze_base) = Some r
       /\ status r = 200
       /\ get_data (body r) "ok" = VBool true
       /\ get_data (get_data (body r) "facts") "chain"
          = VStr (chainKey_of Sample.analyze_base)
       /\ get_data (get_data (body r) "facts") "token"
          = VStr (token_of Sample.analyze_base)
       /\ get_data (get_data (body r) "facts") "lp"
          = object [("locked", VNull); ("locker", VNull);
                    ("unlockDate", VNull)]
       /\ get_data (body r) "explorer"
          = VStr (explorer Cases.base_chain +:+ "/token/"
                  +:+ token_of Sample.analyze_base)
       /\ get_data (body r) "windowBlocks"
          = VNum (blocks_of Sample.analyze_base)
       /\ get_data (body r) "span" = VNum (span_of Sample.analyze_base)
       /\ get_data (body r) "delay" = VNum (delay_of Sample.analyze_base).
Proof.
  assert (Hc : getChains Sample.world0 !! chainKey_of Sample.analyze_base
               = Some Cases.base_chain) by (vm_compute; reflexivity).
  destruct (sent (serve analyze Sample.world0 Sample.analyze_base))
    as [r |] eqn:Hs; [| vm_compute in Hs; discriminate Hs].
  assert (Hst : status r = 200)
    by (vm_compute in Hs; injection Hs as <-; reflexivity).
  split; [exact Hc |]. split; [reflexivity |].
  exists r. split; [reflexivity |]. split; [exact Hst |].
  exact (analyze_success_facts Sample.world0 Sample.analyze_base
           Cases.base_chain Hc eq_refl r Hs Hst).
Defined.

Lemma estimator_result_reported_witness :
  In (Call approxTopHoldersPct
        (estimator_args Sample.analyze_base Sample.metadata))
     (snd (serve analyze Cases.estimating Sample.analyze_base))
  /\ services Cases.estimating approxTopHoldersPct
       (estimator_args Sample.analyze_base Sample.metadata)
     = Normal (VNum (of_Z 42))
  /\ exists r,
       sent (serve analyze Cases.estimating Sample.analyze_base) = Some r
       /\ status r = 200
       /\ get_data (get_data (get_data (body r) "facts") "holders")
            "top10Pct" = VNum (of_Z 42)
       /\ get_data (body r) "mode" = VStr "standard".
Proof.
  assert (Hin : In (Call approxTopHoldersPct
                      (estimator_args Sample.analyze_base Sample.metadata))
                   (snd (serve analyze Cases.estimating
                           Sample.analyze_base)))
    by in_trace.
  split; [exact Hin |]. split; [reflexivity |].
  exact (estimator_result_reported Cases.estimating Sample.analyze_base _ _
           Hin eq_refl).
Defined.

Lemma window_handed_on_witness :
  In (Call buildEvmGraph (graph_args Sample.graph_base Sample.metadata))
     (snd (serve graph Sample.world0 Sample.graph_base))
  /\ exists a,
       graph_args Sample.graph_base Sample.metadata = [a]
       /\ carries_window Sample.graph_base a.
Proof.
  assert (Hin : In (Call buildEvmGraph
                      (graph_args Sample.graph_base Sample.metadata))
                   (snd (serve graph Sample.world0 Sample.graph_base)))
    by in_trace.
  split; [exact Hin |].
  exact (proj1 (proj2 (window_handed_on Sample.world0 Sample.graph_base
                         (graph_args Sample.graph_base Sample.metadata)))
           Hin).
Defined.

Lemma complete_metadata_skips_dexscreener_witness :
  getChains Sample.world0 !! chainKey_of Sample.analyze_base
  = Some Cases.base_chain
  /\ services Sample.world0 readErc20Meta
       (metadata_args Sample.analyze_base Cases.base_chain)
     = Normal Sample.metadata
  /\ truthy (get_data Sample.metadata "name") = true
  /\ truthy (get_data Sample.metadata "symbol") = true
  /\ ~ invoked getDexScreenerPairs
         (snd (serve analyze Sample.world0 Sample.analyze_base)).
Proof.
  assert (Hc : getChains Sample.world0 !! chainKey_of Sample.analyze_base
               = Some Cases.base_chain) by (vm_compute; reflexivity).
  split; [exact Hc |]. repeat (split; [reflexivity |]).
  exact (complete_metadata_skips_dexscreener Sample.world0
           Sample.analyze_base Cases.base_chain Hc eq_refl Sample.metadata
           eq_refl eq_refl eq_refl).
Defined.

Lemma metadata_reported_witness :
  getChains Cases.listed !! chainKey_of Sample.analyze_base
  = Some Cases.base_chain
  /\ exists r,
       sent (serve analyze Cases.listed Sample.analyze_base) = Some r
       /\ status r = 200
       /\ exists meta,
            services Cases.listed readErc20Meta
              (metadata_args Sample.analyze_base Cases.base_chain)
            = Normal meta
            /\ (forall k,
                   k = "decimals" \/ k = "totalSupply" \/ k = "owner"
                   \/ k = "ownerRenounced" ->
                   get_data (get_data (body r) "facts") k = get_data meta k)
            /\ (get_data (get_data (body r) "facts") "name"
                = get_data meta "name"
                \/ truthy (get_data meta "name") = false)
            /\ (get_data (get_data (body r) "facts") "symbol"
                = get_data meta "symbol"
                \/ truthy (get_data meta "symbol") = false).
Proof.
  assert (Hc : getChains Cases.listed !! chainKey_of Sample.analyze_base
               = Some Cases.base_chain) by (vm_compute; reflexivity).
  destruct (sent (serve analyze Cases.listed Sample.analyze_base))
    as [r |] eqn:Hs; [| vm_compute in Hs; discriminate Hs].
  assert (Hst : status r = 200)
    by (vm_compute in Hs; injection Hs as <-; reflexivity).
  split; [exact Hc |].
  exists r. split; [reflexivity |]. split; [exact Hst |].
  exact (metadata_reported Cases.listed Sample.analyze_base Cases.base_chain
           Hc eq_refl r Hs Hst).
Defined.

Lemma missing_name_filled_witness :
  (getChains Cases.listed !! chainKey_of Sample.analyze_base
   = Some Cases.base_chain
   /\ token_of Sample.analyze_base <> ""
   /\ services Cases.listed readErc20Meta
        (metadata_args Sample.analyze_base Cases.base_chain)
      = Normal Cases.nameless
   /\ truthy (get_data Cases.nameless "name") = false
   /\ services Cases.listed getDexScreenerPairs
        [VStr (token_of Sample.analyze_base)] = Normal Cases.listing)
  /\ exists r,
       sent (serve analyze Cases.listed Sample.analyze_base) = Some r
       /\ status r = 200
       /\ get_data (get_data (body r) "facts") "name"
          = opt_get (opt_get (opt_get (opt_get Cases.listing "pairs") "0")
                       "baseToken") "name".
Proof.
  assert (Hc : getChains Cases.listed !! chainKey_of Sample.analyze_base
               = Some Cases.base_chain) by (vm_compute; reflexivity).
  assert (Ht : token_of Sample.analyze_base <> "")
    by (vm_compute; discriminate).
  split; [given |].
  exact (missing_name_filled Cases.listed Sample.analyze_base
           Cases.base_chain Hc eq_refl false _ Cases.listing Ht eq_refl
           eq_refl eq_refl eq_refl).
Defined.

Lemma dexscreener_failure_ignored_witness :
  (getChains Cases.dex_down !! chainKey_of Sample.analyze_base
   = Some Cases.base_chain
   /\ services Cases.dex_down readErc20Meta
        (metadata_args Sample.analyze_base Cases.base_chain)
      = Normal Cases.nameless
   /\ services Cases.dex_down getDexScreenerPairs
        [VStr (token_of Sample.analyze_base)]
      = Throw (Sample.Error "dex down"))
  /\ exists r,
       sent (serve analyze Cases.dex_down Sample.analyze_base) = Some r
       /\ status r = 200
       /\ get_data (get_data (body r) "facts") "name"
          = get_data Cases.nameless "name"
       /\ get_data (get_data (body r) "facts") "symbol"
          = get_data Cases.nameless "symbol".
Proof.
  assert (Hc : getChains Cases.dex_down !! chainKey_of Sample.analyze_base
               = Some Cases.base_chain) by (vm_compute; reflexivity).
  destruct (sent (serve analyze Cases.dex_down Sample.analyze_base))
    as [r |] eqn:Hs; [| vm_compute in Hs; discriminate Hs].
  assert (Hst : status r = 200)
    by (vm_compute in Hs; injection Hs as <-; reflexivity).
  split; [given |].
  exists r. split; [reflexivity |]. split; [exact Hst |].
  exact (dexscreener_failure_ignored Cases.dex_down Sample.analyze_base
           Cases.base_chain Hc eq_refl Cases.nameless
           (Sample.Error "dex down") r eq_refl eq_refl Hs Hst).
Defined.

Lemma explorer_facts_reported_witness :
  getChains Sample.world0 !! chainKey_of Sample.analyze_base
  = Some Cases.base_chain
  /\ exists r,
       sent (serve analyze Sample.world0 Sample.analyze_base) = Some r
       /\ status r = 200
       /\ get_data (body r) "contractVerified" = VBool true
       /\ get_data (body r) "explorerOwner" = VNull.
Proof.
  assert (Hc : getChains Sample.world0 !! chainKey_of Sample.analyze_base
               = Some Cases.base_chain) by (vm_compute; reflexivity).
  destruct (sent (serve analyze Sample.world0 Sample.analyze_base))
    as [r |] eqn:Hs; [| vm_compute in Hs; discriminate Hs].
  assert (Hst : status r = 200)
    by (vm_compute in Hs; injection Hs as <-; reflexivity).
  split; [exact Hc |].
  exists r. split; [reflexivity |]. split; [exact Hst |].
  exact (proj2 (explorer_facts_reported Sample.world0 Sample.analyze_base
                  Cases.base_chain Hc eq_refl r Hs Hst)).
Defined.

Lemma blank_number_is_zero_witness :
  blank "  " = true
  /\ blocks_of (<["window" := QStr "  "]> Sample.analyze_base) = of_Z 0
  /\ span_of (<["span" := QStr "  "]> Sample.analyze_base) = of_Z 1
  /\ delay_of (<["delay" := QStr "  "]> Sample.analyze_base) = of_Z 0.
Proof.
  split; [reflexivity |].
  exact (blank_number_is_zero Sample.analyze_base "  " eq_refl).
Defined.

Lemma window_unused_off_evm_witness :
  (getChains Sample.world0 !! chainKey_of Sample.analyze_solana
   = Some Sample.solana_chain
   /\ strict_eq_str (kind Sample.solana_chain) "evm" = false
   /\ chainKey_of Cases.analyze_solana_window
      = chainKey_of Sample.analyze_solana
   /\ token_of Cases.analyze_solana_window = token_of Sample.analyze_solana)
  /\ serve analyze Sample.world0 Sample.analyze_solana
     = serve analyze Sample.world0 Cases.analyze_solana_window.
Proof.
  assert (Hc : getChains Sample.world0 !! chainKey_of Sample.analyze_solana
               = Some Sample.solana_chain) by (vm_compute; reflexivity).
  assert (Hk : chainKey_of Cases.analyze_solana_window
               = chainKey_of Sample.analyze_solana)
    by (vm_compute; reflexivity).
  assert (Ht : token_of Cases.analyze_solana_window
               = token_of Sample.analyze_solana)
    by (vm_compute; reflexivity).
  split; [given |].
  exact (proj1 (window_unused_off_evm Sample.world0 Sample.analyze_solana
                  Cases.analyze_solana_window Sample.solana_chain Hc eq_refl
                  Hk Ht)).
Defined.

Lemma metadata_read_first_witness :
  In (Call readErc20Meta
        (metadata_args Sample.analyze_base Cases.base_chain))
     (snd (serve (handler Jeeter) Sample.world0 Sample.analyze_base))
  /\ exists chain t,
       getChains Sample.world0 !! chainKey_of Sample.analyze_base
       = Some chain
       /\ strict_eq_str (kind chain) "evm" = true
       /\ metadata_args Sample.analyze_base Cases.base_chain
          = [object [("rpc", rpc chain);
                     ("token", VStr (token_of Sample.analyze_base))]]
       /\ snd (serve (handler Jeeter) Sample.world0 Sample.analyze_base)
          = Call readErc20Meta
              (metadata_args Sample.analyze_base Cases.base_chain) :: t.
Proof.
  assert (Hin : In (Call readErc20Meta
                      (metadata_args Sample.analyze_base Cases.base_chain))
                   (snd (serve (handler Jeeter) Sample.world0
                           Sample.analyze_base)))
    by in_trace.
  split; [exact Hin |].
  exact (metadata_read_first Sample.world0 Sample.analyze_base Jeeter _ Hin).
Defined.

Lemma solana_services_arguments_witness :
  In (Call buildSolGraph (sol_graph_args Sample.lenient Sample.graph_solana))
     (snd (serve graph Sample.lenient Sample.graph_solana))
  /\ exists chain looks,
       getChains Sample.lenient !! chainKey_of Sample.graph_solana
       = Some chain
       /\ strict_eq_str (kind chain) "solana" = true
       /\ services Sample.lenient looksLikeSolAddress
            [VStr (center_of Sample.graph_solana)] = Normal looks
       /\ truthy looks = true
       /\ sol_graph_args Sample.lenient Sample.graph_solana
          = [object [("mint", VStr (token_of Sample.graph_solana));
                     ("center", VStr (center_of Sample.graph_solana));
                     ("birdeyeApiKey", VStr (BIRDEYE Sample.lenient))]].
Proof.
  assert (Hin : In (Call buildSolGraph
                      (sol_graph_args Sample.lenient Sample.graph_solana))
                   (snd (serve graph Sample.lenient Sample.graph_solana)))
    by in_trace.
  split; [exact Hin |].
  exact (proj2 (solana_services_arguments Sample.lenient Sample.graph_solana
                  _) Hin).
Defined.

Lemma graph_success_echo_witness :
  exists r,
    sent (serve graph Sample.world0 Sample.graph_base) = Some r
    /\ status r = 200
    /\ distinct_keys [("nodes", empty_array); ("links", empty_array)]
    /\ exists chain meta g,
         getChains Sample.world0 !! chainKey_of Sample.graph_base
         = Some chain
         /\ strict_eq_str (kind chain) "evm" = true
         /\ services Sample.world0 readErc20Meta
              (metadata_args Sample.graph_base chain) = Normal meta
         /\ services Sample.world0 buildEvmGraph
              (graph_args Sample.graph_base meta) = Normal g
         /\ body r
            = object [("ok", VBool true); ("nodes", empty_array);
                      ("links", empty_array);
                      ("windowBlocks", VNum (blocks_of Sample.graph_base));
                      ("span", VNum (span_of Sample.graph_base));
                      ("delay", VNum (delay_of Sample.graph_base))]
         /\ get_data (body r) "windowBlocks"
            = VNum (blocks_of Sample.graph_base)
         /\ get_data (body r) "span" = VNum (span_of Sample.graph_base)
         /\ get_data (body r) "delay" = VNum (delay_of Sample.graph_base)
         /\ get_data (body r) "nodes" = empty_array
         /\ get_data (body r) "ok" = VBool true.
Proof.
  destruct (sent (serve graph Sample.world0 Sample.graph_base))
    as [r |] eqn:Hs; [| vm_compute in Hs; discriminate Hs].
  assert (Hst : status r = 200)
    by (vm_compute in Hs; injection Hs as <-; reflexivity).
  assert (Hd : distinct_keys [("nodes", empty_array);
                              ("links", empty_array)]).
  { unfold distinct_keys. apply (bool_decide_unpack _). vm_compute.
    exact I. }
  exists r. split; [reflexivity |]. split; [exact Hst |].
  split; [exact Hd |].
  destruct (graph_success_echo Sample.world0 Sample.graph_base r Hs Hst)
    as [(chain & meta & g & Hc & He & Hm & Hg & Hb & H1 & H2 & H3 & Hp)
       | ((chain & Hc & Hk) & _)].
  - assert (Hch : chain = Cases.base_chain)
      by (vm_compute in Hc; injection Hc as <-; reflexivity).
    subst chain.
    assert (Hme : meta = Sample.metadata)
      by (vm_compute in Hm; injection Hm as <-; reflexivity).
    subst meta.
    assert (Hgr : g = VObj false [("nodes", empty_array);
                                  ("links", empty_array)]).
    { destruct Hg as [[_ Hg] | [_ [Hn | [e Hg]]]].
      - vm_compute in Hg. injection Hg as <-. reflexivity.
      - discriminate Hn.
      - vm_compute in Hg. discriminate Hg. }
    subst g. exists Cases.base_chain, Sample.metadata. eexists.
    split; [exact Hc |]. split; [exact He |]. split; [exact Hm |].
    split; [reflexivity |]. split; [exact Hb |]. split; [exact H1 |].
    split; [exact H2 |]. split; [exact H3 |].
    destruct (Hp Hd) as (Hk & Hok).
    split; [apply Hk; [reflexivity | discriminate ..] |].
    apply Hok. reflexivity.
  - exfalso. vm_compute in Hc. injection Hc as <-. discriminate Hk.
Defined.
